(** * VgmFile: the VGM / NSF playback engine of vgm_converter

    A shallow embedding of [src/vgm_file.cpp] and the properties of its
    command interpreter, header check, loop handling, sample pump and NSF
    bootstrap.

    Conventions of the embedding.
    - The file image ([const uint8_t *] plus [int size]) is a [list byte];
      [size] is its length.  A pointer is a block of memory and an offset
      into it.  [m_rawData] always points at the first byte of its block, so
      only the block is kept, the empty block standing for [nullptr].  The
      cursor [m_dataPtr] is kept as the block it points into,
      [m_dataImage], and its offset there, [m_dataPtr]: [close] resets
      [m_rawData] and leaves the cursor where it is.  The blocks are the
      buffers of the caller, which are taken to stay as they are while the
      player points into them.
    - Unsigned 32-bit arithmetic is [Z] arithmetic followed by [wrap32].
    - Dereferencing the cursor outside the image, or calling a method of a
      chip that was never created, or overflowing the [int] byte count, is
      undefined behaviour in the C++; here it is an explicit [Crash].
    - The chips ([AY38910], [NesApu]) are external to the file: a chip object
      is represented by the chronological list of the calls made on it, and
      the values it hands back ([getSample], [callSubroutine]) come from the
      oracles of the class [Chips].
    - [LOG]/[LOGI]/[LOGE] belong to the external logger and are not
      modelled. *)

From Stdlib Require Import ZArith List Bool Lia ZifyBool.
From Stdlib.Strings Require Import Byte.
Import ListNotations.
Local Open Scope Z_scope.

(** ** Machine integers and bytes *)

Definition VGM_SAMPLE_RATE : Z := 44100.

Definition INT_MAX : Z := 2147483647.

Definition wrap32 (x : Z) : Z := x mod 2 ^ 32.

Definition u8 (b : byte) : Z := Z.of_N (Byte.to_N b).

(** The byte whose value is [z mod 256] (used to write concrete images). *)
Definition byte_of_Z (z : Z) : byte :=
  match Byte.of_N (Z.to_N (z mod 256)) with
  | Some b => b
  | None => x00
  end.

(** [p[i]] for an image [p]: [None] outside the image. *)
Definition byte_at (img : list byte) (i : Z) : option Z :=
  if 0 <=? i then option_map u8 (nth_error img (Z.to_nat i)) else None.

(** Little-endian fields of a packed header that is known to lie inside the
    image (the callers check [size >= sizeof(header)] first). *)
Definition field8 (img : list byte) (off : Z) : Z :=
  u8 (nth (Z.to_nat off) img x00).

Definition field16 (img : list byte) (off : Z) : Z :=
  field8 img off + 2 ^ 8 * field8 img (off + 1).

Definition field32 (img : list byte) (off : Z) : Z :=
  field8 img off + 2 ^ 8 * field8 img (off + 1)
  + 2 ^ 16 * field8 img (off + 2) + 2 ^ 24 * field8 img (off + 3).

(** The four bytes a little-endian host stores for a [uint32_t]. *)
Definition store32 (x : Z) : list byte :=
  [byte_of_Z x; byte_of_Z (x / 2 ^ 8); byte_of_Z (x / 2 ^ 16);
   byte_of_Z (x / 2 ^ 24)].

(** ** Undefined behaviour as an error result *)

Inductive Fault : Type :=
| OutOfBounds   (* a read through m_dataPtr outside the block it points into *)
| NullChip      (* a method call through a null m_msxChip / m_nesChip *)
| IntOverflow.  (* decoded + 4 does not fit an int *)

Inductive Result (A : Type) : Type :=
| Ok (a : A)
| Crash (f : Fault).

Arguments Ok {A} a.
Arguments Crash {A} f.

Definition bind {A B : Type} (r : Result A) (k : A -> Result B) : Result B :=
  match r with
  | Ok a => k a
  | Crash f => Crash f
  end.

Notation "x <- r ;; k" := (bind r (fun x => k))
  (at level 61, r at next level, right associativity).

(** ** The chips, seen from the file *)

(** Calls the file makes on an [AY38910] (include/ay-3-8910.h). *)
Inductive PsgCall : Type :=
| PsgNew (chipType flags : Z)
| PsgSetFrequency (frequency : Z)
| PsgWrite (reg value : Z)
| PsgGetSample
| PsgSetVolume (volume : Z).

(** Calls the file makes on a [NesApu].  [NesLoadData] is the three-argument
    [setDataBlock(addr, ptr, len)], [NesSetDataBlock] the two-argument one;
    the pointer is recorded as its offset in the image the cursor points
    into.  [NesCpuX],
    [NesCpuA], [NesCpuSp] are the assignments through [cpuState()].  The
    second argument of [NesCallSubroutine] is [None] when the call leaves
    the cycle limit to its default. *)
Inductive NesCall : Type :=
| NesNew
| NesReset
| NesLoadData (addr off len : Z)
| NesSetDataBlock (off len : Z)
| NesWrite (addr value : Z)
| NesSetData (addr value : Z)
| NesCpuX (v : Z)
| NesCpuA (v : Z)
| NesCpuSp (v : Z)
| NesCallSubroutine (addr : Z) (maxCycles : option Z)
| NesGetSample
| NesSetVolume (volume : Z).

(** What the chips answer, as a function of everything done to them so far. *)
Class Chips : Type := {
  psg_sample : list PsgCall -> Z;
  nes_sample : list NesCall -> Z;
  nes_cycles : list NesCall -> Z -> option Z -> Z
}.

(** Sizes of the packed header structs of vgm_file.h, which is not part of
    the sources: they are parameters.  Each struct holds at least the fields
    the code reads. *)
Class Layout : Type := {
  sizeof_VgmHeader : Z;
  sizeof_NsfHeader : Z;
  sizeof_VgmHeader_fields : 0x80 <= sizeof_VgmHeader;
  sizeof_NsfHeader_fields : 0x78 <= sizeof_NsfHeader
}.

(** ** Headers *)

Record VgmHeader : Type := {
  ident : Z;
  eofOffset : Z;
  version : Z;
  totalSamples : Z;
  loopOffset : Z;
  loopSamples : Z;
  rate : Z;
  vgmDataOffset : Z;
  ay8910Type : Z;
  ay8910Flags : Z;
  nesApuClock : Z;
  ay8910Clock : Z
}.

(** Modelled from the spec: the [VgmHeader] struct of vgm_file.h is missing;
    the fields sit at the offsets the spec lists (0x00 magic, 0x04
    eof_offset, 0x08 version, 0x18 total_samples, 0x1C loop_offset, 0x20
    loop_samples, 0x24 rate, 0x34 vgm_data_offset, 0x74 ay8910_type, 0x75
    ay8910_flags, 0x78 nes_apu_clock, 0x7C ay8910_clock), little-endian. *)
Definition read_VgmHeader (img : list byte) : VgmHeader :=
  {| ident := field32 img 0x00;
     eofOffset := field32 img 0x04;
     version := field32 img 0x08;
     totalSamples := field32 img 0x18;
     loopOffset := field32 img 0x1C;
     loopSamples := field32 img 0x20;
     rate := field32 img 0x24;
     vgmDataOffset := field32 img 0x34;
     ay8910Type := field8 img 0x74;
     ay8910Flags := field8 img 0x75;
     nesApuClock := field32 img 0x78;
     ay8910Clock := field32 img 0x7C |}.

Record NsfHeader : Type := {
  nsfIdent : Z;
  songIndex : Z;
  loadAddress : Z;
  initAddress : Z;
  playAddress : Z;
  ntscPlaySpeed : Z;
  bankSwitch : list Z
}.

(** Modelled from the spec: the [NsfHeader] struct of vgm_file.h is missing;
    the spec lists magic, version, song_count, starting_song, load_addr,
    init_addr, play_addr (16-bit), bank_switch (8 bytes) and
    ntsc_play_speed; the offsets are those of the NSF format (the bank
    values at $70-$77, as the comment in setTrack says). *)
Definition read_NsfHeader (img : list byte) : NsfHeader :=
  {| nsfIdent := field32 img 0x00;
     songIndex := field8 img 0x06;
     loadAddress := field16 img 0x08;
     initAddress := field16 img 0x0A;
     playAddress := field16 img 0x0C;
     ntscPlaySpeed := field16 img 0x6E;
     bankSwitch := map (fun i => field8 img (0x70 + i)) [0; 1; 2; 3; 4; 5; 6; 7] |}.

(** ** The player object *)

Record VgmFile : Type := {
  m_header : option VgmHeader;
  m_nsfHeader : option NsfHeader;
  m_rawData : list byte;
  m_size : Z;
  m_dataImage : list byte;
  m_dataPtr : Z;
  m_rate : Z;
  m_headerSize : Z;
  m_vgmDataOffset : Z;
  m_loopOffset : Z;
  m_loops : Z;
  m_samplesPlayed : Z;
  m_waitSamples : Z;
  m_duration : Z;
  m_writeScaler : Z;
  m_writeCounter : Z;
  m_sampleSum : Z;
  m_sampleSumValid : bool;
  m_msxChip : option (list PsgCall);
  m_nesChip : option (list NesCall)
}.

Definition set_dataImage (v : list byte) (s : VgmFile) : VgmFile :=
  {| m_header := m_header s; m_nsfHeader := m_nsfHeader s;
     m_rawData := m_rawData s; m_size := m_size s;
     m_dataImage := v; m_dataPtr := m_dataPtr s;
     m_rate := m_rate s; m_headerSize := m_headerSize s;
     m_vgmDataOffset := m_vgmDataOffset s; m_loopOffset := m_loopOffset s;
     m_loops := m_loops s; m_samplesPlayed := m_samplesPlayed s;
     m_waitSamples := m_waitSamples s; m_duration := m_duration s;
     m_writeScaler := m_writeScaler s; m_writeCounter := m_writeCounter s;
     m_sampleSum := m_sampleSum s; m_sampleSumValid := m_sampleSumValid s;
     m_msxChip := m_msxChip s; m_nesChip := m_nesChip s |}.

Definition set_dataPtr (v : Z) (s : VgmFile) : VgmFile :=
  {| m_header := m_header s; m_nsfHeader := m_nsfHeader s;
     m_rawData := m_rawData s; m_size := m_size s;
     m_dataImage := m_dataImage s; m_dataPtr := v;
     m_rate := m_rate s; m_headerSize := m_headerSize s;
     m_vgmDataOffset := m_vgmDataOffset s; m_loopOffset := m_loopOffset s;
     m_loops := m_loops s; m_samplesPlayed := m_samplesPlayed s;
     m_waitSamples := m_waitSamples s; m_duration := m_duration s;
     m_writeScaler := m_writeScaler s; m_writeCounter := m_writeCounter s;
     m_sampleSum := m_sampleSum s; m_sampleSumValid := m_sampleSumValid s;
     m_msxChip := m_msxChip s; m_nesChip := m_nesChip s |}.

Definition set_loops (v : Z) (s : VgmFile) : VgmFile :=
  {| m_header := m_header s; m_nsfHeader := m_nsfHeader s;
     m_rawData := m_rawData s; m_size := m_size s;
     m_dataImage := m_dataImage s; m_dataPtr := m_dataPtr s;
     m_rate := m_rate s; m_headerSize := m_headerSize s;
     m_vgmDataOffset := m_vgmDataOffset s; m_loopOffset := m_loopOffset s;
     m_loops := v; m_samplesPlayed := m_samplesPlayed s;
     m_waitSamples := m_waitSamples s; m_duration := m_duration s;
     m_writeScaler := m_writeScaler s; m_writeCounter := m_writeCounter s;
     m_sampleSum := m_sampleSum s; m_sampleSumValid := m_sampleSumValid s;
     m_msxChip := m_msxChip s; m_nesChip := m_nesChip s |}.

Definition set_samplesPlayed (v : Z) (s : VgmFile) : VgmFile :=
  {| m_header := m_header s; m_nsfHeader := m_nsfHeader s;
     m_rawData := m_rawData s; m_size := m_size s;
     m_dataImage := m_dataImage s; m_dataPtr := m_dataPtr s;
     m_rate := m_rate s; m_headerSize := m_headerSize s;
     m_vgmDataOffset := m_vgmDataOffset s; m_loopOffset := m_loopOffset s;
     m_loops := m_loops s; m_samplesPlayed := v;
     m_waitSamples := m_waitSamples s; m_duration := m_duration s;
     m_writeScaler := m_writeScaler s; m_writeCounter := m_writeCounter s;
     m_sampleSum := m_sampleSum s; m_sampleSumValid := m_sampleSumValid s;
     m_msxChip := m_msxChip s; m_nesChip := m_nesChip s |}.

Definition set_waitSamples (v : Z) (s : VgmFile) : VgmFile :=
  {| m_header := m_header s; m_nsfHeader := m_nsfHeader s;
     m_rawData := m_rawData s; m_size := m_size s;
     m_dataImage := m_dataImage s; m_dataPtr := m_dataPtr s;
     m_rate := m_rate s; m_headerSize := m_headerSize s;
     m_vgmDataOffset := m_vgmDataOffset s; m_loopOffset := m_loopOffset s;
     m_loops := m_loops s; m_samplesPlayed := m_samplesPlayed s;
     m_waitSamples := v; m_duration := m_duration s;
     m_writeScaler := m_writeScaler s; m_writeCounter := m_writeCounter s;
     m_sampleSum := m_sampleSum s; m_sampleSumValid := m_sampleSumValid s;
     m_msxChip := m_msxChip s; m_nesChip := m_nesChip s |}.

Definition set_duration (v : Z) (s : VgmFile) : VgmFile :=
  {| m_header := m_header s; m_nsfHeader := m_nsfHeader s;
     m_rawData := m_rawData s; m_size := m_size s;
     m_dataImage := m_dataImage s; m_dataPtr := m_dataPtr s;
     m_rate := m_rate s; m_headerSize := m_headerSize s;
     m_vgmDataOffset := m_vgmDataOffset s; m_loopOffset := m_loopOffset s;
     m_loops := m_loops s; m_samplesPlayed := m_samplesPlayed s;
     m_waitSamples := m_waitSamples s; m_duration := v;
     m_writeScaler := m_writeScaler s; m_writeCounter := m_writeCounter s;
     m_sampleSum := m_sampleSum s; m_sampleSumValid := m_sampleSumValid s;
     m_msxChip := m_msxChip s; m_nesChip := m_nesChip s |}.

Definition set_writeScaler (v : Z) (s : VgmFile) : VgmFile :=
  {| m_header := m_header s; m_nsfHeader := m_nsfHeader s;
     m_rawData := m_rawData s; m_size := m_size s;
     m_dataImage := m_dataImage s; m_dataPtr := m_dataPtr s;
     m_rate := m_rate s; m_headerSize := m_headerSize s;
     m_vgmDataOffset := m_vgmDataOffset s; m_loopOffset := m_loopOffset s;
     m_loops := m_loops s; m_samplesPlayed := m_samplesPlayed s;
     m_waitSamples := m_waitSamples s; m_duration := m_duration s;
     m_writeScaler := v; m_writeCounter := m_writeCounter s;
     m_sampleSum := m_sampleSum s; m_sampleSumValid := m_sampleSumValid s;
     m_msxChip := m_msxChip s; m_nesChip := m_nesChip s |}.

Definition set_writeCounter (v : Z) (s : VgmFile) : VgmFile :=
  {| m_header := m_header s; m_nsfHeader := m_nsfHeader s;
     m_rawData := m_rawData s; m_size := m_size s;
     m_dataImage := m_dataImage s; m_dataPtr := m_dataPtr s;
     m_rate := m_rate s; m_headerSize := m_headerSize s;
     m_vgmDataOffset := m_vgmDataOffset s; m_loopOffset := m_loopOffset s;
     m_loops := m_loops s; m_samplesPlayed := m_samplesPlayed s;
     m_waitSamples := m_waitSamples s; m_duration := m_duration s;
     m_writeScaler := m_writeScaler s; m_writeCounter := v;
     m_sampleSum := m_sampleSum s; m_sampleSumValid := m_sampleSumValid s;
     m_msxChip := m_msxChip s; m_nesChip := m_nesChip s |}.

Definition set_sampleSum (v : Z) (s : VgmFile) : VgmFile :=
  {| m_header := m_header s; m_nsfHeader := m_nsfHeader s;
     m_rawData := m_rawData s; m_size := m_size s;
     m_dataImage := m_dataImage s; m_dataPtr := m_dataPtr s;
     m_rate := m_rate s; m_headerSize := m_headerSize s;
     m_vgmDataOffset := m_vgmDataOffset s; m_loopOffset := m_loopOffset s;
     m_loops := m_loops s; m_samplesPlayed := m_samplesPlayed s;
     m_waitSamples := m_waitSamples s; m_duration := m_duration s;
     m_writeScaler := m_writeScaler s; m_writeCounter := m_writeCounter s;
     m_sampleSum := v; m_sampleSumValid := m_sampleSumValid s;
     m_msxChip := m_msxChip s; m_nesChip := m_nesChip s |}.

Definition set_sampleSumValid (v : bool) (s : VgmFile) : VgmFile :=
  {| m_header := m_header s; m_nsfHeader := m_nsfHeader s;
     m_rawData := m_rawData s; m_size := m_size s;
     m_dataImage := m_dataImage s; m_dataPtr := m_dataPtr s;
     m_rate := m_rate s; m_headerSize := m_headerSize s;
     m_vgmDataOffset := m_vgmDataOffset s; m_loopOffset := m_loopOffset s;
     m_loops := m_loops s; m_samplesPlayed := m_samplesPlayed s;
     m_waitSamples := m_waitSamples s; m_duration := m_duration s;
     m_writeScaler := m_writeScaler s; m_writeCounter := m_writeCounter s;
     m_sampleSum := m_sampleSum s; m_sampleSumValid := v;
     m_msxChip := m_msxChip s; m_nesChip := m_nesChip s |}.

Definition set_msxChip (v : option (list PsgCall)) (s : VgmFile) : VgmFile :=
  {| m_header := m_header s; m_nsfHeader := m_nsfHeader s;
     m_rawData := m_rawData s; m_size := m_size s;
     m_dataImage := m_dataImage s; m_dataPtr := m_dataPtr s;
     m_rate := m_rate s; m_headerSize := m_headerSize s;
     m_vgmDataOffset := m_vgmDataOffset s; m_loopOffset := m_loopOffset s;
     m_loops := m_loops s; m_samplesPlayed := m_samplesPlayed s;
     m_waitSamples := m_waitSamples s; m_duration := m_duration s;
     m_writeScaler := m_writeScaler s; m_writeCounter := m_writeCounter s;
     m_sampleSum := m_sampleSum s; m_sampleSumValid := m_sampleSumValid s;
     m_msxChip := v; m_nesChip := m_nesChip s |}.

Definition set_nesChip (v : option (list NesCall)) (s : VgmFile) : VgmFile :=
  {| m_header := m_header s; m_nsfHeader := m_nsfHeader s;
     m_rawData := m_rawData s; m_size := m_size s;
     m_dataImage := m_dataImage s; m_dataPtr := m_dataPtr s;
     m_rate := m_rate s; m_headerSize := m_headerSize s;
     m_vgmDataOffset := m_vgmDataOffset s; m_loopOffset := m_loopOffset s;
     m_loops := m_loops s; m_samplesPlayed := m_samplesPlayed s;
     m_waitSamples := m_waitSamples s; m_duration := m_duration s;
     m_writeScaler := m_writeScaler s; m_writeCounter := m_writeCounter s;
     m_sampleSum := m_sampleSum s; m_sampleSumValid := m_sampleSumValid s;
     m_msxChip := m_msxChip s; m_nesChip := v |}.

(** [setMaxDuration]: milliseconds to 44.1 kHz samples. *)
Definition setMaxDuration (milliseconds : Z) (s : VgmFile) : VgmFile :=
  set_duration (milliseconds * VGM_SAMPLE_RATE / 1000) s.

(** The constructor: both scalers at 44100 and a cap of three minutes; the
    members that vgm_file.h initialises are taken as null / zero. *)
Definition newVgmFile : VgmFile :=
  setMaxDuration (3 * 60 * 1000)
    {| m_header := None; m_nsfHeader := None; m_rawData := []; m_size := 0;
       m_dataImage := []; m_dataPtr := 0; m_rate := 0; m_headerSize := 0; m_vgmDataOffset := 0;
       m_loopOffset := 0; m_loops := 0; m_samplesPlayed := 0;
       m_waitSamples := 0; m_duration := 0;
       m_writeScaler := VGM_SAMPLE_RATE; m_writeCounter := 0;
       m_sampleSum := 0; m_sampleSumValid := false;
       m_msxChip := None; m_nesChip := None |}.

Definition deleteChips (s : VgmFile) : VgmFile :=
  set_nesChip None (set_msxChip None s).

(** [close]: the two header pointers and [m_rawData] are reset; the cursor
    [m_dataPtr] is not, it still points into the image it pointed into. *)
Definition close (s : VgmFile) : VgmFile :=
  deleteChips
    (set_samplesPlayed 0
       {| m_header := None; m_nsfHeader := None; m_rawData := [];
          m_size := m_size s;
          m_dataImage := m_dataImage s; m_dataPtr := m_dataPtr s;
          m_rate := m_rate s; m_headerSize := m_headerSize s;
          m_vgmDataOffset := m_vgmDataOffset s;
          m_loopOffset := m_loopOffset s; m_loops := m_loops s;
          m_samplesPlayed := m_samplesPlayed s;
          m_waitSamples := m_waitSamples s; m_duration := m_duration s;
          m_writeScaler := m_writeScaler s;
          m_writeCounter := m_writeCounter s;
          m_sampleSum := m_sampleSum s;
          m_sampleSumValid := m_sampleSumValid s;
          m_msxChip := m_msxChip s; m_nesChip := m_nesChip s |}).

Definition setSampleFrequency (frequency : Z) (s : VgmFile) : VgmFile :=
  set_writeScaler frequency s.

(** ** Opening a file *)

Section Player.

Context {L : Layout} {C : Chips}.

(** [openVgm].  [size] is an [int] that is at least [sizeof(VgmHeader)] when
    it is compared with [eofOffset], so converting [size - 4] to unsigned
    changes nothing.  The two sums that involve a header field are unsigned
    32-bit sums. *)
Definition openVgm (vgmdata : list byte) (s0 : VgmFile) : bool * VgmFile :=
  let size := Z.of_nat (length vgmdata) in
  let s := close s0 in
  if size <? sizeof_VgmHeader then (false, s)
  else
    let h := read_VgmHeader vgmdata in
    let s1 :=
      {| m_header := Some h; m_nsfHeader := m_nsfHeader s;
         m_rawData := vgmdata; m_size := size;
         m_dataImage := vgmdata; m_dataPtr := 0;
         m_rate := m_rate s; m_headerSize := m_headerSize s;
         m_vgmDataOffset := m_vgmDataOffset s;
         m_loopOffset := m_loopOffset s; m_loops := m_loops s;
         m_samplesPlayed := m_samplesPlayed s;
         m_waitSamples := m_waitSamples s; m_duration := m_duration s;
         m_writeScaler := m_writeScaler s;
         m_writeCounter := m_writeCounter s;
         m_sampleSum := m_sampleSum s;
         m_sampleSumValid := m_sampleSumValid s;
         m_msxChip := m_msxChip s; m_nesChip := m_nesChip s |} in
    if negb (ident h =? 0x206D6756) then (false, s1)
    else if negb (eofOffset h =? size - 4) then (false, s1)
    else
      let dataOffset :=
        if (0x00000150 <=? version h) && negb (vgmDataOffset h =? 0)
        then wrap32 (vgmDataOffset h + 0x34) else 0x40 in
      (true,
       {| m_header := Some h; m_nsfHeader := m_nsfHeader s;
          m_rawData := vgmdata; m_size := size;
          m_dataImage := vgmdata; m_dataPtr := 0 + dataOffset;
          m_rate := if rate h =? 0 then 50 else rate h;
          m_headerSize := if 0x00000161 <=? version h then 128 else 64;
          m_vgmDataOffset := dataOffset;
          m_loopOffset :=
            if negb (loopOffset h =? 0) then wrap32 (0x1C + loopOffset h)
            else 0;
          m_loops := if negb (loopOffset h =? 0) then 2 else 1;
          m_samplesPlayed := 0;
          m_waitSamples := 0;
          m_duration := m_duration s;
          m_writeScaler := m_writeScaler s;
          m_writeCounter := 0;
          m_sampleSum := 0;
          m_sampleSumValid := false;
          m_msxChip :=
            if negb (ay8910Clock h =? 0)
            then Some [PsgNew (ay8910Type h) (ay8910Flags h);
                       PsgSetFrequency (ay8910Clock h)]
            else m_msxChip s;
          m_nesChip :=
            if negb (ay8910Clock h =? 0) then m_nesChip s
            else if negb (nesApuClock h =? 0) then Some [NesNew]
            else m_nesChip s |}).

(** One call on the NES chip; a null [m_nesChip] is a crash. *)
Definition nes_call (e : NesCall) (s : VgmFile) : Result VgmFile :=
  match m_nesChip s with
  | Some calls => Ok (set_nesChip (Some (calls ++ [e])) s)
  | None => Crash NullChip
  end.

Definition psg_call (e : PsgCall) (s : VgmFile) : Result VgmFile :=
  match m_msxChip s with
  | Some calls => Ok (set_msxChip (Some (calls ++ [e])) s)
  | None => Crash NullChip
  end.

(** [for (i = lo; i < hi; i++) body(i)], the body being one chip call. *)
Fixpoint nes_for (n : nat) (i : Z) (body : Z -> NesCall) (s : VgmFile)
  : Result VgmFile :=
  match n with
  | O => Ok s
  | S n' => s' <- nes_call (body i) s ;; nes_for n' (i + 1) body s'
  end.

Definition nes_for_range (lo hi : Z) (body : Z -> NesCall) (s : VgmFile)
  : Result VgmFile :=
  nes_for (Z.to_nat (hi - lo)) lo body s.

(** The value [callSubroutine] returns, and the call itself. *)
Definition callSubroutine (addr : Z) (maxCycles : option Z) (s : VgmFile)
  : Result (Z * VgmFile) :=
  match m_nesChip s with
  | Some calls =>
      Ok (nes_cycles calls addr maxCycles,
          set_nesChip (Some (calls ++ [NesCallSubroutine addr maxCycles])) s)
  | None => Crash NullChip
  end.

(** [setTrack]. *)
Definition setTrack (track : Z) (s : VgmFile) : Result (bool * VgmFile) :=
  match m_header s with
  | Some _ => Ok (true, s)
  | None =>
      match m_nsfHeader s with
      | None => Ok (false, s)
      | Some h =>
          s <- nes_call NesReset s ;;
          s <- nes_call (NesLoadData (loadAddress h) (m_dataPtr s + 0x80)
                           (m_size s - 0x80)) s ;;
          let useBanks := existsb (fun b => negb (b =? 0)) (bankSwitch h) in
          s <- (if useBanks
                then nes_for_range 0 8
                       (fun i => NesWrite (0x5FF8 + i)
                                   (nth (Z.to_nat i) (bankSwitch h) 0)) s
                else Ok s) ;;
          s <- nes_for_range 0 0x07FF (fun i => NesSetData i 0) s ;;
          s <- nes_for_range 0x4000 0x4013 (fun i => NesSetData i 0) s ;;
          s <- nes_call (NesSetData 0x4015 0x00) s ;;
          s <- nes_call (NesSetData 0x4015 0x0F) s ;;
          s <- nes_call (NesSetData 0x4017 0x40) s ;;
          s <- nes_call (NesCpuX 0) s ;;
          s <- nes_call (NesCpuA (if track <? songIndex h then track else 0)) s ;;
          s <- nes_call (NesCpuSp 0xEF) s ;;
          r <- callSubroutine (initAddress h) None s ;;
          let (cycles, s) := r in
          if cycles <? 0 then Ok (false, s)
          else Ok (true, set_samplesPlayed 0 s)
      end
  end.

(** [openNsf]. *)
Definition openNsf (nsfdata : list byte) (s0 : VgmFile)
  : Result (bool * VgmFile) :=
  let size := Z.of_nat (length nsfdata) in
  let s := close s0 in
  if size <? sizeof_NsfHeader then Ok (false, s)
  else
    let h := read_NsfHeader nsfdata in
    let s1 :=
      {| m_header := m_header s; m_nsfHeader := Some h;
         m_rawData := nsfdata; m_size := size;
         m_dataImage := nsfdata; m_dataPtr := 0;
         m_rate := m_rate s; m_headerSize := m_headerSize s;
         m_vgmDataOffset := m_vgmDataOffset s;
         m_loopOffset := m_loopOffset s; m_loops := m_loops s;
         m_samplesPlayed := m_samplesPlayed s;
         m_waitSamples := m_waitSamples s; m_duration := m_duration s;
         m_writeScaler := m_writeScaler s;
         m_writeCounter := m_writeCounter s;
         m_sampleSum := m_sampleSum s;
         m_sampleSumValid := m_sampleSumValid s;
         m_msxChip := m_msxChip s; m_nesChip := m_nesChip s |} in
    if negb (nsfIdent h =? 0x4D53454E) then Ok (false, s1)
    else
      let s2 := set_nesChip (Some [NesNew]) s1 in
      r <- setTrack 0 s2 ;;
      let (ok, s3) := r in
      if negb ok then Ok (false, s3)
      else Ok (true, set_waitSamples 0 (set_samplesPlayed 0 s3)).

(** [open]: try VGM, then NSF.  It clears both header pointers first. *)
Definition open (data : list byte) (s0 : VgmFile) : Result (bool * VgmFile) :=
  let s :=
    {| m_header := None; m_nsfHeader := None;
       m_rawData := m_rawData s0; m_size := m_size s0;
       m_dataImage := m_dataImage s0; m_dataPtr := m_dataPtr s0;
       m_rate := m_rate s0; m_headerSize := m_headerSize s0;
       m_vgmDataOffset := m_vgmDataOffset s0;
       m_loopOffset := m_loopOffset s0; m_loops := m_loops s0;
       m_samplesPlayed := m_samplesPlayed s0;
       m_waitSamples := m_waitSamples s0; m_duration := m_duration s0;
       m_writeScaler := m_writeScaler s0;
       m_writeCounter := m_writeCounter s0;
       m_sampleSum := m_sampleSum s0;
       m_sampleSumValid := m_sampleSumValid s0;
       m_msxChip := m_msxChip s0; m_nesChip := m_nesChip s0 |} in
  let (ok, s1) := openVgm data s in
  if ok then Ok (true, s1) else openNsf data s1.

(** ** The VGM command interpreter *)

(** [m_dataPtr[k]]: a read in the block the cursor points into. *)
Definition rd (s : VgmFile) (k : Z) : Result Z :=
  match byte_at (m_dataImage s) (m_dataPtr s + k) with
  | Some v => Ok v
  | None => Crash OutOfBounds
  end.

(** [m_dataPtr += n; break;] followed by the [return true] after the switch. *)
Definition advance (n : Z) (s : VgmFile) : Result (bool * VgmFile) :=
  Ok (true, set_dataPtr (m_dataPtr s + n) s).

Definition between (lo hi x : Z) : bool := (lo <=? x) && (x <=? hi).

(** [nextCommand]: the switch, case by case in the order of the source. *)
Definition nextCommand (s : VgmFile) : Result (bool * VgmFile) :=
  cmd <- rd s 0 ;;
  if cmd =? 0x31 then advance 2 s
  else if cmd =? 0x4F then advance 2 s
  else if cmd =? 0x50 then advance 2 s
  else if between 0x51 0x5F cmd then advance 3 s
  else if cmd =? 0x61 then
    lo <- rd s 1 ;;
    hi <- rd s 2 ;;
    advance 3 (set_waitSamples (Z.lor lo (Z.shiftl hi 8) + 1) s)
  else if cmd =? 0x62 then advance 1 (set_waitSamples 735 s)
  else if cmd =? 0x63 then advance 1 (set_waitSamples 882 s)
  else if cmd =? 0x66 then
    if negb (m_loopOffset s =? 0) && negb (m_loops s =? 1) then
      let s1 :=
        set_dataPtr (0 + m_loopOffset s) (set_dataImage (m_rawData s) s) in
      Ok (true,
          if negb (m_loops s1 =? 0) then set_loops (m_loops s1 - 1) s1 else s1)
    else Ok (false, s)
  else if cmd =? 0x67 then
    b3 <- rd s 3 ;;
    b4 <- rd s 4 ;;
    b5 <- rd s 5 ;;
    b6 <- rd s 6 ;;
    let dataLength :=
      wrap32 (b3 + Z.shiftl b4 8 + Z.shiftl b5 16 + Z.shiftl b6 24) in
    s1 <- match m_nesChip s with
          | Some _ => nes_call (NesSetDataBlock (m_dataPtr s + 7) dataLength) s
          | None => Ok s
          end ;;
    advance (wrap32 (7 + dataLength)) s1
  else if cmd =? 0x68 then Ok (true, s)
  else if cmd =? 0xA0 then
    aa <- rd s 1 ;;
    dd <- rd s 2 ;;
    s1 <- psg_call (PsgWrite aa dd) s ;;
    advance 3 s1
  else if cmd =? 0xB4 then
    aa <- rd s 1 ;;
    dd <- rd s 2 ;;
    s1 <- nes_call (NesWrite aa dd) s ;;
    advance 3 s1
  else if between 0xB0 0xBF cmd then advance 3 s
  else if (cmd =? 0x30) || (cmd =? 0x3F) then advance 2 s
  else if between 0xC0 0xC8 cmd || between 0xD0 0xD6 cmd then advance 4 s
  else if (cmd =? 0xE0) || (cmd =? 0xE1) then advance 5 s
  else (* default: *)
    if between 0x70 0x7F cmd then
      advance 1 (set_waitSamples (Z.land cmd 0x0F + 1) s)
    else if between 0x80 0x8F cmd then advance 1 s
    else if between 0x90 0x95 cmd then Ok (true, s)
    else if between 0x32 0x3E cmd then advance 2 s
    else if between 0x40 0x4E cmd then advance 3 s
    else if between 0xA1 0xAF cmd then advance 3 s
    else if between 0xC9 0xCF cmd || between 0xD7 0xDF cmd then advance 4 s
    else if (0xE2 <=? cmd) && (cmd <=? 0xFF) then advance 5 s
    else Ok (false, s).

(** [setVolume]: both calls are guarded; the PSG takes the volume as a
    [uint8_t]. *)
Definition setVolume (volume : Z) (s : VgmFile) : VgmFile :=
  let s1 :=
    match m_msxChip s with
    | Some calls => set_msxChip (Some (calls ++ [PsgSetVolume (volume mod 256)])) s
    | None => s
    end in
  match m_nesChip s1 with
  | Some calls => set_nesChip (Some (calls ++ [NesSetVolume volume])) s1
  | None => s1
  end.

Definition getTrackCount (s : VgmFile) : Z :=
  match m_nsfHeader s with
  | Some h => songIndex h
  | None => 1
  end.

(** ** The sample pump *)

(** The two [uint16_t] lanes of a packed sample on a little-endian host. *)
Definition left (x : Z) : Z := x mod 2 ^ 16.
Definition right (x : Z) : Z := (x / 2 ^ 16) mod 2 ^ 16.
Definition pack (l r : Z) : Z := l + 2 ^ 16 * r.

(** [nextSample] of [interpolateSample]: 0, then the PSG's sample if there is
    a PSG, then the NES chip's sample if there is one. *)
Definition pullSample (s : VgmFile) : Z * VgmFile :=
  let r0 := (0, s) in
  let r1 :=
    match m_msxChip s with
    | Some calls =>
        (wrap32 (psg_sample calls),
         set_msxChip (Some (calls ++ [PsgGetSample])) s)
    | None => r0
    end in
  match m_nesChip (snd r1) with
  | Some calls =>
      (wrap32 (nes_sample calls),
       set_nesChip (Some (calls ++ [NesGetSample])) (snd r1))
  | None => r1
  end.

(** One lane of the merge: the two [if]s at the end of [interpolateSample]. *)
Definition mergeLane (source dest : Z) : Z :=
  if ((8192 <=? source) && (dest <? source))
     || ((source <? 8192) && (source <? dest))
  then source else dest.

Definition interpolateSample (s : VgmFile) : VgmFile :=
  let (nextSample, s0) := pullSample s in
  let s1 :=
    if negb (m_sampleSumValid s0)
    then set_sampleSumValid true (set_sampleSum nextSample s0)
    else s0 in
  let s2 :=
    set_sampleSum
      (pack (mergeLane (left nextSample) (left (m_sampleSum s1)))
            (right (m_sampleSum s1))) s1 in
  set_sampleSum
    (pack (left (m_sampleSum s2))
          (mergeLane (right nextSample) (right (m_sampleSum s2)))) s2.

(** The body of [while ( m_waitSamples && (decoded + 4 <= maxSize) )], the
    same in both decoders: one 44.1 kHz tick.  [out] is what has been
    written to [outBuffer] so far.  The two counters are taken as
    [uint32_t], the type [setSampleFrequency] receives the scaler in
    (vgm_file.h, which declares the members, is not among the sources). *)
Definition pumpStep (s : VgmFile) (out : list byte) (decoded : Z)
  : VgmFile * list byte * Z :=
  let s1 := interpolateSample s in
  let s2 := set_writeCounter (wrap32 (m_writeCounter s1 + m_writeScaler s1)) s1 in
  let s3 := set_samplesPlayed (wrap32 (m_samplesPlayed s2 + 1)) s2 in
  let s4 := set_waitSamples (m_waitSamples s3 - 1) s3 in
  if VGM_SAMPLE_RATE <=? m_writeCounter s4 then
    (set_sampleSumValid false
       (set_writeCounter (m_writeCounter s4 - VGM_SAMPLE_RATE) s4),
     out ++ store32 (m_sampleSum s4),
     decoded + 4)
  else (s4, out, decoded).

(** [decoded + 4 <= maxSize] on [int]s. *)
Definition roomForFrame (decoded maxSize : Z) : Result bool :=
  if INT_MAX <? decoded + 4 then Crash IntOverflow
  else Ok (decoded + 4 <=? maxSize).

(** The pump loop.  Every turn decrements [m_waitSamples], so
    [m_waitSamples] turns are all it can make. *)
Fixpoint pump (n : nat) (maxSize : Z) (s : VgmFile) (out : list byte)
  (decoded : Z) : Result (VgmFile * list byte * Z) :=
  match n with
  | O => Ok (s, out, decoded)
  | S n' =>
      if m_waitSamples s =? 0 then Ok (s, out, decoded)
      else
        room <- roomForFrame decoded maxSize ;;
        if room then
          let '(s', out', decoded') := pumpStep s out decoded in
          pump n' maxSize s' out' decoded'
        else Ok (s, out, decoded)
  end.

(** How the loop [while ( !m_waitSamples )] of [decodeVgmPcm] ends. *)
Inductive Fetched : Type :=
| FetchReturn (s : VgmFile)    (* return decoded; *)
| FetchWait (s : VgmFile)      (* the loop is left with m_waitSamples != 0 *)
| FetchRunning (s : VgmFile)   (* still inside the loop when the fuel ran out *)
| FetchCrash (f : Fault).

(** One unit of fuel per call of [nextCommand]. *)
Fixpoint fetchCommands (fuel : nat) (s : VgmFile) : Fetched :=
  if negb (m_waitSamples s =? 0) then FetchWait s
  else if negb (m_duration s =? 0) && (m_duration s <=? m_samplesPlayed s)
  then FetchReturn s
  else
    match fuel with
    | O => FetchRunning s
    | S fuel' =>
        match nextCommand s with
        | Crash f => FetchCrash f
        | Ok (false, s') => FetchReturn s'
        | Ok (true, s') => fetchCommands fuel' s'
        end
    end.

(** What a call of a decoder comes to: it returns [decoded], or it is still
    running when the fuel is spent, or it crashes. *)
Inductive Outcome : Type :=
| Returned (decoded : Z) (out : list byte) (s : VgmFile)
| Running (decoded : Z) (out : list byte) (s : VgmFile)
| Aborted (f : Fault).

(** [decodeVgmPcm]: the outer loop, one unit of fuel per turn. *)
Fixpoint decodeVgmLoop (fuel : nat) (maxSize : Z) (s : VgmFile)
  (out : list byte) (decoded : Z) : Outcome :=
  match fuel with
  | O => Running decoded out s
  | S fuel' =>
      match roomForFrame decoded maxSize with
      | Crash f => Aborted f
      | Ok false => Returned decoded out s
      | Ok true =>
          match fetchCommands fuel' s with
          | FetchReturn s' => Returned decoded out s'
          | FetchRunning s' => Running decoded out s'
          | FetchCrash f => Aborted f
          | FetchWait s' =>
              match pump (Z.to_nat (m_waitSamples s')) maxSize s' out decoded with
              | Crash f => Aborted f
              | Ok (s'', out', decoded') =>
                  decodeVgmLoop fuel' maxSize s'' out' decoded'
              end
          end
      end
  end.

Definition decodeVgmPcm (fuel : nat) (maxSize : Z) (s : VgmFile) : Outcome :=
  decodeVgmLoop fuel maxSize s [] 0.

(** [decodeNfsPcm]; [h] is [*m_nsfHeader]. *)
Fixpoint decodeNfsLoop (h : NsfHeader) (fuel : nat) (maxSize : Z)
  (s : VgmFile) (out : list byte) (decoded : Z) : Outcome :=
  match fuel with
  | O => Running decoded out s
  | S fuel' =>
      match roomForFrame decoded maxSize with
      | Crash f => Aborted f
      | Ok false => Returned decoded out s
      | Ok true =>
          let pumpOn (s' : VgmFile) :=
            match pump (Z.to_nat (m_waitSamples s')) maxSize s' out decoded with
            | Crash f => Aborted f
            | Ok (s'', out', decoded') =>
                decodeNfsLoop h fuel' maxSize s'' out' decoded'
            end in
          if m_waitSamples s =? 0 then
            if negb (m_duration s =? 0) && (m_duration s <=? m_samplesPlayed s)
            then Returned decoded out s
            else
              match callSubroutine (playAddress h) (Some 20000) s with
              | Crash f => Aborted f
              | Ok (result, s1) =>
                  if result <? 0 then Returned decoded out s1
                  else if result =? 0 then Returned decoded out s1
                  else
                    pumpOn
                      (set_waitSamples
                         (wrap32 (VGM_SAMPLE_RATE * ntscPlaySpeed h) / 1000000)
                         s1)
              end
          else pumpOn s
      end
  end.

Definition decodeNfsPcm (h : NsfHeader) (fuel : nat) (maxSize : Z)
  (s : VgmFile) : Outcome :=
  decodeNfsLoop h fuel maxSize s [] 0.

Definition decodePcm (fuel : nat) (maxSize : Z) (s : VgmFile) : Outcome :=
  match m_nsfHeader s with
  | Some h => decodeNfsPcm h fuel maxSize s
  | None => decodeVgmPcm fuel maxSize s
  end.

End Player.

(** ** Vocabulary of the properties *)

(** The bytes [m_dataPtr[0 .. n-1]] lie inside the image the cursor points
    into. *)
Definition inImage (s : VgmFile) (n : Z) : Prop :=
  0 <= m_dataPtr s /\ m_dataPtr s + n <= Z.of_nat (length (m_dataImage s)).

(** Number of operand bytes of a command, as the comments of [nextCommand]
    document them ([dd] is one byte, [aa dd] two, ...).  [None] for the
    commands without a fixed operand list in the file (0x66 end of data, 0x67
    data block, 0x68 and 0x90-0x95 whose layout is only referred to as
    "see below") and for the bytes that are no command at all. *)
Definition operandLength (cmd : Z) : option Z :=
  if between 0x30 0x3F cmd then Some 1
  else if between 0x40 0x4E cmd then Some 2
  else if between 0x4F 0x50 cmd then Some 1
  else if between 0x51 0x5F cmd then Some 2
  else if cmd =? 0x61 then Some 2
  else if between 0x62 0x63 cmd then Some 0
  else if between 0x70 0x8F cmd then Some 0
  else if between 0xA0 0xBF cmd then Some 2
  else if between 0xC0 0xDF cmd then Some 3
  else if between 0xE0 0xFF cmd then Some 4
  else None.

(** The commands whose case leaves the cursor where it is. *)
Definition staysInPlace (cmd : Z) : bool :=
  (cmd =? 0x68) || between 0x90 0x95 cmd.

(** The bytes outside every documented and reserved range. *)
Definition unknownCommand (cmd : Z) : bool :=
  between 0x00 0x2F cmd || (cmd =? 0x60) || between 0x64 0x65 cmd
  || between 0x69 0x6F cmd || between 0x96 0x9F cmd.

(** How many bytes, counted from the cursor, the case of a command
    dereferences: the two operands of 0x61, 0xA0 and 0xB4, the length field
    of 0x67, and the command byte alone everywhere else. *)
Definition bytesRead (cmd : Z) : Z :=
  if cmd =? 0x61 then 3
  else if cmd =? 0x67 then 7
  else if (cmd =? 0xA0) || (cmd =? 0xB4) then 3
  else 1.

(** The chip a write command addresses exists. *)
Definition chipPresent (cmd : Z) (s : VgmFile) : bool :=
  if cmd =? 0xA0 then match m_msxChip s with Some _ => true | None => false end
  else if cmd =? 0xB4 then match m_nesChip s with Some _ => true | None => false end
  else true.

(** The 32-bit length field of the data block at the cursor. *)
Definition blockLength (s : VgmFile) : Z :=
  field32 (m_dataImage s) (m_dataPtr s + 3).

(** The duration cap has fired. *)
Definition capReached (s : VgmFile) : bool :=
  negb (m_duration s =? 0) && (m_duration s <=? m_samplesPlayed s).

(** The byte at the cursor is [cmd]. *)
Definition commandIs (s : VgmFile) (cmd : Z) : bool :=
  match rd s 0 with
  | Ok c => c =? cmd
  | Crash _ => false
  end.

(** What happens between [open] and a later moment of playback, as far as
    the interpreter is concerned: commands that return true and ticks of the
    pump.  The number counts the jumps back to the loop point, that is the
    0x66 commands that returned true. *)
Inductive played {C : Chips} : VgmFile -> nat -> VgmFile -> Prop :=
| played_start (s : VgmFile) : played s 0 s
| played_command (s t t' : VgmFile) (k : nat) :
    played s k t ->
    nextCommand t = Ok (true, t') ->
    played s (if commandIs t 0x66 then S k else k) t'
| played_tick (s t : VgmFile) (k : nat) (out : list byte) (decoded : Z) :
    played s k t ->
    played s k (fst (fst (pumpStep t out decoded))).

(** [lo, lo + 1, ...], [n] addresses. *)
Fixpoint zrange (lo : Z) (n : nat) : list Z :=
  match n with
  | O => []
  | S n' => lo :: zrange (lo + 1) n'
  end.

(** The calls of [for (i = lo; i < hi; i++) chip->f(i, ...)]. *)
Definition rangeCalls (lo hi : Z) (body : Z -> NesCall) : list NesCall :=
  map body (zrange lo (Z.to_nat (hi - lo))).

(** The calls [setTrack] makes on the NES chip of an NSF file before it
    writes $4015: reset, the ROM image, the banks and the zeroing.  [ptr]
    and [size] are [m_dataPtr] and [m_size]. *)
Definition setTrackZeroing (h : NsfHeader) (ptr size : Z) : list NesCall :=
  [NesReset; NesLoadData (loadAddress h) (ptr + 0x80) (size - 0x80)]
  ++ (if existsb (fun b => negb (b =? 0)) (bankSwitch h)
      then rangeCalls 0 8
             (fun i => NesWrite (0x5FF8 + i) (nth (Z.to_nat i) (bankSwitch h) 0))
      else [])
  ++ rangeCalls 0 0x07FF (fun i => NesSetData i 0)
  ++ rangeCalls 0x4000 0x4013 (fun i => NesSetData i 0).

(** The calls that follow, up to the call of the init routine. *)
Definition setTrackInit (h : NsfHeader) (track : Z) : list NesCall :=
  [NesSetData 0x4015 0x00; NesSetData 0x4015 0x0F; NesSetData 0x4017 0x40;
   NesCpuX 0; NesCpuA (if track <? songIndex h then track else 0);
   NesCpuSp 0xEF; NesCallSubroutine (initAddress h) None].

(** A player without chips that runs at the default host rate, between two
    frames. *)
Definition silentPlayer (s : VgmFile) : Prop :=
  m_msxChip s = None /\ m_nesChip s = None
  /\ m_writeScaler s = VGM_SAMPLE_RATE /\ m_writeCounter s = 0.

(** [s'] plays the same file as [s], at the same place. *)
Definition sameFile (s s' : VgmFile) : Prop :=
  m_rawData s' = m_rawData s
  /\ m_dataImage s' = m_dataImage s /\ m_dataPtr s' = m_dataPtr s
  /\ m_loops s' = m_loops s /\ m_loopOffset s' = m_loopOffset s
  /\ m_duration s' = m_duration s.

(** [n] bytes of silence. *)
Definition silence (n : Z) : list byte := repeat x00 (Z.to_nat n).



(** ** Concrete collaborators and files *)

(** Chips that always answer sample 0 and one cycle. *)
Definition silentChips : Chips :=
  {| psg_sample := fun _ => 0;
     nes_sample := fun _ => 0;
     nes_cycles := fun _ _ _ => 1 |}.

(** Both headers of 128 bytes. *)
Definition layout128 : Layout :=
  {| sizeof_VgmHeader := 0x80;
     sizeof_NsfHeader := 0x80;
     sizeof_VgmHeader_fields := Z.le_refl 0x80;
     sizeof_NsfHeader_fields := proj1 (Z.leb_le 0x78 0x80) eq_refl |}.

Definition bytes (l : list Z) : list byte := map byte_of_Z l.

(** A 256-byte VGM 1.71 header followed by the command stream [data]:
    [eofOffset] is consistent and the data offset field, the loop offset
    and the two chip clocks are as given. *)
Definition vgmImageAt (dataOffset loop ayClock nesClock : Z) (data : list Z)
  : list byte :=
  let size := 0x100 + Z.of_nat (length data) in
  bytes [0x56; 0x67; 0x6D; 0x20] ++ store32 (size - 4)
  ++ store32 0x171 ++ bytes (repeat 0 12%nat)
  ++ store32 0 ++ store32 loop ++ store32 0 ++ store32 0
  ++ bytes (repeat 0 12%nat) ++ store32 dataOffset
  ++ bytes (repeat 0 60%nat)
  ++ bytes [0; 0; 0; 0] ++ store32 nesClock ++ store32 ayClock
  ++ bytes (repeat 0 128%nat) ++ bytes data.

(** The same with the data offset pointing right behind the header. *)
Definition vgmImage (loop ayClock nesClock : Z) (data : list Z) : list byte :=
  vgmImageAt (0x100 - 0x34) loop ayClock nesClock data.

(** A 128-byte NSF header (one song, load / init / play at $8000, 16639 us
    between calls of play, no banks) followed by [data]. *)
Definition nsfImage (data : list Z) : list byte :=
  bytes [0x4E; 0x45; 0x53; 0x4D; 0x1A; 0x01; 0x01; 0x01;
         0x00; 0x80; 0x00; 0x80; 0x00; 0x80]
  ++ bytes (repeat 0 96%nat) ++ bytes [0xFF; 0x40]
  ++ bytes (repeat 0 16%nat) ++ bytes data.

(** The player after [open] of an image, from a fresh object.  The images
    above carry 256 bytes of header, enough for any header struct up to that
    size; [layout128] is the choice made for evaluating them. *)
Definition opened (img : list byte) : Result (bool * VgmFile) :=
  @open layout128 silentChips img newVgmFile.

(** The state [open] leaves, when it succeeds. *)
Definition openedState (img : list byte) : option VgmFile :=
  match opened img with
  | Ok (true, s) => Some s
  | _ => None
  end.

(** The state [open] leaves (the fresh object if it fails). *)
Definition stateOf (img : list byte) : VgmFile :=
  match openedState img with
  | Some s => s
  | None => newVgmFile
  end.

(** A file whose stream is [0x61 0x10 0x00] followed by [0x66]. *)
Definition waitImage : list byte := vgmImage 0 0 0 [0x61; 0x10; 0x00; 0x66].

(** A file with a loop: the loop point is the start of the stream
    [0x62 0x66] (0x1C + 0xE4 = 0x100). *)
Definition loopImage : list byte := vgmImage 0xE4 0 0 [0x62; 0x66].

(** The scenario S1: header, one 0x62, 0x66. *)
Definition silenceImage : list byte := vgmImage 0 0 0 [0x62; 0x66].

(** A file whose stream holds the unknown command 0x00 behind a PSG write
    of another chip, and one that holds it behind a wait. *)
Definition unknownImage : list byte := vgmImage 0 0 0 [0x50; 0x00; 0x00; 0x66].

Definition waitUnknownImage : list byte :=
  vgmImage 0 0 0 [0x62; 0x00; 0x62; 0x66].

(** A file that declares no PSG and writes to it. *)
Definition psgWriteImage : list byte := vgmImage 0 0 0 [0xA0; 0x07; 0x3E; 0x66].

(** The player of [waitImage] after its first command: a wait of 17
    samples is pending. *)
Definition afterWait : VgmFile :=
  match nextCommand (stateOf waitImage) with
  | Ok (_, s) => s
  | Crash _ => newVgmFile
  end.

(** The same player with the host rate set to 11025 Hz. *)
Definition afterWaitQuarter : VgmFile := setSampleFrequency 11025 afterWait.

(** The player is within 65535 samples of the cap [D], pending wait
    included. *)
Definition withinCap (D : Z) (s : VgmFile) : Prop :=
  m_duration s = D /\ 0 <= m_waitSamples s /\ 0 <= m_samplesPlayed s
  /\ m_samplesPlayed s + m_waitSamples s <= D + 65535.

Definition outcomeWithinCap (D : Z) (o : Outcome) : Prop :=
  match o with
  | Returned _ _ s => withinCap D s
  | Running _ _ s => withinCap D s
  | Aborted _ => True
  end.

(** An image of 200 zero bytes: neither VGM nor NSF, but long enough for
    both headers of [layout128]. *)
Definition junkImage : list byte := bytes (repeat 0 200%nat).

(** The calls of [setTrack] between the zeroing and the call of the init
    routine. *)
Definition setTrackRegisters (h : NsfHeader) (track : Z) : list NesCall :=
  [NesSetData 0x4015 0x00; NesSetData 0x4015 0x0F; NesSetData 0x4017 0x40;
   NesCpuX 0; NesCpuA (if track <? songIndex h then track else 0);
   NesCpuSp 0xEF].

(** A chip whose play routine runs into the cycle limit. *)
Definition runawayChips : Chips :=
  {| psg_sample := fun _ => 0;
     nes_sample := fun _ => 0;
     nes_cycles := fun _ _ maxCycles =>
                     match maxCycles with Some _ => 0 | None => 1 end |}.

(** A 128-byte NSF header like that of [nsfImage], with the given play
    speed (microseconds, 16 bits) and bank values. *)
Definition nsfImageWith (speed : Z) (banks : list Z) (data : list Z)
  : list byte :=
  bytes [0x4E; 0x45; 0x53; 0x4D; 0x1A; 0x01; 0x01; 0x01;
         0x00; 0x80; 0x00; 0x80; 0x00; 0x80]
  ++ bytes (repeat 0 96%nat) ++ bytes [speed; speed / 256]
  ++ bytes banks ++ bytes (repeat 0 8%nat) ++ bytes data.

(** An NSF file with play speed 0 and no banks, and one with banks. *)
Definition nsfStallImage : list byte :=
  nsfImageWith 0 [0; 0; 0; 0; 0; 0; 0; 0] [0x60].

Definition nsfBankedImage : list byte :=
  nsfImageWith 16639 [0; 1; 2; 3; 4; 5; 6; 7] [0x60].

(** The player of an NSF image as [open] leaves it with the given chips. *)
Definition nsfStateOf (C : Chips) (img : list byte) : VgmFile :=
  match @open layout128 C img newVgmFile with
  | Ok (_, s) => s
  | Crash _ => newVgmFile
  end.

(** One lane of the accumulator after a window of samples: the first
    sample, then the others merged in, in order. *)
Definition mergeWindow (first : Z) (rest : list Z) : Z :=
  fold_left (fun acc next => mergeLane next acc) rest first.

(** A file whose stream is a data block that claims 16 bytes but is cut
    after 2, and one whose data block has the length 0xFFFFFFF9. *)
Definition cutBlockImage : list byte :=
  vgmImage 0 0 0 [0x67; 0x66; 0x00; 0x10; 0x00; 0x00; 0x00; 0xAA; 0xBB].

Definition wrapBlockImage : list byte :=
  vgmImage 0 0 0 [0x67; 0x66; 0x00; 0xF9; 0xFF; 0xFF; 0xFF; 0x66].

(** A file with a wait long enough to fill several small buffers. *)
Definition longWaitImage : list byte :=
  vgmImage 0 0 0 [0x61; 0x09; 0x00; 0x70; 0x66].

(** The player left by a first call that fills a buffer of 16 bytes, and by
    a second call with a buffer of 64 bytes. *)
Definition playerAfter (o : Outcome) : VgmFile :=
  match o with
  | Returned _ _ t => t
  | Running _ _ t => t
  | Aborted _ => newVgmFile
  end.

Definition afterFirstCall : VgmFile :=
  playerAfter (@decodeVgmPcm silentChips 3 16 (stateOf longWaitImage)).

Definition afterSecondCall : VgmFile :=
  playerAfter (@decodeVgmPcm silentChips 4 64 afterFirstCall).

(** * Properties *)

(** ** Bytes and reads *)

Lemma u8_range (b : byte) : 0 <= u8 b < 256.
Proof.
  unfold u8.
  pose proof (Byte.to_N_bounded b) as Hb.
  lia.
Qed.

Lemma byte_at_inside (img : list byte) (i : Z) :
  0 <= i < Z.of_nat (length img) ->
  exists v, byte_at img i = Some v /\ 0 <= v < 256.
Proof.
  intros Hi. unfold byte_at.
  destruct (0 <=? i) eqn:Hle; [|lia].
  destruct (nth_error img (Z.to_nat i)) as [b|] eqn:Hn.
  - exists (u8 b). split; [reflexivity | apply u8_range].
  - apply nth_error_None in Hn. lia.
Qed.

Lemma byte_at_Some (img : list byte) (i v : Z) :
  byte_at img i = Some v ->
  0 <= i < Z.of_nat (length img) /\ 0 <= v < 256.
Proof.
  unfold byte_at. intros H.
  destruct (0 <=? i) eqn:Hle; [|discriminate].
  destruct (nth_error img (Z.to_nat i)) as [b|] eqn:Hn; [|discriminate].
  injection H as <-.
  assert (Hlt : (Z.to_nat i < length img)%nat)
    by (apply nth_error_Some; congruence).
  split; [lia | apply u8_range].
Qed.

Lemma byte_at_outside (img : list byte) (i : Z) :
  ~ 0 <= i < Z.of_nat (length img) -> byte_at img i = None.
Proof.
  intros Hi. destruct (byte_at img i) as [v|] eqn:H; [|reflexivity].
  apply byte_at_Some in H. tauto.
Qed.

Lemma byte_at_field8 (img : list byte) (i v : Z) :
  byte_at img i = Some v -> field8 img i = v.
Proof.
  unfold byte_at, field8. intros H.
  destruct (0 <=? i); [|discriminate].
  destruct (nth_error img (Z.to_nat i)) as [b|] eqn:Hn; [|discriminate].
  injection H as <-. f_equal. now apply nth_error_nth.
Qed.

Section Reads.

Variable s : VgmFile.

Lemma rd_Ok (k v : Z) :
  rd s k = Ok v ->
  0 <= m_dataPtr s + k < Z.of_nat (length (m_dataImage s))
  /\ 0 <= v < 256 /\ field8 (m_dataImage s) (m_dataPtr s + k) = v.
Proof.
  unfold rd. intros H.
  destruct (byte_at _ _) as [w|] eqn:Hb; [|discriminate].
  injection H as <-.
  pose proof (byte_at_Some _ _ _ Hb). pose proof (byte_at_field8 _ _ _ Hb).
  tauto.
Qed.

Lemma rd_inside (k : Z) :
  0 <= m_dataPtr s + k < Z.of_nat (length (m_dataImage s)) ->
  rd s k = Ok (field8 (m_dataImage s) (m_dataPtr s + k)).
Proof.
  intros H. unfold rd.
  destruct (byte_at_inside _ _ H) as (v & Hv & _).
  rewrite Hv. now rewrite (byte_at_field8 _ _ _ Hv).
Qed.

Lemma rd_outside (k : Z) :
  ~ 0 <= m_dataPtr s + k < Z.of_nat (length (m_dataImage s)) ->
  rd s k = Crash OutOfBounds.
Proof.
  intros H. unfold rd. now rewrite byte_at_outside.
Qed.

End Reads.

Lemma rd_Crash (s : VgmFile) (k : Z) (f : Fault) :
  rd s k = Crash f ->
  f = OutOfBounds
  /\ ~ 0 <= m_dataPtr s + k < Z.of_nat (length (m_dataImage s)).
Proof.
  unfold rd. intros H.
  destruct (byte_at _ _) as [w|] eqn:Hb; [discriminate|].
  injection H as <-. split; [reflexivity|].
  intros Hin. destruct (byte_at_inside _ _ Hin) as (v & Hv & _). congruence.
Qed.

Lemma field8_range (img : list byte) (i : Z) : 0 <= field8 img i < 256.
Proof. apply u8_range. Qed.

Lemma dataLength_field32 (img : list byte) (p b3 b4 b5 b6 : Z) :
  field8 img (p + 3) = b3 -> field8 img (p + 4) = b4 ->
  field8 img (p + 5) = b5 -> field8 img (p + 6) = b6 ->
  wrap32 (b3 + Z.shiftl b4 8 + Z.shiftl b5 16 + Z.shiftl b6 24)
  = field32 img (p + 3).
Proof.
  intros <- <- <- <-. unfold field32, wrap32.
  replace (p + 3 + 1) with (p + 4) by lia.
  replace (p + 3 + 2) with (p + 5) by lia.
  replace (p + 3 + 3) with (p + 6) by lia.
  pose proof (field8_range img (p + 3)).
  pose proof (field8_range img (p + 4)).
  pose proof (field8_range img (p + 5)).
  pose proof (field8_range img (p + 6)).
  rewrite !Z.shiftl_mul_pow2 by lia.
  rewrite Z.mod_small; lia.
Qed.

Ltac split_on_cmd cmd :=
  repeat match goal with
  | |- context [if ?c then _ else _] =>
      lazymatch c with
      | context [cmd] => destruct c eqn:?; try (exfalso; lia)
      end
  end.

Ltac split_on_reads s :=
  repeat match goal with
  | |- context [rd s ?k] =>
      let H := fresh "Hr" in
      destruct (rd s k) as [?|?] eqn:H;
      [apply rd_Ok in H | apply rd_Crash in H; destruct H as [-> H]];
      cbn [bind]
  end.

(** ** Command coverage *)

(** C1 (as amended).  Let [cmd] be the command byte at the cursor.
    [nextCommand] checks no bound: it reads past the end of the image
    exactly when the bytes its case dereferences (the command byte; the two
    operands of 0x61, 0xA0 and 0xB4; the length field of 0x67) do not all
    lie inside the image.  When they do, and the chip addressed by 0xA0 /
    0xB4 exists: a command with a documented operand list advances the
    cursor, inside the image it points into, by exactly one plus its
    operand length and returns true; 0x66 jumps to the loop point
    [m_rawData + m_loopOffset] when a loop is pending and returns false
    otherwise; 0x67 advances by 7 plus the 32-bit block length (an unsigned
    32-bit sum); every byte outside the documented and reserved ranges
    returns false and leaves the player as it is.  Nothing is said of 0x68
    and 0x90-0x95. *)
Theorem nextCommand_coverage (s : VgmFile) (cmd : Z) :
  rd s 0 = Ok cmd ->
  (nextCommand s = Crash OutOfBounds <-> ~ inImage s (bytesRead cmd))
  /\ (inImage s (bytesRead cmd) -> chipPresent cmd s = true ->
      match operandLength cmd with
      | Some n =>
          exists s', nextCommand s = Ok (true, s')
                     /\ m_dataPtr s' = m_dataPtr s + 1 + n
                     /\ m_dataImage s' = m_dataImage s
      | None =>
          if cmd =? 0x66 then
            if negb (m_loopOffset s =? 0) && negb (m_loops s =? 1)
            then exists s', nextCommand s = Ok (true, s')
                            /\ m_dataPtr s' = m_loopOffset s
                            /\ m_dataImage s' = m_rawData s
            else nextCommand s = Ok (false, s)
          else if cmd =? 0x67 then
            exists s', nextCommand s = Ok (true, s')
                       /\ m_dataPtr s' = m_dataPtr s + wrap32 (7 + blockLength s)
                       /\ m_dataImage s' = m_dataImage s
          else if staysInPlace cmd then True
          else unknownCommand cmd = true /\ nextCommand s = Ok (false, s)
      end).
Proof.
  intros Hrd.
  destruct (rd_Ok s 0 cmd Hrd) as (Hin & Hrange & _).
  unfold nextCommand. rewrite Hrd. cbn [bind].
  unfold inImage, bytesRead, operandLength, staysInPlace, unknownCommand,
    chipPresent, between, advance.
  split_on_cmd cmd.
  all: unfold psg_call, nes_call.
  all: split_on_reads s.
  all: repeat match goal with
       | |- context [match ?c with Some _ => _ | None => _ end] => destruct c eqn:?
       | |- context [if ?c then _ else _] => destruct c eqn:?
       end; cbn [bind].
  all: try (split; [split; [discriminate | intros Hn; exfalso; apply Hn; lia]|]).
  all: try (split; [split; [intros _; lia | reflexivity]|]).
  all: try (split; [split; [intros _; lia | intros Hn; exfalso; lia]|]).
  all: try (intros Hi Hc; try discriminate Hc; try (exfalso; lia)).
  all: try (eexists; split; [reflexivity | split; [cbn; lia | reflexivity]]).
  all: try reflexivity.
  all: try exact I.
  all: try (split; [lia | reflexivity]).
  all: eexists; (split; [reflexivity|]);
    cbn [m_dataPtr m_dataImage set_dataPtr set_nesChip]; unfold blockLength;
    rewrite (dataLength_field32 (m_dataImage s) (m_dataPtr s) a a0 a1 a2);
    tauto.
Qed.

Lemma nextCommand_coverage_witness :
  rd (stateOf waitImage) 0 = Ok 0x61
  /\ exists s', nextCommand (stateOf waitImage) = Ok (true, s')
                /\ m_dataPtr s' = m_dataPtr (stateOf waitImage) + 1 + 2
                /\ m_dataImage s' = m_dataImage (stateOf waitImage).
Proof.
  split; [reflexivity|].
  refine (proj2 (nextCommand_coverage (stateOf waitImage) 0x61 _) _ _).
  - reflexivity.
  - unfold inImage. vm_compute. split; discriminate.
  - reflexivity.
Defined.

(** C1 (as stated) fails: in a well-formed file whose last byte is the
    command 0x61, [nextCommand] dereferences the two bytes behind the end of
    the image. *)
Lemma nextCommand_reads_past_end :
  exists s,
    openedState (vgmImage 0 0 0 [0x61]) = Some s
    /\ rd s 0 = Ok 0x61
    /\ m_dataPtr s + 1 = Z.of_nat (length (m_rawData s))
    /\ nextCommand s = Crash OutOfBounds.
Proof.
  eexists. split; [vm_compute; reflexivity|].
  repeat split; vm_compute; reflexivity.
Qed.

(** ** Termination of the decoder *)

Lemma nextCommand_staysInPlace (s : VgmFile) (cmd : Z) :
  rd s 0 = Ok cmd -> staysInPlace cmd = true -> nextCommand s = Ok (true, s).
Proof.
  intros Hrd Hstay.
  unfold nextCommand. rewrite Hrd. cbn [bind].
  unfold staysInPlace, between in *.
  split_on_cmd cmd; reflexivity.
Qed.

Section Stuck.

Context {C : Chips}.

Lemma fetchCommands_stuck (s : VgmFile) (cmd : Z) :
  rd s 0 = Ok cmd -> staysInPlace cmd = true ->
  m_waitSamples s = 0 -> capReached s = false ->
  forall fuel, fetchCommands fuel s = FetchRunning s.
Proof.
  intros Hrd Hstay Hwait Hcap fuel.
  induction fuel as [|fuel IH]; cbn [fetchCommands];
    fold (capReached s); rewrite Hwait, Hcap; cbn.
  - reflexivity.
  - now rewrite (nextCommand_staysInPlace s cmd Hrd Hstay).
Qed.

Lemma decodeVgmPcm_stuck (s : VgmFile) (cmd maxSize : Z) :
  rd s 0 = Ok cmd -> staysInPlace cmd = true ->
  m_waitSamples s = 0 -> capReached s = false ->
  4 <= maxSize ->
  forall fuel, decodeVgmPcm fuel maxSize s = Running 0 [] s.
Proof.
  intros Hrd Hstay Hwait Hcap Hmax fuel.
  unfold decodeVgmPcm. destruct fuel as [|fuel]; cbn [decodeVgmLoop].
  - reflexivity.
  - unfold roomForFrame. cbn.
    destruct (4 <=? maxSize) eqn:E; [|lia].
    now rewrite (fetchCommands_stuck s cmd).
Qed.

End Stuck.

(** C2 (code defect).  A well-formed file whose first command is 0x68 makes
    [decodePcm] spin: [nextCommand] returns true without moving the cursor
    or setting a wait, so the loop [while ( !m_waitSamples )] is never left.
    Whatever the fuel, the call is still running, with nothing decoded. *)
Theorem decodePcm_hangs_on_0x68 :
  forall fuel : nat,
    exists s,
      openedState (vgmImage 0 0 0 [0x68; 0x66]) = Some s
      /\ @decodePcm silentChips fuel 4096 s = Running 0 [] s.
Proof.
  intros fuel. eexists. split; [vm_compute; reflexivity|].
  unfold decodePcm. cbn [m_nsfHeader].
  apply (decodeVgmPcm_stuck _ 0x68); try reflexivity. lia.
Qed.

(** ** The header check of [open] *)

Section Open.

Context {L : Layout} {C : Chips}.

Lemma openVgm_accepts (data : list byte) (s0 : VgmFile) :
  fst (openVgm data s0)
  = (sizeof_VgmHeader <=? Z.of_nat (length data))
    && (ident (read_VgmHeader data) =? 0x206D6756)
    && (eofOffset (read_VgmHeader data) =? Z.of_nat (length data) - 4).
Proof.
  unfold openVgm.
  destruct (Z.of_nat (length data) <? sizeof_VgmHeader) eqn:Hsize.
  - cbn [fst]. lia.
  - destruct (ident (read_VgmHeader data) =? 0x206D6756) eqn:Hid; cbn [negb].
    + destruct (eofOffset (read_VgmHeader data) =? Z.of_nat (length data) - 4);
        cbn [negb fst]; lia.
    + cbn [fst]. lia.
Qed.

Lemma openNsf_rejects_other_magic (data : list byte) (s1 : VgmFile) :
  field32 data 0 <> 0x4D53454E ->
  exists s, openNsf data s1 = Ok (false, s).
Proof.
  intros Hmagic. unfold openNsf.
  destruct (_ <? _); [eexists; reflexivity|].
  cbn [nsfIdent read_NsfHeader].
  destruct (field32 data 0 =? 0x4D53454E) eqn:E; [lia|].
  cbn [negb]. eexists; reflexivity.
Qed.

(** C3 (as amended).  For every input that does not carry the NSF magic,
    [open] returns, and it returns true exactly when the image is at least
    as long as the VGM header struct, the magic is "Vgm " and [eofOffset]
    equals the file size minus 4.  The data offset of the header is not
    compared with the file size. *)
Theorem open_accepts (data : list byte) (s0 : VgmFile) :
  field32 data 0 <> 0x4D53454E ->
  exists s,
    open data s0
    = Ok ((sizeof_VgmHeader <=? Z.of_nat (length data))
          && (ident (read_VgmHeader data) =? 0x206D6756)
          && (eofOffset (read_VgmHeader data) =? Z.of_nat (length data) - 4),
          s).
Proof.
  intros Hmagic. unfold open.
  match goal with |- context [openVgm data ?t] => set (s := t) end.
  pose proof (openVgm_accepts data s) as Hacc.
  destruct (openVgm data s) as [ok s1]. cbn [fst] in Hacc. rewrite <- Hacc.
  destruct ok.
  - eexists; reflexivity.
  - apply openNsf_rejects_other_magic, Hmagic.
Qed.

End Open.

Lemma open_accepts_witness :
  exists s, opened waitImage = Ok (true, s).
Proof.
  refine (@open_accepts layout128 silentChips waitImage newVgmFile _).
  vm_compute. discriminate.
Defined.

(** C3 (as stated) fails: a version 1.71 file with the right magic and a
    consistent [eofOffset] is opened although its data offset points far
    behind the end of the file. *)
Lemma open_ignores_data_offset :
  exists s,
    opened (vgmImageAt 0x7FFFFF00 0 0 0 [0x66]) = Ok (true, s)
    /\ 0x150 <= version (read_VgmHeader (m_rawData s))
    /\ vgmDataOffset (read_VgmHeader (m_rawData s)) + 0x34 > m_size s.
Proof.
  eexists. split; [vm_compute; reflexivity|].
  split; vm_compute; [discriminate | reflexivity].
Qed.

(** ** Loop handling *)


(** What a command leaves alone. *)
Lemma nextCommand_frame (t t' : VgmFile) (b : bool) :
  nextCommand t = Ok (b, t') ->
  m_loopOffset t' = m_loopOffset t
  /\ m_rawData t' = m_rawData t
  /\ (commandIs t 0x66 = false -> m_loops t' = m_loops t)
  /\ (m_msxChip t = None -> m_msxChip t' = None)
  /\ (m_nesChip t = None -> m_nesChip t' = None).
Proof.
  unfold nextCommand, commandIs.
  destruct (rd t 0) as [cmd|] eqn:Hrd; cbn [bind]; [|discriminate].
  unfold between, advance, psg_call, nes_call.
  split_on_cmd cmd.
  all: split_on_reads t.
  all: repeat match goal with
       | |- context [match ?c with Some _ => _ | None => _ end] =>
           destruct c eqn:?
       | |- context [if ?c then _ else _] => destruct c eqn:?
       end; cbn [bind].
  all: intros [= <- <-] || discriminate.
  all: cbn; repeat split; congruence.
Qed.

Section Loop.

Context {C : Chips}.

Lemma pullSample_frame (t : VgmFile) :
  let t' := snd (pullSample t) in
  m_loopOffset t' = m_loopOffset t /\ m_loops t' = m_loops t
  /\ m_rawData t' = m_rawData t /\ m_dataPtr t' = m_dataPtr t
  /\ (m_msxChip t = None -> m_msxChip t' = None)
  /\ (m_nesChip t = None -> m_nesChip t' = None)
  /\ m_sampleSum t' = m_sampleSum t
  /\ m_sampleSumValid t' = m_sampleSumValid t.
Proof.
  unfold pullSample.
  destruct (m_msxChip t) eqn:Hm; cbn [snd set_msxChip m_nesChip];
    destruct (m_nesChip t) eqn:Hn; cbn; repeat split; congruence.
Qed.

Lemma pullSample_wait (t : VgmFile) :
  m_waitSamples (snd (pullSample t)) = m_waitSamples t.
Proof.
  unfold pullSample.
  destruct (m_msxChip t); cbn [snd set_msxChip m_nesChip];
    destruct (m_nesChip t); reflexivity.
Qed.

(** A tick of the pump uses up one sample of the wait. *)
Lemma pumpStep_wait (t : VgmFile) (out : list byte) (decoded : Z) :
  m_waitSamples (fst (fst (pumpStep t out decoded))) = m_waitSamples t - 1.
Proof.
  pose proof (pullSample_wait t) as Hp.
  unfold pumpStep, interpolateSample.
  destruct (pullSample t) as [next t0]. cbn [snd] in Hp.
  destruct (negb (m_sampleSumValid t0));
    match goal with |- context [if ?c then _ else _] => destruct c end;
    cbn; lia.
Qed.

(** The bound of [pump] is enough: the loop is left because the wait is
    over or because the buffer has no room for a frame. *)
Lemma pump_exit (maxSize : Z) (n : nat) :
  forall (s : VgmFile) (out : list byte) (decoded : Z) s' out' decoded',
    0 <= m_waitSamples s <= Z.of_nat n ->
    pump n maxSize s out decoded = Ok (s', out', decoded') ->
    m_waitSamples s' = 0 \/ roomForFrame decoded' maxSize = Ok false.
Proof.
  induction n as [|n IH]; intros s out decoded s' out' decoded' Hwait Hrun;
    cbn [pump] in Hrun.
  - injection Hrun as <- <- <-. left. lia.
  - destruct (m_waitSamples s =? 0) eqn:E0.
    + injection Hrun as <- <- <-. left. lia.
    + destruct (roomForFrame decoded maxSize) as [[|]|] eqn:Eroom;
        cbn [bind] in Hrun; [| |discriminate].
      * pose proof (pumpStep_wait s out decoded) as Hstep.
        destruct (pumpStep s out decoded) as [[s1 out1] decoded1].
        cbn [fst] in Hstep.
        apply (IH s1 out1 decoded1 s' out' decoded'); [lia | exact Hrun].
      * injection Hrun as <- <- <-. right. exact Eroom.
Qed.

(** What a tick of the pump leaves alone. *)
Lemma pumpStep_frame (t : VgmFile) (out : list byte) (decoded : Z) :
  let t' := fst (fst (pumpStep t out decoded)) in
  m_loopOffset t' = m_loopOffset t /\ m_loops t' = m_loops t
  /\ m_rawData t' = m_rawData t /\ m_dataPtr t' = m_dataPtr t
  /\ (m_msxChip t = None -> m_msxChip t' = None)
  /\ (m_nesChip t = None -> m_nesChip t' = None).
Proof.
  pose proof (pullSample_frame t) as Hp.
  unfold pumpStep, interpolateSample.
  destruct (pullSample t) as [next t0]. cbn [snd] in Hp.
  destruct (negb (m_sampleSumValid t0));
    match goal with |- context [if ?c then _ else _] => destruct c end;
    cbn; tauto.
Qed.

Lemma commandIs_rd (t : VgmFile) (cmd : Z) :
  commandIs t cmd = true -> rd t 0 = Ok cmd.
Proof.
  unfold commandIs. destruct (rd t 0) as [c|]; [|discriminate].
  intros H. f_equal. lia.
Qed.

Lemma nextCommand_end_of_data (t : VgmFile) :
  commandIs t 0x66 = true ->
  nextCommand t
  = if negb (m_loopOffset t =? 0) && negb (m_loops t =? 1)
    then Ok (true,
             if negb (m_loops t =? 0)
             then set_loops (m_loops t - 1)
                    (set_dataPtr (0 + m_loopOffset t)
                       (set_dataImage (m_rawData t) t))
             else set_dataPtr (0 + m_loopOffset t)
                    (set_dataImage (m_rawData t) t))
    else Ok (false, t).
Proof.
  intros H. apply commandIs_rd in H.
  unfold nextCommand. rewrite H. reflexivity.
Qed.

(** Without a stored loop offset, 0x66 ends the stream whatever the
    counter. *)
Lemma nextCommand_end_without_loop (t : VgmFile) :
  commandIs t 0x66 = true -> m_loopOffset t = 0 ->
  nextCommand t = Ok (false, t).
Proof.
  intros Hend Hoff. rewrite (nextCommand_end_of_data t Hend), Hoff. reflexivity.
Qed.



End Loop.

Section LoopOnce.

Context {L : Layout} {C : Chips}.


Lemma openVgm_loop (data : list byte) (s0 s : VgmFile) :
  openVgm data s0 = (true, s) ->
  m_loopOffset s
  = (if negb (loopOffset (read_VgmHeader data) =? 0)
     then wrap32 (0x1C + loopOffset (read_VgmHeader data)) else 0)
  /\ m_loops s = (if negb (loopOffset (read_VgmHeader data) =? 0) then 2 else 1).
Proof.
  unfold openVgm.
  destruct (_ <? _); [discriminate|].
  destruct (negb _); [discriminate|].
  destruct (negb _); [discriminate|].
  intros [= <-]. cbn. auto.
Qed.

(** The 32-bit sum wraps to 0 for one loop offset; the counter is set to 2
    all the same. *)
Lemma openVgm_loop_wraps (data : list byte) (s0 s : VgmFile) :
  openVgm data s0 = (true, s) ->
  loopOffset (read_VgmHeader data) = 0xFFFFFFE4 ->
  m_loops s = 2 /\ m_loopOffset s = 0.
Proof.
  intros Hopen Hloop.
  destruct (openVgm_loop data s0 s Hopen) as [Hoff Hloops].
  rewrite Hloop in Hoff, Hloops. auto.
Qed.


End LoopOnce.



(** ** The peak-preserving merge *)

Lemma left_range (x : Z) : 0 <= left x < 2 ^ 16.
Proof. unfold left. apply Z.mod_pos_bound. lia. Qed.

Lemma right_range (x : Z) : 0 <= right x < 2 ^ 16.
Proof. unfold right. apply Z.mod_pos_bound. lia. Qed.

Lemma left_pack (l r : Z) : 0 <= l < 2 ^ 16 -> left (pack l r) = l.
Proof.
  intros Hl. unfold left, pack.
  rewrite (Z.mul_comm (2 ^ 16) r), Z.mod_add by lia.
  apply Z.mod_small, Hl.
Qed.

Lemma right_pack (l r : Z) :
  0 <= l < 2 ^ 16 -> 0 <= r < 2 ^ 16 -> right (pack l r) = r.
Proof.
  intros Hl Hr. unfold right, pack.
  rewrite (Z.mul_comm (2 ^ 16) r), Z.div_add by lia.
  rewrite (Z.div_small l) by lia.
  apply Z.mod_small. lia.
Qed.

Lemma pack_left_right (x : Z) :
  0 <= x < 2 ^ 32 -> pack (left x) (right x) = x.
Proof.
  intros Hx. unfold pack, left, right.
  assert (Hq : 0 <= x / 2 ^ 16 < 2 ^ 16).
  { split; [apply Z.div_pos; lia | apply Z.div_lt_upper_bound; lia]. }
  rewrite (Z.mod_small (x / 2 ^ 16)) by exact Hq.
  pose proof (Z.div_mod x (2 ^ 16)). lia.
Qed.

Lemma mergeLane_range (source dest : Z) :
  0 <= source < 2 ^ 16 -> 0 <= dest < 2 ^ 16 ->
  0 <= mergeLane source dest < 2 ^ 16.
Proof. unfold mergeLane. intros; destruct (_ || _); assumption. Qed.

Lemma mergeLane_same (x : Z) : mergeLane x x = x.
Proof. unfold mergeLane. now destruct (_ || _). Qed.

Ltac lane_range :=
  repeat first
    [assumption | apply left_range | apply right_range | apply mergeLane_range].

Lemma wrap32_range (x : Z) : 0 <= wrap32 x < 2 ^ 32.
Proof. unfold wrap32. apply Z.mod_pos_bound. lia. Qed.

Section Merge.

Context {C : Chips}.

Lemma pullSample_range (s : VgmFile) : 0 <= fst (pullSample s) < 2 ^ 32.
Proof.
  unfold pullSample.
  destruct (m_msxChip s); cbn [snd set_msxChip m_nesChip];
    destruct (m_nesChip s); cbn [fst];
    try apply wrap32_range; lia.
Qed.

(** C5.  [interpolateSample] pulls the sample [next] of the chip.  When the
    accumulator is valid, each 16-bit lane of the accumulator is handled on
    its own: the lane [acc] becomes the lane [next] of the new sample
    exactly when (next >= 8192 and next > acc) or (next < 8192 and
    next < acc), and keeps its value otherwise; the accumulator stays
    valid.  When it is not valid, the accumulator becomes the new sample
    and is marked valid. *)
Theorem interpolateSample_merge (s : VgmFile) :
  let next := fst (pullSample s) in
  let acc := m_sampleSum s in
  let s' := interpolateSample s in
  if m_sampleSumValid s then
    m_sampleSumValid s' = true
    /\ left (m_sampleSum s')
       = (if ((8192 <=? left next) && (left next >? left acc))
             || ((left next <? 8192) && (left next <? left acc))
          then left next else left acc)
    /\ right (m_sampleSum s')
       = (if ((8192 <=? right next) && (right next >? right acc))
             || ((right next <? 8192) && (right next <? right acc))
          then right next else right acc)
  else
    m_sampleSum s' = next /\ m_sampleSumValid s' = true.
Proof.
  pose proof (pullSample_frame s) as (_ & _ & _ & _ & _ & _ & Hsum & Hvalid).
  pose proof (pullSample_range s) as Hnext.
  cbv zeta. unfold interpolateSample.
  destruct (pullSample s) as [next s0]. cbn [fst snd] in *.
  rewrite <- Hvalid, <- Hsum.
  pose proof (left_range next). pose proof (right_range next).
  pose proof (left_range (m_sampleSum s0)).
  pose proof (right_range (m_sampleSum s0)).
  destruct (m_sampleSumValid s0) eqn:Hv; cbn.
  - split; [exact Hv|].
    rewrite !left_pack, !right_pack by lane_range.
    unfold mergeLane. rewrite !Z.gtb_ltb. auto.
  - rewrite !left_pack, !right_pack by lane_range.
    rewrite !mergeLane_same. split; [|reflexivity].
    apply pack_left_right, Hnext.
Qed.

End Merge.

(** ** The NSF bootstrap *)

Lemma in_zrange (x lo : Z) (n : nat) :
  In x (zrange lo n) <-> lo <= x < lo + Z.of_nat n.
Proof.
  revert lo. induction n as [|n IH]; intros lo; cbn [zrange In].
  - lia.
  - rewrite IH. lia.
Qed.

Lemma in_rangeCalls_setData (a v lo hi : Z) :
  In (NesSetData a v) (rangeCalls lo hi (fun i => NesSetData i 0))
  <-> v = 0 /\ lo <= a < hi.
Proof.
  unfold rangeCalls. rewrite in_map_iff. split.
  - intros (i & [= <- <-] & Hi). apply in_zrange in Hi. split; [reflexivity|lia].
  - intros [-> Ha]. exists a. split; [reflexivity|]. apply in_zrange. lia.
Qed.

Lemma in_rangeCalls_write (a v lo hi : Z) (f : Z -> Z) :
  ~ In (NesSetData a v) (rangeCalls lo hi (fun i => NesWrite (0x5FF8 + i) (f i))).
Proof.
  unfold rangeCalls. rewrite in_map_iff. intros (i & Hd & _). discriminate Hd.
Qed.

Section Bootstrap.

Context {C : Chips}.

Lemma nes_call_present (e : NesCall) (s : VgmFile) (calls : list NesCall) :
  m_nesChip s = Some calls ->
  nes_call e s = Ok (set_nesChip (Some (calls ++ [e])) s).
Proof. unfold nes_call. now intros ->. Qed.

Lemma nes_for_present (n : nat) (body : Z -> NesCall) :
  forall (i : Z) (s : VgmFile) (calls : list NesCall),
    m_nesChip s = Some calls ->
    nes_for n i body s
    = Ok (set_nesChip (Some (calls ++ map body (zrange i n))) s).
Proof.
  induction n as [|n IH]; intros i s calls Hchip; cbn [nes_for zrange map].
  - rewrite app_nil_r. destruct s; cbn in *. now subst.
  - rewrite (nes_call_present _ s calls Hchip). cbn [bind].
    rewrite (IH (i + 1) _ (calls ++ [body i])) by reflexivity.
    rewrite <- app_assoc. reflexivity.
Qed.

Lemma nes_for_range_present (lo hi : Z) (body : Z -> NesCall) (s : VgmFile)
  (calls : list NesCall) :
  m_nesChip s = Some calls ->
  nes_for_range lo hi body s
  = Ok (set_nesChip (Some (calls ++ rangeCalls lo hi body)) s).
Proof. apply nes_for_present. Qed.

(** The chip after a successful or failed [setTrack] on an NSF file. *)
Lemma setTrack_calls (track : Z) (s : VgmFile) (h : NsfHeader)
  (calls : list NesCall) :
  m_header s = None -> m_nsfHeader s = Some h -> m_nesChip s = Some calls ->
  exists b s',
    setTrack track s = Ok (b, s')
    /\ m_nesChip s'
       = Some (calls ++ setTrackZeroing h (m_dataPtr s) (m_size s)
               ++ setTrackInit h track).
Proof.
  intros Hvgm Hnsf Hchip.
  unfold setTrack, setTrackZeroing, setTrackInit, callSubroutine.
  rewrite Hvgm, Hnsf.
  rewrite (nes_call_present _ s calls Hchip). cbn [bind].
  erewrite nes_call_present by reflexivity. cbn [bind].
  set (banks := rangeCalls 0 8 _).
  set (ram := rangeCalls 0 0x07FF _).
  set (apu := rangeCalls 0x4000 0x4013 _).
  assert (Hbanks :
            exists s1,
              (if existsb (fun b => negb (b =? 0)) (bankSwitch h)
               then nes_for_range 0 8
                      (fun i => NesWrite (0x5FF8 + i)
                                  (nth (Z.to_nat i) (bankSwitch h) 0))
                      (set_nesChip
                         (Some ((calls ++ [NesReset])
                                ++ [NesLoadData (loadAddress h)
                                      (m_dataPtr (set_nesChip
                                                    (Some (calls ++ [NesReset])) s)
                                       + 0x80)
                                      (m_size (set_nesChip
                                                 (Some (calls ++ [NesReset])) s)
                                       - 0x80)]))
                         (set_nesChip (Some (calls ++ [NesReset])) s))
               else Ok (set_nesChip
                          (Some ((calls ++ [NesReset])
                                 ++ [NesLoadData (loadAddress h)
                                       (m_dataPtr (set_nesChip
                                                     (Some (calls ++ [NesReset])) s)
                                        + 0x80)
                                       (m_size (set_nesChip
                                                  (Some (calls ++ [NesReset])) s)
                                        - 0x80)]))
                          (set_nesChip (Some (calls ++ [NesReset])) s)))
              = Ok s1
              /\ m_nesChip s1
                 = Some (calls
                         ++ [NesReset;
                             NesLoadData (loadAddress h) (m_dataPtr s + 0x80)
                               (m_size s - 0x80)]
                         ++ (if existsb (fun b => negb (b =? 0)) (bankSwitch h)
                             then banks else []))).
  { destruct (existsb _ (bankSwitch h)).
    - erewrite nes_for_range_present by reflexivity.
      eexists. split; [reflexivity|]. fold banks.
      cbn [m_nesChip set_nesChip m_dataPtr m_size].
      now rewrite <- !app_assoc.
    - eexists. split; [reflexivity|].
      cbn [m_nesChip set_nesChip m_dataPtr m_size].
      now rewrite <- !app_assoc. }
  destruct Hbanks as (s1 & -> & Hs1). cbn [bind].
  erewrite nes_for_range_present by exact Hs1. cbn [bind]. fold ram.
  erewrite nes_for_range_present by reflexivity. cbn [bind]. fold apu.
  do 6 (erewrite nes_call_present by reflexivity; cbn [bind]).
  cbn [m_nesChip set_nesChip bind].
  destruct (_ <? 0); do 2 eexists; (split; [reflexivity|]);
    cbn [m_nesChip set_nesChip set_samplesPlayed];
    rewrite <- !app_assoc; reflexivity.
Qed.

End Bootstrap.

(** C6 (code defect).  For every NSF file, the calls [setTrack] makes on the
    chip end with $4015 = 0x00, $4015 = 0x0F, $4017 = 0x40, the three CPU
    registers and the call of the init routine, in this order, as claimed.
    But the zeroing before them covers $0000-$07FE and $4000-$4012 only:
    both loops stop one address short, and $07FF and $4013 are written by
    no call of [setTrack]. *)
Theorem setTrack_zeroes_one_short {C : Chips} (track : Z) (s : VgmFile)
  (h : NsfHeader) (calls : list NesCall) :
  m_header s = None -> m_nsfHeader s = Some h -> m_nesChip s = Some calls ->
  exists b s' zeroing,
    setTrack track s = Ok (b, s')
    /\ m_nesChip s'
       = Some (calls ++ zeroing
               ++ [NesSetData 0x4015 0x00; NesSetData 0x4015 0x0F;
                   NesSetData 0x4017 0x40; NesCpuX 0;
                   NesCpuA (if track <? songIndex h then track else 0);
                   NesCpuSp 0xEF; NesCallSubroutine (initAddress h) None])
    /\ (forall a v, In (NesSetData a v) zeroing
                    <-> v = 0 /\ (0 <= a < 0x07FF \/ 0x4000 <= a < 0x4013))
    /\ (forall v, ~ In (NesSetData 0x07FF v) zeroing)
    /\ (forall v, ~ In (NesSetData 0x4013 v) zeroing).
Proof.
  intros Hvgm Hnsf Hchip.
  destruct (setTrack_calls track s h calls Hvgm Hnsf Hchip)
    as (b & s' & Hrun & Hmade).
  exists b, s', (setTrackZeroing h (m_dataPtr s) (m_size s)).
  split; [exact Hrun|]. split; [exact Hmade|].
  assert (Hin : forall a v,
             In (NesSetData a v) (setTrackZeroing h (m_dataPtr s) (m_size s))
             <-> v = 0 /\ (0 <= a < 0x07FF \/ 0x4000 <= a < 0x4013)).
  { intros a v. unfold setTrackZeroing.
    rewrite !in_app_iff, !in_rangeCalls_setData.
    split.
    - intros [Hhead | [Hbanks | [Hram | Hapu]]].
      + cbn in Hhead. destruct Hhead as [Hd | [Hd | []]]; discriminate Hd.
      + destruct (existsb _ _); [|destruct Hbanks].
        now apply in_rangeCalls_write in Hbanks.
      + tauto.
      + tauto.
    - intros [-> [Ha | Ha]]; [right; right; left | right; right; right]; auto. }
  split; [exact Hin|].
  split; intros v Hv; apply Hin in Hv; lia.
Qed.

Lemma setTrack_zeroes_one_short_witness :
  exists b s' zeroing,
    @setTrack silentChips 0 (stateOf (nsfImage [0x60])) = Ok (b, s')
    /\ (forall v, ~ In (NesSetData 0x07FF v) zeroing)
    /\ (forall v, ~ In (NesSetData 0x4013 v) zeroing).
Proof.
  destruct (@setTrack_zeroes_one_short silentChips 0 (stateOf (nsfImage [0x60]))
              (read_NsfHeader (nsfImage [0x60]))
              (match m_nesChip (stateOf (nsfImage [0x60])) with
               | Some calls => calls
               | None => []
               end))
    as (b & s' & zeroing & Hrun & _ & _ & H7FF & H4013).
  - vm_compute. reflexivity.
  - vm_compute. reflexivity.
  - vm_compute. reflexivity.
  - exists b, s', zeroing. auto.
Defined.

(** ** Playing a wait without chips *)

Lemma mergeLane_zero (dest : Z) : 0 <= dest -> mergeLane 0 dest = 0.
Proof. unfold mergeLane. intros H. destruct (_ || _) eqn:E; lia. Qed.

Lemma silent_merge (x : Z) :
  pack (left (pack (mergeLane (left 0) (left x)) (right x)))
       (mergeLane (right 0)
          (right (pack (mergeLane (left 0) (left x)) (right x)))) = 0.
Proof.
  change (left 0) with 0. change (right 0) with 0.
  pose proof (left_range x). pose proof (right_range x).
  rewrite !mergeLane_zero by (try apply right_range; lia).
  rewrite left_pack by lia. reflexivity.
Qed.

Section Silence.

Context {C : Chips}.

Lemma interpolateSample_silent (s : VgmFile) :
  m_msxChip s = None -> m_nesChip s = None ->
  interpolateSample s = set_sampleSum 0 (set_sampleSumValid true s).
Proof.
  intros Hm Hn. unfold interpolateSample, pullSample.
  rewrite Hm. cbn [snd]. rewrite Hn.
  destruct (m_sampleSumValid s) eqn:Hv; cbn [negb].
  - cbn [m_sampleSum set_sampleSum]. rewrite silent_merge.
    destruct s; cbn in *; subst; reflexivity.
  - cbn [m_sampleSum set_sampleSum set_sampleSumValid].
    change (left 0) with 0. change (right 0) with 0.
    rewrite !mergeLane_same. reflexivity.
Qed.

(** One tick of a silent player writes one frame of zeros. *)
Lemma pumpStep_silent (s : VgmFile) (out : list byte) (decoded : Z) :
  silentPlayer s ->
  exists s',
    pumpStep s out decoded = (s', out ++ silence 4, decoded + 4)
    /\ silentPlayer s' /\ sameFile s s'
    /\ m_waitSamples s' = m_waitSamples s - 1
    /\ m_samplesPlayed s' = wrap32 (m_samplesPlayed s + 1).
Proof.
  intros (Hm & Hn & Hscale & Hcount).
  unfold pumpStep. rewrite (interpolateSample_silent s Hm Hn).
  cbn [m_writeCounter m_writeScaler m_samplesPlayed m_waitSamples
       set_sampleSum set_sampleSumValid set_writeCounter set_samplesPlayed
       set_waitSamples m_sampleSum].
  rewrite Hscale, Hcount.
  change (VGM_SAMPLE_RATE <=? wrap32 (0 + VGM_SAMPLE_RATE)) with true.
  cbv iota.
  eexists. split; [reflexivity|].
  unfold silentPlayer, sameFile. cbn. tauto.
Qed.

(** The pump of a silent player: it writes [k] frames of zeros, where [k] is
    all the wait or what the buffer has room for. *)
Lemma pump_silent (n : nat) (maxSize : Z) :
  forall (s : VgmFile) (out : list byte) (decoded : Z),
    silentPlayer s -> m_waitSamples s = Z.of_nat n ->
    0 <= decoded -> decoded + 4 * Z.of_nat n <= INT_MAX ->
    exists s' k,
      pump n maxSize s out decoded
      = Ok (s', out ++ silence (4 * k), decoded + 4 * k)
      /\ 0 <= k <= Z.of_nat n
      /\ (k = Z.of_nat n \/ maxSize < decoded + 4 * k + 4)
      /\ (k = 0 \/ decoded + 4 * k <= maxSize)
      /\ silentPlayer s' /\ sameFile s s'
      /\ m_waitSamples s' = Z.of_nat n - k
      /\ (m_samplesPlayed s + k < 2 ^ 32 -> 0 <= m_samplesPlayed s ->
          m_samplesPlayed s' = m_samplesPlayed s + k).
Proof.
  induction n as [|n IH]; intros s out decoded Hsilent Hwait Hd Hfit.
  - exists s, 0. cbn [pump]. unfold silence. cbn. rewrite app_nil_r.
    replace (decoded + 0) with decoded by lia.
    unfold sameFile. intuition (auto; lia).
  - cbn [pump]. destruct (m_waitSamples s =? 0) eqn:E0; [lia|].
    unfold roomForFrame.
    destruct (INT_MAX <? decoded + 4) eqn:Eov; [lia|]. cbn [bind].
    destruct (decoded + 4 <=? maxSize) eqn:Eroom.
    + destruct (pumpStep_silent s out decoded Hsilent)
        as (s1 & -> & Hsilent1 & Hsame1 & Hwait1 & Hplayed1).
      destruct (IH s1 (out ++ silence 4) (decoded + 4)) as
        (s' & k & Hrun & Hk & Hstop & Hroom & Hsilent' & Hsame' & Hwait' & Hplayed');
        [assumption | lia | lia | lia |].
      exists s', (k + 1). rewrite Hrun.
      split.
      { f_equal. f_equal; [f_equal|lia].
        rewrite <- app_assoc. f_equal. unfold silence.
        rewrite <- repeat_app. f_equal. lia. }
      split; [lia|]. split; [lia|]. split; [lia|].
      split; [assumption|].
      split; [unfold sameFile in *; intuition congruence|].
      split; [lia|].
      intros Hlt Hpos. rewrite Hplayed'; rewrite Hplayed1.
      * unfold wrap32. rewrite Z.mod_small; lia.
      * unfold wrap32. rewrite Z.mod_small; lia.
      * unfold wrap32. rewrite Z.mod_small; lia.
    + exists s, 0. unfold silence. cbn [Z.mul Z.to_nat repeat].
      rewrite app_nil_r.
      replace (decoded + 0) with decoded by lia.
      unfold sameFile. intuition (auto; lia).
Qed.

End Silence.

Section SilenceScenario.

Context {L : Layout} {C : Chips}.

Lemma decodeVgmLoop_step (fuel : nat) (maxSize : Z) (s : VgmFile)
  (out : list byte) (decoded : Z) :
  decodeVgmLoop (S fuel) maxSize s out decoded
  = match roomForFrame decoded maxSize with
    | Crash f => Aborted f
    | Ok false => Returned decoded out s
    | Ok true =>
        match fetchCommands fuel s with
        | FetchReturn s' => Returned decoded out s'
        | FetchRunning s' => Running decoded out s'
        | FetchCrash f => Aborted f
        | FetchWait s' =>
            match pump (Z.to_nat (m_waitSamples s')) maxSize s' out decoded with
            | Crash f => Aborted f
            | Ok (s'', out', decoded') =>
                decodeVgmLoop fuel maxSize s'' out' decoded'
            end
        end
    end.
Proof. reflexivity. Qed.

Lemma fetchCommands_step (fuel : nat) (s : VgmFile) :
  fetchCommands (S fuel) s
  = if negb (m_waitSamples s =? 0) then FetchWait s
    else if negb (m_duration s =? 0) && (m_duration s <=? m_samplesPlayed s)
    then FetchReturn s
    else
      match nextCommand s with
      | Crash f => FetchCrash f
      | Ok (false, s') => FetchReturn s'
      | Ok (true, s') => fetchCommands fuel s'
      end.
Proof. reflexivity. Qed.

(** The player [openVgm] leaves when it succeeds. *)
Lemma openVgm_state (data : list byte) (s0 s : VgmFile) :
  openVgm data s0 = (true, s) ->
  m_nsfHeader s = None /\ m_waitSamples s = 0 /\ m_samplesPlayed s = 0
  /\ m_writeCounter s = 0 /\ m_writeScaler s = m_writeScaler s0
  /\ m_duration s = m_duration s0
  /\ m_msxChip s
     = (if negb (ay8910Clock (read_VgmHeader data) =? 0)
        then Some [PsgNew (ay8910Type (read_VgmHeader data))
                     (ay8910Flags (read_VgmHeader data));
                   PsgSetFrequency (ay8910Clock (read_VgmHeader data))]
        else None)
  /\ m_nesChip s
     = (if negb (ay8910Clock (read_VgmHeader data) =? 0) then None
        else if negb (nesApuClock (read_VgmHeader data) =? 0)
             then Some [NesNew] else None).
Proof.
  unfold openVgm.
  destruct (_ <? _); [discriminate|].
  destruct (negb _); [discriminate|].
  destruct (negb _); [discriminate|].
  intros [= <-]. cbn. tauto.
Qed.

(** C7 (as amended).  A VGM with a valid header that declares no chip and
    no loop, and whose stream is one 0x62 wait followed by 0x66, is not
    decoded to 0 bytes: at the default host rate of 44100 Hz the call
    returns 4 * min (735, maxSize / 4) bytes, all zero, that is the 735
    frames of the wait (2940 bytes) as far as the buffer has room. *)
Theorem silence_is_decoded_to_zero_frames (data : list byte) (s0 s : VgmFile)
  (fuel : nat) (maxSize : Z) :
  openVgm data s0 = (true, s) ->
  m_writeScaler s0 = VGM_SAMPLE_RATE -> 0 <= m_duration s0 ->
  ay8910Clock (read_VgmHeader data) = 0 ->
  nesApuClock (read_VgmHeader data) = 0 ->
  loopOffset (read_VgmHeader data) = 0 ->
  rd s 0 = Ok 0x62 -> rd s 1 = Ok 0x66 ->
  0 <= maxSize ->
  exists s',
    decodePcm (S (S (S fuel))) maxSize s
    = Returned (4 * Z.min 735 (maxSize / 4))
        (silence (4 * Z.min 735 (maxSize / 4))) s'.
Proof.
  intros Hopen Hscale Hdur Hay Hnes Hloop Hwait Hend Hmax.
  destruct (openVgm_state data s0 s Hopen)
    as (Hnsf & Hw & Hsp & Hwc & Hws & Hd & Hm & Hn).
  destruct (openVgm_loop data s0 s Hopen) as [Hloff Hloops].
  rewrite Hay in Hm, Hn. rewrite Hnes in Hn. rewrite Hloop in Hloff, Hloops.
  cbn in Hm, Hn, Hloff, Hloops.
  pose proof (Z.div_mod maxSize 4 ltac:(lia)) as Hdiv.
  pose proof (Z.mod_pos_bound maxSize 4 ltac:(lia)) as Hmod.
  unfold decodePcm. rewrite Hnsf. unfold decodeVgmPcm.
  rewrite decodeVgmLoop_step. unfold roomForFrame at 1.
  change (INT_MAX <? 0 + 4) with false. cbv iota.
  destruct (0 + 4 <=? maxSize) eqn:Eroom.
  2:{ exists s. replace (Z.min 735 (maxSize / 4)) with 0 by lia. reflexivity. }
  (* the wait command *)
  remember (set_dataPtr (m_dataPtr s + 1) (set_waitSamples 735 s)) as s1 eqn:Es1.
  assert (Hw1 : m_waitSamples s1 = 735) by (subst s1; reflexivity).
  assert (Hsilent1 : silentPlayer s1).
  { unfold silentPlayer. subst s1.
    cbn [m_msxChip m_nesChip m_writeScaler m_writeCounter set_dataPtr
         set_waitSamples].
    repeat split; congruence. }
  assert (Hsp1 : m_samplesPlayed s1 = 0) by (subst s1; exact Hsp).
  assert (Hrd1 : rd s1 0 = Ok 0x66).
  { unfold rd in *. subst s1.
    cbn [m_dataImage m_dataPtr set_dataPtr set_waitSamples].
    replace (m_dataPtr s + 1 + 0) with (m_dataPtr s + 1) by lia.
    exact Hend. }
  assert (Hloff1 : m_loopOffset s1 = 0) by (subst s1; exact Hloff).
  assert (Hfetch : fetchCommands (S (S fuel)) s = FetchWait s1).
  { rewrite fetchCommands_step. rewrite Hw. cbn [Z.eqb negb].
    destruct (negb (m_duration s =? 0) && (m_duration s <=? m_samplesPlayed s))
      eqn:Ecap; [lia|].
    assert (Hcmd : nextCommand s = Ok (true, s1)).
    { unfold nextCommand. rewrite Hwait. subst s1. reflexivity. }
    rewrite Hcmd. destruct fuel; cbn [fetchCommands]; rewrite Hw1; reflexivity. }
  rewrite Hfetch. clear Hfetch Es1.
  (* the pump *)
  destruct (pump_silent (Z.to_nat (m_waitSamples s1)) maxSize s1 [] 0)
    as (s2 & k & Hrun & Hk & Hstop & Hfit & Hsilent2 & Hsame2 & Hw2 & Hsp2);
    [assumption | rewrite Hw1; lia | lia | rewrite Hw1; unfold INT_MAX; lia |].
  rewrite Hrun. cbn [app].
  replace (Z.of_nat (Z.to_nat (m_waitSamples s1))) with 735 in * by (rewrite Hw1; lia).
  replace (0 + 4 * k) with (4 * k) by lia.
  assert (Hsp2' : m_samplesPlayed s2 = k) by (rewrite Hsp2; lia).
  destruct Hsame2 as (Hraw2 & Himg2 & Hptr2 & Hloops2 & Hloff2 & Hdur2).
  (* back at the head of the outer loop *)
  rewrite decodeVgmLoop_step. unfold roomForFrame.
  destruct (INT_MAX <? 4 * k + 4) eqn:Eov; [unfold INT_MAX in Eov; lia|].
  destruct (4 * k + 4 <=? maxSize) eqn:Eroom2.
  - assert (Hk735 : k = 735) by lia.
    replace (Z.min 735 (maxSize / 4)) with k by lia.
    rewrite fetchCommands_step.
    replace (m_waitSamples s2) with 0 by lia. cbn [Z.eqb negb].
    destruct (negb (m_duration s2 =? 0) && (m_duration s2 <=? m_samplesPlayed s2)).
    + exists s2. reflexivity.
    + assert (Hcmd2 : nextCommand s2 = Ok (false, s2)).
      { unfold nextCommand.
        assert (Hrd2 : rd s2 0 = Ok 0x66)
          by (unfold rd in *; rewrite Himg2, Hptr2; exact Hrd1).
        rewrite Hrd2. cbn [bind]. cbn -[m_loopOffset m_loops].
        rewrite Hloff2, Hloff1. reflexivity. }
      rewrite Hcmd2. exists s2. reflexivity.
  - replace (Z.min 735 (maxSize / 4)) with k by lia.
    exists s2. reflexivity.
Qed.

End SilenceScenario.

Lemma silence_is_decoded_to_zero_frames_witness :
  exists s',
    @decodePcm silentChips 3 4096 (stateOf silenceImage)
    = Returned 2940 (silence 2940) s'.
Proof.
  refine (@silence_is_decoded_to_zero_frames layout128 silentChips silenceImage
            (close newVgmFile) (stateOf silenceImage) 0 4096 _ _ _ _ _ _ _ _ _);
    vm_compute; (reflexivity || discriminate).
Defined.

(** C7 (as stated) fails: the file of scenario S1 (256-byte header, no chip
    clock, 0x62, 0x66) is decoded to 2940 bytes, not to 0. *)
Lemma silence_is_not_empty :
  exists s out s',
    openedState silenceImage = Some s
    /\ m_msxChip s = None /\ m_nesChip s = None
    /\ @decodePcm silentChips 3 4096 s = Returned 2940 out s'
    /\ 2940 <> 0.
Proof.
  do 3 eexists. split; [vm_compute; reflexivity|].
  split; [vm_compute; reflexivity|].
  split; [vm_compute; reflexivity|].
  split; [vm_compute; reflexivity | discriminate].
Qed.

(** ** Unknown commands *)

Lemma nextCommand_unknown (s : VgmFile) (cmd : Z) :
  rd s 0 = Ok cmd -> unknownCommand cmd = true -> nextCommand s = Ok (false, s).
Proof.
  intros Hrd Hunknown.
  unfold nextCommand. rewrite Hrd. cbn [bind].
  unfold unknownCommand, between in *.
  split_on_cmd cmd; reflexivity.
Qed.

Section Unknown.

Context {C : Chips}.

(** Fuel adds up along the loop [while ( !m_waitSamples )]. *)
Lemma fetchCommands_more (n m : nat) :
  forall s0 s,
    fetchCommands n s0 = FetchRunning s ->
    fetchCommands (n + m) s0 = fetchCommands m s.
Proof.
  induction n as [|n IH]; intros s0 s Hrun.
  - cbn [fetchCommands] in Hrun.
    destruct (negb (m_waitSamples s0 =? 0)); [discriminate|].
    destruct (negb (m_duration s0 =? 0) && (m_duration s0 <=? m_samplesPlayed s0));
      [discriminate|].
    injection Hrun as <-. reflexivity.
  - cbn [Nat.add]. rewrite fetchCommands_step in *.
    destruct (negb (m_waitSamples s0 =? 0)); [discriminate|].
    destruct (negb (m_duration s0 =? 0) && (m_duration s0 <=? m_samplesPlayed s0));
      [discriminate|].
    destruct (nextCommand s0) as [[[|] s1]|]; try discriminate.
    now apply IH.
Qed.

Lemma fetchCommands_running_wait (n : nat) :
  forall s0 s, fetchCommands n s0 = FetchRunning s -> m_waitSamples s = 0.
Proof.
  induction n as [|n IH]; intros s0 s Hrun; cbn [fetchCommands] in Hrun;
    destruct (m_waitSamples s0 =? 0) eqn:E0; cbn [negb] in Hrun;
    try discriminate;
    destruct (negb (m_duration s0 =? 0) && (m_duration s0 <=? m_samplesPlayed s0));
    try discriminate.
  - injection Hrun as <-. lia.
  - destruct (nextCommand s0) as [[[|] s1]|]; try discriminate.
    now apply (IH s1).
Qed.

(** C8.  Let [decodeVgmPcm] be at the head of its outer loop in state [s0],
    with [decoded] bytes in the buffer and room for a frame, and let the
    interpreter, [n] commands later and still looking for a wait, stand on
    a byte outside the documented and reserved ranges.  Then the call
    returns at once: the result is [decoded], the buffer is as it was, and
    the player is left on the unknown command, which is neither skipped nor
    followed by another command. *)
Theorem unknown_command_stops_decoding (s0 s : VgmFile) (n : nat) (cmd : Z)
  (fuel : nat) (maxSize : Z) (out : list byte) (decoded : Z) :
  fetchCommands n s0 = FetchRunning s ->
  rd s 0 = Ok cmd -> unknownCommand cmd = true ->
  roomForFrame decoded maxSize = Ok true ->
  nextCommand s = Ok (false, s)
  /\ decodeVgmLoop (S (n + S fuel)) maxSize s0 out decoded
     = Returned decoded out s.
Proof.
  intros Hrun Hrd Hunknown Hroom.
  pose proof (nextCommand_unknown s cmd Hrd Hunknown) as Hcmd.
  split; [exact Hcmd|].
  rewrite decodeVgmLoop_step, Hroom.
  rewrite (fetchCommands_more n (S fuel) s0 s Hrun).
  rewrite fetchCommands_step, Hcmd.
  rewrite (fetchCommands_running_wait n s0 s Hrun). cbn [Z.eqb negb].
  destruct (_ && _); reflexivity.
Qed.

End Unknown.

Lemma unknown_command_stops_decoding_witness :
  exists s,
    nextCommand s = Ok (false, s)
    /\ @decodeVgmLoop silentChips 3 4096 (stateOf unknownImage) [] 0
       = Returned 0 [] s.
Proof.
  eexists.
  refine (@unknown_command_stops_decoding silentChips (stateOf unknownImage)
            _ 1 0x00 0 4096 [] 0 _ _ _ _);
    vm_compute; reflexivity.
Defined.

(** The bytes decoded before the unknown command are what the call returns:
    the 735 frames of the wait in front of it. *)
Example unknown_command_after_wait :
  exists out s,
    @decodePcm silentChips 4 4096 (stateOf waitUnknownImage)
    = Returned 2940 out s
    /\ rd s 0 = Ok 0x00.
Proof.
  do 2 eexists. split; vm_compute; reflexivity.
Qed.

(** ** Writes to a chip that was not created *)

Section AbsentChip.

Context {L : Layout} {C : Chips}.

(** No command and no tick creates a chip. *)
Lemma played_chips (s : VgmFile) (k : nat) (t : VgmFile) :
  played s k t ->
  (m_msxChip s = None -> m_msxChip t = None)
  /\ (m_nesChip s = None -> m_nesChip t = None).
Proof.
  induction 1 as [s | s t t' k Hp IH Hcmd | s t k out decoded Hp IH].
  - auto.
  - destruct (nextCommand_frame _ _ _ Hcmd) as (_ & _ & _ & Fm & Fn). tauto.
  - destruct (pumpStep_frame t out decoded) as (_ & _ & _ & _ & Fm & Fn).
    cbv zeta in Fm, Fn. tauto.
Qed.

(** C9.  [openVgm] creates at most one chip: the PSG when [ay8910Clock] is
    not 0, otherwise the NES APU when [nesApuClock] is not 0, otherwise
    none.  At any later moment [t] of playback, a 0xA0 command whose
    operands lie inside the image is executed without a look at
    [m_msxChip]: if the header declared no PSG, the write goes through the
    null pointer.  The same holds for 0xB4 and [m_nesChip].  The data block
    command 0x67 does look: without a NES APU it skips the call and returns
    true. *)
Theorem write_to_absent_chip (data : list byte) (s0 s : VgmFile) (k : nat)
  (t : VgmFile) :
  openVgm data s0 = (true, s) ->
  played s k t ->
  (m_msxChip s <> None <-> ay8910Clock (read_VgmHeader data) <> 0)
  /\ (m_nesChip s <> None
      <-> ay8910Clock (read_VgmHeader data) = 0
          /\ nesApuClock (read_VgmHeader data) <> 0)
  /\ (ay8910Clock (read_VgmHeader data) = 0 ->
      rd t 0 = Ok 0xA0 -> inImage t 3 -> nextCommand t = Crash NullChip)
  /\ (m_nesChip s = None ->
      rd t 0 = Ok 0xB4 -> inImage t 3 -> nextCommand t = Crash NullChip)
  /\ (m_nesChip s = None ->
      rd t 0 = Ok 0x67 -> inImage t 7 ->
      exists t', nextCommand t = Ok (true, t') /\ m_nesChip t' = None).
Proof.
  intros Hopen Hplayed.
  destruct (openVgm_state data s0 s Hopen) as (_ & _ & _ & _ & _ & _ & Hm & Hn).
  destruct (played_chips s k t Hplayed) as [Fm Fn].
  split.
  { rewrite Hm. destruct (ay8910Clock (read_VgmHeader data) =? 0) eqn:E;
      cbn [negb]; split; intros H; (congruence || lia). }
  split.
  { rewrite Hn. destruct (ay8910Clock (read_VgmHeader data) =? 0) eqn:E;
      cbn [negb]; [|split; intros H; [congruence | lia]].
    destruct (nesApuClock (read_VgmHeader data) =? 0) eqn:E'; cbn [negb];
      split; intros H; (congruence || lia || (split; lia)). }
  split; [|split].
  - intros Hay Hrd [Hlo Hhi].
    assert (Hnone : m_msxChip t = None).
    { apply Fm. rewrite Hm. destruct (ay8910Clock _ =? 0) eqn:E; [reflexivity|lia]. }
    unfold nextCommand. rewrite Hrd. cbn [bind].
    change (0xA0 =? 0x31) with false. cbv iota.
    rewrite (rd_inside t 1), (rd_inside t 2) by lia.
    cbn. unfold psg_call. rewrite Hnone. reflexivity.
  - intros Hnes Hrd [Hlo Hhi].
    unfold nextCommand. rewrite Hrd. cbn [bind].
    change (0xB4 =? 0x31) with false. cbv iota.
    rewrite (rd_inside t 1), (rd_inside t 2) by lia.
    cbn. unfold nes_call. rewrite (Fn Hnes). reflexivity.
  - intros Hnes Hrd [Hlo Hhi].
    unfold nextCommand. rewrite Hrd. cbn [bind].
    change (0x67 =? 0x31) with false. cbv iota.
    rewrite (rd_inside t 3), (rd_inside t 4), (rd_inside t 5), (rd_inside t 6)
      by lia.
    cbn -[wrap32 Z.shiftl field8]. rewrite (Fn Hnes). cbn [bind].
    eexists. split; [reflexivity|]. cbn. exact (Fn Hnes).
Qed.

End AbsentChip.

Lemma write_to_absent_chip_witness :
  nextCommand (stateOf psgWriteImage) = Crash NullChip.
Proof.
  refine (proj1 (proj2 (proj2
            (@write_to_absent_chip layout128 silentChips psgWriteImage
               (close newVgmFile) (stateOf psgWriteImage) 0
               (stateOf psgWriteImage) _ _))) _ _ _).
  - vm_compute. reflexivity.
  - apply played_start.
  - vm_compute. reflexivity.
  - vm_compute. reflexivity.
  - unfold inImage. vm_compute. split; discriminate.
Defined.

(** ** Whole frames only *)



Section Frames.

Context {C : Chips}.





(** Without room for one frame the call returns 0 at once; this covers
    every negative buffer size. *)
Lemma decodePcm_no_room (fuel : nat) (maxSize : Z) (s : VgmFile) :
  maxSize < 4 -> decodePcm (S fuel) maxSize s = Returned 0 [] s.
Proof.
  intros Hmax. unfold decodePcm, decodeNfsPcm, decodeVgmPcm.
  destruct (m_nsfHeader s) as [h|];
    cbn [decodeNfsLoop decodeVgmLoop]; unfold roomForFrame;
    change (INT_MAX <? 0 + 4) with false; cbv iota;
    destruct (0 + 4 <=? maxSize) eqn:E; (lia || reflexivity).
Qed.



End Frames.


(** * Further properties of the player *)

(** ** Wait commands *)

Lemma lor_shiftl_8 (lo hi : Z) :
  0 <= lo < 256 -> 0 <= hi ->
  Z.lor lo (Z.shiftl hi 8) = lo + 256 * hi.
Proof.
  intros Hlo Hhi.
  assert (Hland : Z.land lo (Z.shiftl hi 8) = 0).
  { apply Z.bits_inj'. intros n Hn.
    rewrite Z.land_spec, Z.bits_0.
    destruct (Z_lt_dec n 8) as [Hlt|Hge].
    - rewrite (Z.shiftl_spec_low hi 8 n) by lia. apply andb_false_r.
    - destruct (Z.eq_dec lo 0) as [->|Hnz]; [now rewrite Z.bits_0|].
      rewrite (Z.bits_above_log2 lo n); [reflexivity | lia |].
      assert (Z.log2 lo < 8) by (apply Z.log2_lt_pow2; lia). lia. }
  rewrite <- (Z.lxor_lor _ _ Hland), <- (Z.add_nocarry_lxor _ _ Hland).
  rewrite Z.shiftl_mul_pow2 by lia. lia.
Qed.

(** What one command does to the wait and to the rest of the player. *)
Lemma nextCommand_effect (s s' : VgmFile) (b : bool) :
  nextCommand s = Ok (b, s') ->
  (m_waitSamples s' = m_waitSamples s \/ 1 <= m_waitSamples s' <= 65536)
  /\ m_samplesPlayed s' = m_samplesPlayed s
  /\ m_duration s' = m_duration s
  /\ m_writeScaler s' = m_writeScaler s
  /\ m_writeCounter s' = m_writeCounter s
  /\ m_nsfHeader s' = m_nsfHeader s
  /\ m_rawData s' = m_rawData s
  /\ (b = false -> s' = s).
Proof.
  unfold nextCommand.
  destruct (rd s 0) as [cmd|] eqn:Hrd; cbn [bind]; [|discriminate].
  destruct (rd_Ok s 0 cmd Hrd) as (_ & Hrange & _).
  unfold between, advance, psg_call, nes_call.
  split_on_cmd cmd.
  all: split_on_reads s.
  all: repeat match goal with
       | |- context [match ?c with Some _ => _ | None => _ end] =>
           destruct c eqn:?
       | |- context [if ?c then _ else _] => destruct c eqn:?
       end; cbn [bind].
  all: try match goal with
       | |- context [Z.lor ?x ?y] =>
           let w := fresh "w" in
           let Hw := fresh "Hw" in
           remember (Z.lor x y) as w eqn:Hw;
           rewrite lor_shiftl_8 in Hw by lia
       end.
  all: intros [= <- <-] || discriminate.
  all: cbn [m_waitSamples m_samplesPlayed m_duration m_writeScaler
            m_writeCounter m_nsfHeader m_rawData set_dataPtr set_waitSamples
            set_loops set_nesChip set_msxChip].
  all: repeat split; try reflexivity; try discriminate; try (left; reflexivity).
  all: try (right; lia).
  right.
  assert (Hland : Z.land cmd 15 = cmd mod 2 ^ 4)
    by (apply (Z.land_ones cmd 4); lia).
  pose proof (Z.mod_pos_bound cmd (2 ^ 4) ltac:(lia)). lia.
Qed.

(** X1.  A command that returns true leaves the wait as it is or sets it to
    a value between 1 and 65536: no command waits for 0 samples, none for
    more than 65536.  It touches neither the sample counter nor the cap nor
    the rate converter nor the image; a command that returns false changes
    nothing at all. *)
Theorem nextCommand_wait_bounds (s s' : VgmFile) (b : bool) :
  nextCommand s = Ok (b, s') ->
  (m_waitSamples s' = m_waitSamples s \/ 1 <= m_waitSamples s' <= 65536)
  /\ m_samplesPlayed s' = m_samplesPlayed s
  /\ m_duration s' = m_duration s
  /\ m_writeScaler s' = m_writeScaler s
  /\ m_writeCounter s' = m_writeCounter s
  /\ m_nsfHeader s' = m_nsfHeader s
  /\ m_rawData s' = m_rawData s
  /\ (b = false -> s' = s).
Proof. apply nextCommand_effect. Qed.

Lemma nextCommand_wait_bounds_witness :
  m_waitSamples afterWait = m_waitSamples (stateOf waitImage)
  \/ 1 <= m_waitSamples afterWait <= 65536.
Proof.
  refine (proj1 (nextCommand_wait_bounds (stateOf waitImage) afterWait true _)).
  vm_compute. reflexivity.
Defined.

(** ** The rate converter *)

Section RateConverter.

Context {C : Chips}.

(** What [interpolateSample] leaves alone: everything but the accumulator
    and the chips. *)
Lemma interpolateSample_keeps (s : VgmFile) :
  let s' := interpolateSample s in
  m_writeCounter s' = m_writeCounter s /\ m_writeScaler s' = m_writeScaler s
  /\ m_waitSamples s' = m_waitSamples s
  /\ m_samplesPlayed s' = m_samplesPlayed s
  /\ m_duration s' = m_duration s /\ m_nsfHeader s' = m_nsfHeader s
  /\ m_rawData s' = m_rawData s /\ m_dataPtr s' = m_dataPtr s.
Proof.
  unfold interpolateSample, pullSample.
  destruct (m_msxChip s); cbn [snd set_msxChip m_nesChip];
    destruct (m_nesChip s);
    match goal with |- context [if ?c then _ else _] => destruct c end;
    cbn; tauto.
Qed.

(** One tick writes no frame or one frame. *)
Lemma pumpStep_one_frame (s : VgmFile) (out : list byte) (decoded : Z) :
  let r := pumpStep s out decoded in
  (snd r = decoded /\ snd (fst r) = out)
  \/ (snd r = decoded + 4
      /\ exists x, snd (fst r) = out ++ store32 x).
Proof.
  unfold pumpStep.
  match goal with |- context [if ?c then _ else _] => destruct c end;
    cbn [fst snd]; [right | left]; eauto.
Qed.

(** X2.  The pump never writes more than one frame per tick, whatever the
    host rate: after [pump], the bytes written are at most four times the
    samples of the wait that were used up, and the wait has not grown.  A
    host rate above 44100 Hz therefore yields no more frames than 44100. *)
Theorem pump_at_most_one_frame_per_tick (maxSize : Z) (n : nat) :
  forall (s : VgmFile) (out : list byte) (decoded : Z) s' out' decoded',
    0 <= m_waitSamples s ->
    pump n maxSize s out decoded = Ok (s', out', decoded') ->
    0 <= m_waitSamples s' <= m_waitSamples s
    /\ decoded <= decoded' <= decoded + 4 * (m_waitSamples s - m_waitSamples s')
    /\ Z.of_nat (length out') = Z.of_nat (length out) + (decoded' - decoded).
Proof.
  induction n as [|n IH]; intros s out decoded s' out' decoded' Hwait Hrun;
    cbn [pump] in Hrun.
  - injection Hrun as <- <- <-. lia.
  - destruct (m_waitSamples s =? 0) eqn:E0.
    + injection Hrun as <- <- <-. lia.
    + destruct (roomForFrame decoded maxSize) as [[|]|];
        cbn [bind] in Hrun; [| |discriminate].
      * pose proof (pumpStep_wait s out decoded) as Hstep.
        pose proof (pumpStep_one_frame s out decoded) as Hframe.
        destruct (pumpStep s out decoded) as [[s1 out1] decoded1].
        cbn [fst snd] in Hstep, Hframe.
        destruct (IH s1 out1 decoded1 s' out' decoded' ltac:(lia) Hrun)
          as (Hw & Hd & Hlen).
        destruct Hframe as [[-> ->] | [-> [x ->]]].
        -- lia.
        -- rewrite length_app in Hlen. cbn [store32 length] in Hlen. lia.
      * injection Hrun as <- <- <-. lia.
Qed.

(** One tick of the rate converter below or at the native rate. *)
Lemma pumpStep_rate (s : VgmFile) (out : list byte) (decoded : Z) :
  0 <= m_writeCounter s < VGM_SAMPLE_RATE ->
  0 <= m_writeScaler s <= VGM_SAMPLE_RATE ->
  let q := (m_writeCounter s + m_writeScaler s) / VGM_SAMPLE_RATE in
  let r := pumpStep s out decoded in
  snd r = decoded + 4 * q
  /\ Z.of_nat (length (snd (fst r))) = Z.of_nat (length out) + 4 * q
  /\ m_writeCounter (fst (fst r))
     = (m_writeCounter s + m_writeScaler s) mod VGM_SAMPLE_RATE
  /\ m_writeScaler (fst (fst r)) = m_writeScaler s.
Proof.
  intros Hc Hw.
  pose proof (interpolateSample_keeps s) as (Kc & Kw & _).
  unfold pumpStep.
  cbn [m_writeCounter m_writeScaler m_samplesPlayed m_waitSamples
       set_writeCounter set_samplesPlayed set_waitSamples].
  rewrite Kc, Kw.
  unfold VGM_SAMPLE_RATE in *.
  assert (Hsmall : wrap32 (m_writeCounter s + m_writeScaler s)
                   = m_writeCounter s + m_writeScaler s)
    by (unfold wrap32; apply Z.mod_small; lia).
  rewrite Hsmall.
  destruct (44100 <=? m_writeCounter s + m_writeScaler s) eqn:E;
    cbn [fst snd m_writeCounter m_writeScaler set_sampleSumValid
         set_writeCounter set_samplesPlayed set_waitSamples].
  - assert (Hq : (m_writeCounter s + m_writeScaler s) / 44100 = 1).
    { symmetry. apply (Z.div_unique _ _ 1 (m_writeCounter s + m_writeScaler s - 44100)); lia. }
    assert (Hm : (m_writeCounter s + m_writeScaler s) mod 44100
                 = m_writeCounter s + m_writeScaler s - 44100).
    { symmetry. apply (Z.mod_unique _ _ 1); lia. }
    rewrite Hq, Hm, Kw, length_app. cbn [store32 length]. lia.
  - rewrite Z.div_small, Z.mod_small by lia. rewrite Kw. lia.
Qed.

(** X3.  Rate conversion.  At a host rate [w] of at most 44100 Hz, with room
    in the buffer for one frame per tick, a wait of [n] samples that starts
    with the write counter at [c] is pumped to its end and writes exactly
    (c + n * w) / 44100 frames; the write counter ends at
    (c + n * w) mod 44100, so that no fraction of a frame is lost from one
    wait to the next. *)
Theorem pump_frame_count (maxSize : Z) (n : nat) :
  forall (s : VgmFile) (out : list byte) (decoded : Z),
    m_waitSamples s = Z.of_nat n ->
    0 <= m_writeCounter s < VGM_SAMPLE_RATE ->
    0 <= m_writeScaler s <= VGM_SAMPLE_RATE ->
    decoded + 4 * Z.of_nat n <= maxSize -> maxSize <= INT_MAX ->
    exists s' out',
      pump n maxSize s out decoded
      = Ok (s', out',
            decoded
            + 4 * ((m_writeCounter s + Z.of_nat n * m_writeScaler s)
                   / VGM_SAMPLE_RATE))
      /\ Z.of_nat (length out')
         = Z.of_nat (length out)
           + 4 * ((m_writeCounter s + Z.of_nat n * m_writeScaler s)
                  / VGM_SAMPLE_RATE)
      /\ m_writeCounter s'
         = (m_writeCounter s + Z.of_nat n * m_writeScaler s)
           mod VGM_SAMPLE_RATE
      /\ m_writeScaler s' = m_writeScaler s
      /\ m_waitSamples s' = 0.
Proof.
  induction n as [|n IH]; intros s out decoded Hwait Hc Hw Hroom Hmax.
  - exists s, out. cbn [pump].
    replace (m_writeCounter s + Z.of_nat 0 * m_writeScaler s)
      with (m_writeCounter s) by lia.
    rewrite Z.div_small, Z.mod_small by lia.
    repeat split; try lia. f_equal. f_equal. lia.
  - cbn [pump]. destruct (m_waitSamples s =? 0) eqn:E0; [lia|].
    unfold roomForFrame.
    destruct (INT_MAX <? decoded + 4) eqn:Eov; [lia|]. cbn [bind].
    destruct (decoded + 4 <=? maxSize) eqn:Eroom; [|lia].
    pose proof (pumpStep_rate s out decoded Hc Hw) as (Hd & Hlen & Hcnt & Hscale).
    pose proof (pumpStep_wait s out decoded) as Hstep.
    destruct (pumpStep s out decoded) as [[s1 out1] decoded1].
    cbn [fst snd] in Hd, Hlen, Hcnt, Hscale, Hstep.
    set (c := m_writeCounter s) in *. set (w := m_writeScaler s) in *.
    assert (Hq : 0 <= (c + w) / VGM_SAMPLE_RATE <= 1).
    { unfold VGM_SAMPLE_RATE in *. split.
      - apply Z.div_pos; lia.
      - apply Z.lt_succ_r, Z.div_lt_upper_bound; lia. }
    assert (Hm : 0 <= (c + w) mod VGM_SAMPLE_RATE < VGM_SAMPLE_RATE)
      by (apply Z.mod_pos_bound; unfold VGM_SAMPLE_RATE; lia).
    destruct (IH s1 out1 decoded1) as (s' & out' & Hrun & Hlen' & Hcnt' & Hscale' & Hwait');
      [lia | lia | lia | lia | lia |].
    exists s', out'. rewrite Hrun, Hcnt, Hscale in *.
    assert (Hsplit : c + Z.of_nat (S n) * w
                     = (c + w) mod VGM_SAMPLE_RATE + Z.of_nat n * w
                       + (c + w) / VGM_SAMPLE_RATE * VGM_SAMPLE_RATE).
    { pose proof (Z.div_mod (c + w) VGM_SAMPLE_RATE ltac:(unfold VGM_SAMPLE_RATE; lia)).
      lia. }
    rewrite Hsplit, Z.div_add, Z.mod_add by (unfold VGM_SAMPLE_RATE; lia).
    repeat split; try lia. f_equal. f_equal. lia.
Qed.

End RateConverter.

Lemma pump_at_most_one_frame_per_tick_witness :
  exists s' out' decoded',
    @pump silentChips 17 40 afterWait [] 0 = Ok (s', out', decoded')
    /\ 0 <= decoded' <= 0 + 4 * (m_waitSamples afterWait - m_waitSamples s').
Proof.
  do 3 eexists. split; [vm_compute; reflexivity|].
  refine (proj1 (proj2 (@pump_at_most_one_frame_per_tick silentChips 40 17
                          afterWait [] 0 _ _ _ _ _))).
  - vm_compute. discriminate.
  - vm_compute. reflexivity.
Defined.

Lemma pump_frame_count_witness :
  exists s' out',
    @pump silentChips 17 4096 afterWaitQuarter [] 0 = Ok (s', out', 16)
    /\ m_writeCounter s' = 11025.
Proof.
  destruct (@pump_frame_count silentChips 4096 17 afterWaitQuarter [] 0)
    as (s' & out' & Hrun & _ & Hcnt & _).
  - vm_compute. reflexivity.
  - vm_compute. split; [discriminate | reflexivity].
  - vm_compute. split; discriminate.
  - vm_compute. discriminate.
  - vm_compute. discriminate.
  - exists s', out'. split; [exact Hrun | exact Hcnt].
Defined.

(** ** Frames at the native rate *)

Lemma u8_byte_of_Z (z : Z) : u8 (byte_of_Z z) = z mod 256.
Proof.
  unfold u8, byte_of_Z.
  pose proof (Z.mod_pos_bound z 256 ltac:(lia)) as Hm.
  destruct (Byte.of_N (Z.to_N (z mod 256))) as [b|] eqn:E.
  - apply Byte.to_of_N in E. rewrite E. lia.
  - apply Byte.of_N_None_iff in E. lia.
Qed.

(** The four bytes of a frame, read back: the left lane comes first, then
    the right lane, each little-endian. *)
Lemma store32_lanes (x : Z) :
  0 <= x < 2 ^ 32 ->
  field16 (store32 x) 0 = left x /\ field16 (store32 x) 2 = right x.
Proof.
  intros Hx. unfold field16, field8, store32.
  change (Z.to_nat (0 + 1)) with 1%nat. change (Z.to_nat (2 + 1)) with 3%nat.
  change (Z.to_nat 0) with 0%nat. change (Z.to_nat 2) with 2%nat. cbn [nth].
  rewrite !u8_byte_of_Z. unfold left, right.
  change (2 ^ 8) with 256. change (2 ^ 16) with (256 * 256).
  change (2 ^ 24) with (256 * 256 * 256).
  rewrite <- !Z.div_div by lia.
  set (a := x / 256). set (b := a / 256).
  pose proof (Z.div_mod x 256 ltac:(lia)).
  pose proof (Z.div_mod a 256 ltac:(lia)).
  pose proof (Z.div_mod b 256 ltac:(lia)).
  pose proof (Z.mod_pos_bound x 256 ltac:(lia)).
  pose proof (Z.mod_pos_bound a 256 ltac:(lia)).
  pose proof (Z.mod_pos_bound b 256 ltac:(lia)).
  fold a. fold b.
  assert (Hb : 0 <= b < 256 * 256).
  { unfold b, a. rewrite Z.div_div by lia. split.
    - apply Z.div_pos; lia.
    - apply Z.div_lt_upper_bound; lia. }
  assert (Hc : 0 <= b / 256 < 256).
  { split; [apply Z.div_pos; lia | apply Z.div_lt_upper_bound; lia]. }
  split.
  - apply (Z.mod_unique x (256 * 256) b); lia.
  - rewrite (Z.mod_small (b / 256)), (Z.mod_small b (256 * 256)) by lia.
    lia.
Qed.

(** Without a valid accumulator the new sample becomes the accumulator. *)
Lemma interpolateSample_first {C : Chips} (s : VgmFile) :
  m_sampleSumValid s = false ->
  m_sampleSum (interpolateSample s) = fst (pullSample s).
Proof.
  intros Hv.
  pose proof (pullSample_frame s) as (_ & _ & _ & _ & _ & _ & _ & Hvalid).
  pose proof (pullSample_range s) as Hnext.
  unfold interpolateSample.
  destruct (pullSample s) as [next s0]. cbn [fst snd] in *.
  rewrite Hvalid, Hv. cbn [negb].
  cbn [m_sampleSum set_sampleSum set_sampleSumValid].
  rewrite !left_pack, !right_pack by lane_range.
  rewrite !mergeLane_same. now apply pack_left_right.
Qed.

(** X4.  At the native rate the pump passes the chip's samples through.
    With the host rate at 44100 Hz, the write counter at 0 and no valid
    accumulator, a tick writes one frame, the packed sample the chip
    returned: its first two bytes are the left lane, the next two the right
    lane, both little-endian.  The tick leaves the write counter at 0 and
    the accumulator invalid, so the same holds for the next tick. *)
Theorem pumpStep_native_rate {C : Chips} (s : VgmFile) (out : list byte)
  (decoded : Z) :
  m_writeScaler s = VGM_SAMPLE_RATE -> m_writeCounter s = 0 ->
  m_sampleSumValid s = false ->
  let next := fst (pullSample s) in
  let r := pumpStep s out decoded in
  snd r = decoded + 4
  /\ snd (fst r) = out ++ store32 next
  /\ field16 (store32 next) 0 = left next
  /\ field16 (store32 next) 2 = right next
  /\ m_writeScaler (fst (fst r)) = VGM_SAMPLE_RATE
  /\ m_writeCounter (fst (fst r)) = 0
  /\ m_sampleSumValid (fst (fst r)) = false.
Proof.
  intros Hw Hc Hv. cbv zeta.
  pose proof (interpolateSample_keeps s) as (Kc & Kw & _).
  pose proof (interpolateSample_first s Hv) as Hsum.
  pose proof (pullSample_range s) as Hrange.
  destruct (store32_lanes _ Hrange) as [Hl Hr].
  unfold pumpStep.
  cbn [m_writeCounter m_writeScaler m_samplesPlayed m_waitSamples m_sampleSum
       set_writeCounter set_samplesPlayed set_waitSamples].
  rewrite Kc, Kw, Hc, Hw.
  change (VGM_SAMPLE_RATE <=? wrap32 (0 + VGM_SAMPLE_RATE)) with true.
  cbv iota. cbn [fst snd]. rewrite Hsum.
  cbn [m_writeScaler m_writeCounter m_sampleSumValid set_sampleSumValid
       set_writeCounter set_samplesPlayed set_waitSamples].
  rewrite Kw, Hw. repeat split; auto.
Qed.

Lemma pumpStep_native_rate_witness :
  snd (@pumpStep silentChips afterWait [] 0) = 0 + 4.
Proof.
  refine (proj1 (@pumpStep_native_rate silentChips afterWait [] 0 _ _ _));
    vm_compute; reflexivity.
Defined.

(** ** The duration cap *)

Section Cap.

Context {C : Chips}.

Variable D : Z.
Hypothesis D_positive : 0 < D.
Hypothesis D_fits : D + 65535 < 2 ^ 32.

Lemma pumpStep_withinCap (s : VgmFile) (out : list byte) (decoded : Z) :
  withinCap D s -> m_waitSamples s <> 0 ->
  withinCap D (fst (fst (pumpStep s out decoded))).
Proof.
  intros (Hd & Hw & Hp & Hsum) Hnz.
  pose proof (interpolateSample_keeps s) as (_ & _ & Kw & Kp & Kd & _).
  unfold withinCap, pumpStep.
  match goal with |- context [if ?c then _ else _] => destruct c end;
    cbn [fst m_duration m_waitSamples m_samplesPlayed set_sampleSumValid
         set_writeCounter set_samplesPlayed set_waitSamples];
    rewrite Kw, Kp, Kd; unfold wrap32; rewrite Z.mod_small by lia; lia.
Qed.

Lemma pump_withinCap (maxSize : Z) (n : nat) :
  forall (s : VgmFile) (out : list byte) (decoded : Z),
    withinCap D s ->
    match pump n maxSize s out decoded with
    | Ok (s', _, _) => withinCap D s'
    | Crash _ => True
    end.
Proof.
  induction n as [|n IH]; intros s out decoded Hcap; cbn [pump].
  - exact Hcap.
  - destruct (m_waitSamples s =? 0) eqn:E0; [exact Hcap|].
    destruct (roomForFrame decoded maxSize) as [[|]|]; cbn [bind];
      [|exact Hcap|exact I].
    pose proof (pumpStep_withinCap s out decoded Hcap ltac:(lia)) as Hstep.
    destruct (pumpStep s out decoded) as [[s1 out1] decoded1].
    now apply IH.
Qed.

Lemma fetchCommands_withinCap (fuel : nat) :
  forall s : VgmFile,
    withinCap D s ->
    match fetchCommands fuel s with
    | FetchReturn s' => withinCap D s'
    | FetchWait s' => withinCap D s'
    | FetchRunning s' => withinCap D s'
    | FetchCrash _ => True
    end.
Proof.
  induction fuel as [|fuel IH]; intros s Hcap; cbn [fetchCommands];
    destruct (m_waitSamples s =? 0) eqn:E0; cbn [negb]; try exact Hcap;
    destruct (negb (m_duration s =? 0) && (m_duration s <=? m_samplesPlayed s))
      eqn:Ecap; try exact Hcap.
  destruct (nextCommand s) as [[b s1]|] eqn:Hcmd; [|exact I].
  destruct (nextCommand_effect s s1 b Hcmd) as (Hw & Hp & Hd & _ & _ & _ & _ & Hsame).
  assert (Hcap1 : withinCap D s1).
  { destruct Hcap as (Hd0 & Hw0 & Hp0 & Hsum0). unfold withinCap. lia. }
  destruct b; [now apply IH | exact Hcap1].
Qed.

Lemma decodeVgmLoop_withinCap (maxSize : Z) (fuel : nat) :
  forall (s : VgmFile) (out : list byte) (decoded : Z),
    withinCap D s ->
    outcomeWithinCap D (decodeVgmLoop fuel maxSize s out decoded).
Proof.
  induction fuel as [|fuel IH]; intros s out decoded Hcap;
    cbn [decodeVgmLoop outcomeWithinCap]; [exact Hcap|].
  destruct (roomForFrame decoded maxSize) as [[|]|]; cbn [outcomeWithinCap];
    try exact Hcap; try exact I.
  pose proof (fetchCommands_withinCap fuel s Hcap) as Hfetch.
  destruct (fetchCommands fuel s) as [s'|s'|s'|f]; cbn [outcomeWithinCap];
    try exact Hfetch.
  pose proof (pump_withinCap maxSize (Z.to_nat (m_waitSamples s')) s' out decoded
                Hfetch) as Hpump.
  destruct (pump _ maxSize s' out decoded) as [[[s'' out'] decoded']|];
    [now apply IH | exact I].
Qed.

Lemma decodeNfsLoop_withinCap (h : NsfHeader) (maxSize : Z) (fuel : nat) :
  forall (s : VgmFile) (out : list byte) (decoded : Z),
    withinCap D s ->
    outcomeWithinCap D (decodeNfsLoop h fuel maxSize s out decoded).
Proof.
  induction fuel as [|fuel IH]; intros s out decoded Hcap;
    cbn [decodeNfsLoop outcomeWithinCap]; [exact Hcap|].
  assert (Hpump : forall s',
             withinCap D s' ->
             outcomeWithinCap D
               match pump (Z.to_nat (m_waitSamples s')) maxSize s' out decoded with
               | Ok (s'', out', decoded') =>
                   decodeNfsLoop h fuel maxSize s'' out' decoded'
               | Crash f => Aborted f
               end).
  { intros s' Hcap'.
    pose proof (pump_withinCap maxSize (Z.to_nat (m_waitSamples s')) s' out
                  decoded Hcap') as Hp.
    destruct (pump _ maxSize s' out decoded) as [[[s'' out'] decoded']|];
      [now apply IH | exact I]. }
  destruct (roomForFrame decoded maxSize) as [[|]|]; cbn [outcomeWithinCap];
    try exact Hcap; try exact I.
  destruct (m_waitSamples s =? 0) eqn:E0; [|now apply Hpump].
  destruct (negb (m_duration s =? 0) && (m_duration s <=? m_samplesPlayed s))
    eqn:Ecap; [exact Hcap|].
  unfold callSubroutine. destruct (m_nesChip s) as [calls|]; [|exact I].
  assert (Hcap1 : withinCap D (set_nesChip
                                 (Some (calls
                                        ++ [NesCallSubroutine (playAddress h)
                                              (Some 20000)])) s)) by exact Hcap.
  destruct (nes_cycles calls (playAddress h) (Some 20000) <? 0);
    [exact Hcap1|].
  destruct (nes_cycles calls (playAddress h) (Some 20000) =? 0);
    [exact Hcap1|].
  apply Hpump.
  destruct Hcap as (Hd0 & Hw0 & Hp0 & Hsum0). unfold withinCap.
  cbn [m_duration m_waitSamples m_samplesPlayed set_waitSamples set_nesChip].
  pose proof (wrap32_range (VGM_SAMPLE_RATE * ntscPlaySpeed h)) as Hr.
  assert (0 <= wrap32 (VGM_SAMPLE_RATE * ntscPlaySpeed h) / 1000000 <= 4294).
  { split; [apply Z.div_pos; lia|].
    apply Z.lt_succ_r, Z.div_lt_upper_bound; lia. }
  lia.
Qed.

End Cap.

(** X5.  The duration cap is looked at between commands only, so a wait may
    run past it, but never by more than one wait: with a cap [D] > 0 (and
    [D] + 65535 below 2^32), a player that is within 65535 samples of the
    cap, pending wait included, is still so after any call of [decodePcm],
    returned or running, for VGM and NSF alike; the cap itself is never
    changed.  From [open] on, at most [D] + 65535 samples are ever played. *)
Theorem decodePcm_cap_overshoot {C : Chips} (fuel : nat) (maxSize : Z)
  (s : VgmFile) :
  0 < m_duration s -> m_duration s + 65535 < 2 ^ 32 ->
  0 <= m_waitSamples s -> 0 <= m_samplesPlayed s ->
  m_samplesPlayed s + m_waitSamples s <= m_duration s + 65535 ->
  match decodePcm fuel maxSize s with
  | Returned _ _ s' | Running _ _ s' =>
      m_duration s' = m_duration s
      /\ 0 <= m_samplesPlayed s'
      /\ m_samplesPlayed s' + m_waitSamples s' <= m_duration s + 65535
  | Aborted _ => True
  end.
Proof.
  intros Hpos Hfits Hw Hp Hsum.
  assert (Hcap : withinCap (m_duration s) s) by (unfold withinCap; lia).
  assert (Hout : outcomeWithinCap (m_duration s) (decodePcm fuel maxSize s)).
  { unfold decodePcm, decodeNfsPcm, decodeVgmPcm.
    destruct (m_nsfHeader s) as [h|].
    - now apply decodeNfsLoop_withinCap.
    - now apply decodeVgmLoop_withinCap. }
  destruct (decodePcm fuel maxSize s); cbn [outcomeWithinCap] in Hout;
    try exact I; unfold withinCap in Hout; lia.
Qed.

Lemma decodePcm_cap_overshoot_witness :
  match @decodePcm silentChips 3 4096 (stateOf silenceImage) with
  | Returned _ _ s' | Running _ _ s' =>
      m_duration s' = m_duration (stateOf silenceImage)
      /\ 0 <= m_samplesPlayed s'
      /\ m_samplesPlayed s' + m_waitSamples s'
         <= m_duration (stateOf silenceImage) + 65535
  | Aborted _ => True
  end.
Proof.
  apply (@decodePcm_cap_overshoot silentChips 3 4096 (stateOf silenceImage));
    vm_compute; (reflexivity || discriminate).
Defined.

(** ** Files that [open] rejects *)

Section Rejected.

Context {L : Layout} {C : Chips}.

Lemma openVgm_rejects_other_magic (data : list byte) (s0 : VgmFile) :
  field32 data 0 <> 0x206D6756 ->
  exists s1,
    openVgm data s0 = (false, s1)
    /\ m_duration s1 = m_duration s0 /\ m_waitSamples s1 = m_waitSamples s0.
Proof.
  intros Hmagic. unfold openVgm.
  destruct (_ <? _); [eexists; split; [reflexivity | cbn; auto]|].
  cbn [ident read_VgmHeader].
  destruct (field32 data 0 =? 0x206D6756) eqn:E; [lia|]. cbn [negb].
  eexists; split; [reflexivity | cbn; auto].
Qed.

(** X6.  A rejected file can leave the player half open.  When the image is
    at least as long as the NSF header struct and carries neither magic,
    [open] returns false but [m_nsfHeader] still points at the image, with
    no NES chip behind it: [getTrackCount] then answers with the song count
    read from the rejected image, [setTrack] calls [reset] through the null
    chip pointer,
    and so does the first [decodePcm] that finds no wait pending and room
    for a frame when it calls the play routine. *)
Theorem rejected_file_stays_loaded (data : list byte) (s0 : VgmFile) :
  field32 data 0 <> 0x206D6756 -> field32 data 0 <> 0x4D53454E ->
  sizeof_NsfHeader <= Z.of_nat (length data) ->
  exists s,
    open data s0 = Ok (false, s)
    /\ m_nsfHeader s = Some (read_NsfHeader data)
    /\ m_nesChip s = None
    /\ getTrackCount s = songIndex (read_NsfHeader data)
    /\ (forall track, setTrack track s = Crash NullChip)
    /\ (forall fuel maxSize,
          m_waitSamples s0 = 0 -> 0 <= m_duration s0 ->
          4 <= maxSize ->
          decodePcm (S fuel) maxSize s = Aborted NullChip).
Proof.
  intros Hvgm Hnsf Hsize. unfold open.
  match goal with |- context [openVgm data ?t] => set (s00 := t) end.
  destruct (openVgm_rejects_other_magic data s00 Hvgm) as (s1 & -> & Hd1 & Hw1).
  cbv iota. unfold openNsf.
  destruct (Z.of_nat (length data) <? sizeof_NsfHeader) eqn:E; [lia|].
  cbn [nsfIdent read_NsfHeader].
  destruct (field32 data 0 =? 0x4D53454E) eqn:E'; [lia|]. cbn [negb].
  eexists. split; [reflexivity|].
  split; [reflexivity|]. split; [reflexivity|]. split; [reflexivity|].
  split.
  - intros track. reflexivity.
  - intros fuel maxSize Hw Hd Hmax.
    unfold decodePcm. cbn [m_nsfHeader]. unfold decodeNfsPcm.
    cbn [decodeNfsLoop]. unfold roomForFrame.
    change (INT_MAX <? 0 + 4) with false. cbv iota.
    destruct (0 + 4 <=? maxSize) eqn:Eroom; [|lia].
    cbn [m_waitSamples m_duration m_samplesPlayed close deleteChips
         set_nesChip set_msxChip set_samplesPlayed].
    rewrite Hw1, Hd1. subst s00. cbn [m_waitSamples m_duration].
    rewrite Hw. cbn [Z.eqb].
    destruct (negb (m_duration s0 =? 0) && (m_duration s0 <=? 0)) eqn:Ecap;
      [lia|].
    reflexivity.
Qed.

(** X7.  An image shorter than both header structs, the empty image
    included, is rejected, and [open] has then done what [close] does and
    nothing else: no header, [m_rawData] reset, no chip, the sample counter
    at 0.  The cursor [m_dataPtr] is not reset: it still points into the
    image that was open before, every read through it gives what it gave
    before, and [decodePcm] goes on interpreting that image as a VGM
    stream, with the wait, the loop counter and the state of the rate
    converter it finds. *)
Theorem short_file_leaves_player_closed (data : list byte) (s0 : VgmFile) :
  Z.of_nat (length data) < sizeof_VgmHeader ->
  Z.of_nat (length data) < sizeof_NsfHeader ->
  exists s,
    open data s0 = Ok (false, s)
    /\ m_header s = None /\ m_nsfHeader s = None
    /\ m_rawData s = [] /\ m_msxChip s = None /\ m_nesChip s = None
    /\ getTrackCount s = 1
    /\ s = close s0
    /\ m_dataImage s = m_dataImage s0 /\ m_dataPtr s = m_dataPtr s0
    /\ (forall k, rd s k = rd s0 k)
    /\ (forall fuel maxSize,
          decodePcm fuel maxSize s = decodeVgmPcm fuel maxSize (close s0)).
Proof.
  intros Hvgm Hnsf. unfold open, openVgm.
  destruct (_ <? sizeof_VgmHeader) eqn:E; [|lia].
  cbv iota. unfold openNsf.
  destruct (_ <? sizeof_NsfHeader) eqn:E'; [|lia].
  eexists. split; [reflexivity|].
  do 6 (split; [reflexivity|]).
  split; [reflexivity|].
  split; [reflexivity|]. split; [reflexivity|].
  split; [intros k; reflexivity|].
  intros fuel maxSize. reflexivity.
Qed.

End Rejected.

Lemma rejected_file_stays_loaded_witness :
  exists s,
    opened junkImage = Ok (false, s)
    /\ m_nsfHeader s = Some (read_NsfHeader junkImage)
    /\ @decodePcm silentChips 1 4096 s = Aborted NullChip.
Proof.
  destruct (@rejected_file_stays_loaded layout128 silentChips junkImage
              newVgmFile)
    as (s & Hopen & Hnsf & _ & _ & _ & Hdecode).
  - vm_compute. discriminate.
  - vm_compute. discriminate.
  - vm_compute. discriminate.
  - exists s. split; [exact Hopen|]. split; [exact Hnsf|].
    apply Hdecode; vm_compute; (reflexivity || discriminate).
Defined.

Lemma short_file_leaves_player_closed_witness :
  exists s,
    @open layout128 silentChips [] (stateOf silenceImage) = Ok (false, s)
    /\ m_rawData s = []
    /\ rd s 0 = Ok 0x62
    /\ exists s',
         @decodePcm silentChips 3 4096 s = Returned 2940 (silence 2940) s'.
Proof.
  destruct (@short_file_leaves_player_closed layout128 silentChips []
              (stateOf silenceImage))
    as (s & Hopen & _ & _ & Hraw & _ & _ & _ & Hclose & _ & _ & Hrd & _).
  - vm_compute. reflexivity.
  - vm_compute. reflexivity.
  - exists s. split; [exact Hopen|]. split; [exact Hraw|].
    split; [rewrite Hrd; vm_compute; reflexivity|].
    subst s. eexists. vm_compute. reflexivity.
Defined.

(** ** Opening an NSF file *)

Section OpenNsf.

Context {L : Layout} {C : Chips}.

(** [setTrack] on an NSF player, in full: the calls it makes, what it
    returns and what it leaves alone. *)
Lemma setTrack_result (track : Z) (s : VgmFile) (h : NsfHeader)
  (calls : list NesCall) :
  m_header s = None -> m_nsfHeader s = Some h -> m_nesChip s = Some calls ->
  let before :=
    calls ++ setTrackZeroing h (m_dataPtr s) (m_size s)
    ++ setTrackRegisters h track in
  let ok := negb (nes_cycles before (initAddress h) None <? 0) in
  exists s',
    setTrack track s = Ok (ok, s')
    /\ m_nesChip s'
       = Some (before ++ [NesCallSubroutine (initAddress h) None])
    /\ m_nsfHeader s' = Some h /\ m_header s' = None
    /\ m_msxChip s' = m_msxChip s
    /\ m_rawData s' = m_rawData s /\ m_dataPtr s' = m_dataPtr s
    /\ m_waitSamples s' = m_waitSamples s
    /\ m_duration s' = m_duration s
    /\ m_samplesPlayed s' = (if ok then 0 else m_samplesPlayed s).
Proof.
  intros Hvgm Hnsf Hchip. cbv zeta.
  unfold setTrack, setTrackZeroing, setTrackRegisters, callSubroutine.
  rewrite Hvgm, Hnsf.
  rewrite (nes_call_present _ s calls Hchip). cbn [bind].
  erewrite nes_call_present by reflexivity. cbn [bind].
  set (banks := rangeCalls 0 8 _).
  set (ram := rangeCalls 0 0x07FF _).
  set (apu := rangeCalls 0x4000 0x4013 _).
  destruct (existsb (fun b => negb (b =? 0)) (bankSwitch h)).
  - erewrite nes_for_range_present by reflexivity. cbn [bind]. fold banks.
    erewrite nes_for_range_present by reflexivity. cbn [bind]. fold ram.
    erewrite nes_for_range_present by reflexivity. cbn [bind]. fold apu.
    do 6 (erewrite nes_call_present by reflexivity; cbn [bind]).
    cbn [m_nesChip set_nesChip bind m_dataPtr m_size].
    rewrite <- !app_assoc. cbn [app].
    destruct (_ <? 0); cbn [negb]; eexists; (split; [reflexivity|]);
      cbn [m_nesChip m_nsfHeader m_header m_msxChip m_rawData m_dataPtr
           m_waitSamples m_duration m_samplesPlayed set_nesChip
           set_samplesPlayed];
      rewrite <- ?app_assoc; cbn [app]; repeat split; auto.
  - cbn [bind].
    erewrite nes_for_range_present by reflexivity. cbn [bind]. fold ram.
    erewrite nes_for_range_present by reflexivity. cbn [bind]. fold apu.
    do 6 (erewrite nes_call_present by reflexivity; cbn [bind]).
    cbn [m_nesChip set_nesChip bind m_dataPtr m_size].
    rewrite <- !app_assoc. cbn [app].
    destruct (_ <? 0); cbn [negb]; eexists; (split; [reflexivity|]);
      cbn [m_nesChip m_nsfHeader m_header m_msxChip m_rawData m_dataPtr
           m_waitSamples m_duration m_samplesPlayed set_nesChip
           set_samplesPlayed];
      rewrite <- ?app_assoc; cbn [app]; repeat split; auto.
Qed.

End OpenNsf.

Section OpenNsfFile.

Context {L : Layout} {C : Chips}.

(** X8.  Opening an NSF file.  For an image that carries the magic "NESM"
    and is at least as long as the NSF header struct, [open] creates the NES
    chip, runs [setTrack] for track 0 whatever the header says (the
    accumulator of the CPU is set to 0) and returns true exactly when the
    init routine does not report a fault (a negative cycle count).  The
    player then has the NSF header, no VGM header and no PSG; on success
    nothing is played yet and no wait is pending. *)
Theorem open_nsf_file (data : list byte) (s0 : VgmFile) :
  field32 data 0 = 0x4D53454E ->
  sizeof_NsfHeader <= Z.of_nat (length data) ->
  let h := read_NsfHeader data in
  let before :=
    [NesNew] ++ setTrackZeroing h 0 (Z.of_nat (length data))
    ++ [NesSetData 0x4015 0x00; NesSetData 0x4015 0x0F;
        NesSetData 0x4017 0x40; NesCpuX 0; NesCpuA 0; NesCpuSp 0xEF] in
  let ok := negb (nes_cycles before (initAddress h) None <? 0) in
  exists s,
    open data s0 = Ok (ok, s)
    /\ m_nsfHeader s = Some h /\ m_header s = None /\ m_msxChip s = None
    /\ m_nesChip s = Some (before ++ [NesCallSubroutine (initAddress h) None])
    /\ (ok = true -> m_samplesPlayed s = 0 /\ m_waitSamples s = 0).
Proof.
  intros Hmagic Hsize. cbv zeta. unfold open.
  match goal with |- context [openVgm data ?t] => set (s00 := t) end.
  destruct (openVgm_rejects_other_magic data s00 ltac:(lia)) as (s1 & -> & _).
  cbv iota. unfold openNsf.
  destruct (Z.of_nat (length data) <? sizeof_NsfHeader) eqn:E; [lia|].
  cbn [nsfIdent read_NsfHeader]. rewrite Hmagic. cbn [Z.eqb Pos.eqb negb].
  match goal with |- context [setTrack 0 ?t] => set (s2 := t) end.
  destruct (setTrack_result 0 s2 (read_NsfHeader data) [NesNew])
    as (s3 & Hrun & Hchip & Hnsf & Hvgm & Hmsx & _ & _ & _ & _ & Hplayed);
    try reflexivity.
  cbv zeta in Hrun, Hchip, Hplayed.
  unfold setTrackRegisters in Hrun, Hchip, Hplayed.
  replace (if 0 <? songIndex (read_NsfHeader data) then 0 else 0) with 0
    in Hrun, Hchip, Hplayed by (destruct (0 <? _); reflexivity).
  change (m_dataPtr s2) with 0 in Hrun, Hchip, Hplayed.
  change (m_size s2) with (Z.of_nat (length data)) in Hrun, Hchip, Hplayed.
  fold (read_NsfHeader data). rewrite Hrun. cbn [bind].
  destruct (negb (nes_cycles _ _ None <? 0)) eqn:Eok; cbn [negb].
  - eexists. split; [reflexivity|].
    cbn [m_nsfHeader m_header m_msxChip m_nesChip m_samplesPlayed
         m_waitSamples set_waitSamples set_samplesPlayed].
    repeat split; auto.
  - eexists. split; [reflexivity|]. repeat split; auto; discriminate.
Qed.

End OpenNsfFile.

Lemma open_nsf_file_witness :
  exists s, opened (nsfImage [0x60]) = Ok (true, s) /\ m_msxChip s = None.
Proof.
  destruct (@open_nsf_file layout128 silentChips (nsfImage [0x60]) newVgmFile)
    as (s & Hopen & _ & _ & Hmsx & _).
  - vm_compute. reflexivity.
  - vm_compute. discriminate.
  - exists s. split; [exact Hopen | exact Hmsx].
Defined.

(** ** Bank switching *)

(** X9.  The bank registers.  On an NSF player, [setTrack] writes to the
    chip through [write] only for bank switching: when at least one of the
    eight bank bytes of the header is not 0 it writes all eight of them,
    bank [i] to $5FF8 + [i], and when all are 0 it writes none.  These
    writes are among the calls made before the init routine is called,
    which is the last call [setTrack] makes. *)
Theorem setTrack_bank_switch {C : Chips} (track : Z) (s : VgmFile)
  (h : NsfHeader) (calls : list NesCall) :
  m_header s = None -> m_nsfHeader s = Some h -> m_nesChip s = Some calls ->
  exists b s' before,
    setTrack track s = Ok (b, s')
    /\ m_nesChip s'
       = Some (calls ++ before ++ [NesCallSubroutine (initAddress h) None])
    /\ forall a v,
         In (NesWrite a v) before
         <-> existsb (fun x => negb (x =? 0)) (bankSwitch h) = true
             /\ exists i, 0 <= i < 8 /\ a = 0x5FF8 + i
                          /\ v = nth (Z.to_nat i) (bankSwitch h) 0.
Proof.
  intros Hvgm Hnsf Hchip.
  destruct (setTrack_result track s h calls Hvgm Hnsf Hchip)
    as (s' & Hrun & Hmade & _).
  cbv zeta in Hrun, Hmade.
  eexists. exists s'.
  exists (setTrackZeroing h (m_dataPtr s) (m_size s) ++ setTrackRegisters h track).
  split; [exact Hrun|]. split.
  { rewrite Hmade. now rewrite <- !app_assoc. }
  intros a v. unfold setTrackZeroing, setTrackRegisters.
  rewrite !in_app_iff. split.
  - intros [[Hhead | [Hbanks | [Hram | Hapu]]] | Hregs].
    + cbn in Hhead. destruct Hhead as [Hd | [Hd | []]]; discriminate Hd.
    + destruct (existsb _ _); [|destruct Hbanks].
      split; [reflexivity|].
      unfold rangeCalls in Hbanks. apply in_map_iff in Hbanks.
      destruct Hbanks as (i & [= <- <-] & Hi). apply in_zrange in Hi.
      exists i. repeat split; lia.
    + unfold rangeCalls in Hram. apply in_map_iff in Hram.
      destruct Hram as (i & Hd & _). discriminate Hd.
    + unfold rangeCalls in Hapu. apply in_map_iff in Hapu.
      destruct Hapu as (i & Hd & _). discriminate Hd.
    + cbn in Hregs. repeat (destruct Hregs as [Hd | Hregs]; [discriminate Hd|]).
      destruct Hregs.
  - intros (-> & i & Hi & -> & ->). left. right. left.
    unfold rangeCalls. apply in_map_iff. exists i.
    split; [reflexivity|]. apply in_zrange. lia.
Qed.

Lemma setTrack_bank_switch_witness :
  exists b s' before,
    @setTrack silentChips 0 (nsfStateOf silentChips nsfBankedImage)
    = Ok (b, s')
    /\ In (NesWrite 0x5FFF 7) before.
Proof.
  destruct (@setTrack_bank_switch silentChips 0
              (nsfStateOf silentChips nsfBankedImage)
              (read_NsfHeader nsfBankedImage)
              (match m_nesChip (nsfStateOf silentChips nsfBankedImage) with
               | Some calls => calls
               | None => []
               end))
    as (b & s' & before & Hrun & _ & Hin).
  - vm_compute. reflexivity.
  - vm_compute. reflexivity.
  - vm_compute. reflexivity.
  - exists b, s', before. split; [exact Hrun|].
    apply Hin. split; [vm_compute; reflexivity|].
    exists 7. repeat split; vm_compute; (reflexivity || discriminate).
Defined.

(** ** The NSF decoder *)

Section NsfDecoder.

Context {C : Chips}.

Lemma decodeNfsLoop_step (h : NsfHeader) (fuel : nat) (maxSize : Z)
  (s : VgmFile) (out : list byte) (decoded : Z) :
  decodeNfsLoop h (S fuel) maxSize s out decoded
  = match roomForFrame decoded maxSize with
    | Crash f => Aborted f
    | Ok false => Returned decoded out s
    | Ok true =>
        let pumpOn (s' : VgmFile) :=
          match pump (Z.to_nat (m_waitSamples s')) maxSize s' out decoded with
          | Crash f => Aborted f
          | Ok (s'', out', decoded') =>
              decodeNfsLoop h fuel maxSize s'' out' decoded'
          end in
        if m_waitSamples s =? 0 then
          if negb (m_duration s =? 0) && (m_duration s <=? m_samplesPlayed s)
          then Returned decoded out s
          else
            match callSubroutine (playAddress h) (Some 20000) s with
            | Crash f => Aborted f
            | Ok (result, s1) =>
                if result <? 0 then Returned decoded out s1
                else if result =? 0 then Returned decoded out s1
                else
                  pumpOn
                    (set_waitSamples
                       (wrap32 (VGM_SAMPLE_RATE * ntscPlaySpeed h) / 1000000)
                       s1)
            end
        else pumpOn s
    end.
Proof. reflexivity. Qed.

(** X10.  A failing play routine ends the call.  When [decodeNfsPcm], with
    [decoded] bytes written, room for a frame and no wait pending, calls
    the play routine and the CPU reports a fault (a negative cycle count)
    or hits the limit of 20000 cycles (count 0), the call returns [decoded]
    at once with the buffer as it was; no sample is pulled after the failed
    call.  The same call returns without calling the play routine at all
    when the duration cap has been reached. *)
Theorem nsf_play_failure_stops_decoding (h : NsfHeader) (s : VgmFile)
  (calls : list NesCall) (fuel : nat) (maxSize : Z) (out : list byte)
  (decoded : Z) :
  m_nesChip s = Some calls -> m_waitSamples s = 0 ->
  roomForFrame decoded maxSize = Ok true ->
  nes_cycles calls (playAddress h) (Some 20000) <= 0 ->
  decodeNfsLoop h (S fuel) maxSize s out decoded
  = Returned decoded out
      (if capReached s then s
       else set_nesChip
              (Some (calls ++ [NesCallSubroutine (playAddress h) (Some 20000)]))
              s).
Proof.
  intros Hchip Hwait Hroom Hfail.
  rewrite decodeNfsLoop_step, Hroom. cbv zeta.
  rewrite Hwait. cbn [Z.eqb]. fold (capReached s).
  destruct (capReached s); [reflexivity|].
  unfold callSubroutine. rewrite Hchip.
  destruct (nes_cycles calls (playAddress h) (Some 20000) <? 0) eqn:Eneg;
    [reflexivity|].
  destruct (nes_cycles calls (playAddress h) (Some 20000) =? 0) eqn:Ezero;
    [reflexivity | lia].
Qed.

(** With a play speed below 23 microseconds the wait between two calls of
    the play routine is 0 samples. *)
Lemma nsf_wait_zero (speed : Z) :
  0 <= speed <= 22 -> wrap32 (VGM_SAMPLE_RATE * speed) / 1000000 = 0.
Proof.
  intros Hs. unfold wrap32, VGM_SAMPLE_RATE.
  rewrite Z.mod_small by lia. apply Z.div_small. lia.
Qed.

Lemma decodeNfsLoop_stalls (h : NsfHeader) (maxSize : Z) :
  (forall calls, 0 < nes_cycles calls (playAddress h) (Some 20000)) ->
  0 <= ntscPlaySpeed h <= 22 -> 4 <= maxSize ->
  forall (fuel : nat) (s : VgmFile),
    m_nesChip s <> None -> m_waitSamples s = 0 -> capReached s = false ->
    exists s', decodeNfsLoop h fuel maxSize s [] 0 = Running 0 [] s'.
Proof.
  intros Hplay Hspeed Hmax fuel.
  induction fuel as [|fuel IH]; intros s Hchip Hwait Hcap.
  - exists s. reflexivity.
  - rewrite decodeNfsLoop_step. unfold roomForFrame.
    change (INT_MAX <? 0 + 4) with false. cbv iota.
    destruct (0 + 4 <=? maxSize) eqn:Eroom; [|lia]. cbv zeta.
    rewrite Hwait. cbn [Z.eqb]. fold (capReached s). rewrite Hcap.
    unfold callSubroutine.
    destruct (m_nesChip s) as [calls|] eqn:Ecalls; [|congruence].
    pose proof (Hplay calls) as Hpos.
    destruct (nes_cycles calls (playAddress h) (Some 20000) <? 0) eqn:Eneg;
      [lia|].
    destruct (nes_cycles calls (playAddress h) (Some 20000) =? 0) eqn:Ezero;
      [lia|].
    rewrite (nsf_wait_zero _ Hspeed).
    cbn [m_waitSamples set_waitSamples Z.to_nat pump].
    apply IH; [discriminate | reflexivity | exact Hcap].
Qed.

(** X11.  An NSF whose play speed is below 23 microseconds stalls the
    decoder.  The wait computed after each call of the play routine,
    44100 * speed / 1000000, is then 0 samples: as long as the play routine
    succeeds, [decodeNfsPcm] calls it again and again without pulling a
    sample, the sample counter stands still, the duration cap cannot fire,
    and the call never returns: whatever the fuel, it is still running with
    0 bytes decoded. *)
Theorem nsf_zero_wait_never_returns (h : NsfHeader) (s : VgmFile)
  (maxSize : Z) (fuel : nat) :
  (forall calls, 0 < nes_cycles calls (playAddress h) (Some 20000)) ->
  0 <= ntscPlaySpeed h <= 22 ->
  m_nsfHeader s = Some h -> m_nesChip s <> None ->
  m_waitSamples s = 0 -> capReached s = false -> 4 <= maxSize ->
  exists s', decodePcm fuel maxSize s = Running 0 [] s'.
Proof.
  intros Hplay Hspeed Hnsf Hchip Hwait Hcap Hmax.
  unfold decodePcm. rewrite Hnsf. unfold decodeNfsPcm.
  now apply decodeNfsLoop_stalls.
Qed.

End NsfDecoder.

Lemma nsf_play_failure_stops_decoding_witness :
  exists s,
    @decodeNfsLoop runawayChips (read_NsfHeader (nsfImage [0x60])) 1 4096
      (nsfStateOf runawayChips (nsfImage [0x60])) [] 0
    = Returned 0 [] s.
Proof.
  eexists.
  refine (@nsf_play_failure_stops_decoding runawayChips
            (read_NsfHeader (nsfImage [0x60]))
            (nsfStateOf runawayChips (nsfImage [0x60]))
            (match m_nesChip (nsfStateOf runawayChips (nsfImage [0x60])) with
             | Some calls => calls
             | None => []
             end) 0 4096 [] 0 _ _ _ _).
  - vm_compute. reflexivity.
  - vm_compute. reflexivity.
  - vm_compute. reflexivity.
  - vm_compute. discriminate.
Defined.

Lemma nsf_zero_wait_never_returns_witness :
  exists s',
    @decodePcm silentChips 1000 4096 (nsfStateOf silentChips nsfStallImage)
    = Running 0 [] s'.
Proof.
  refine (@nsf_zero_wait_never_returns silentChips
            (read_NsfHeader nsfStallImage)
            (nsfStateOf silentChips nsfStallImage) 4096 1000 _ _ _ _ _ _ _).
  - intros calls. vm_compute. reflexivity.
  - vm_compute. split; discriminate.
  - vm_compute. reflexivity.
  - vm_compute. discriminate.
  - vm_compute. reflexivity.
  - vm_compute. reflexivity.
  - vm_compute. discriminate.
Defined.

(** ** The merge over a window *)

Lemma mergeLane_high (next acc : Z) :
  8192 <= next -> 8192 <= acc -> mergeLane next acc = Z.max acc next.
Proof. unfold mergeLane. intros. destruct (_ || _) eqn:E; lia. Qed.

Lemma mergeLane_low (next acc : Z) :
  next < 8192 -> acc < 8192 -> mergeLane next acc = Z.min acc next.
Proof. unfold mergeLane. intros. destruct (_ || _) eqn:E; lia. Qed.

(** X12.  What the merge keeps.  Over a window of samples that all lie at
    or above 8192 the lane of the accumulator ends as their maximum, over a
    window of samples that all lie below 8192 as their minimum.  But a
    sample on the other side of 8192 than the accumulator always replaces
    it, however close to 8192 it is: of two samples on different sides the
    later one is kept, so the result depends on their order and not on
    their distance from 8192. *)
Theorem mergeWindow_keeps (first : Z) (rest : list Z) :
  ((forall x, In x (first :: rest) -> 8192 <= x) ->
   mergeWindow first rest = fold_left Z.max rest first)
  /\ ((forall x, In x (first :: rest) -> x < 8192) ->
      mergeWindow first rest = fold_left Z.min rest first)
  /\ (forall a b, 8192 <= a -> b < 8192 ->
      mergeWindow a [b] = b /\ mergeWindow b [a] = a).
Proof.
  unfold mergeWindow. split; [|split].
  - revert first. induction rest as [|x rest IH]; intros first Hall;
      cbn [fold_left]; [reflexivity|].
    rewrite mergeLane_high by (apply Hall; cbn; auto).
    apply IH. intros y [<- | Hy]; [|apply Hall; cbn; auto].
    pose proof (Hall x ltac:(cbn; auto)). pose proof (Hall first ltac:(cbn; auto)).
    lia.
  - revert first. induction rest as [|x rest IH]; intros first Hall;
      cbn [fold_left]; [reflexivity|].
    rewrite mergeLane_low by (apply Hall; cbn; auto).
    apply IH. intros y [<- | Hy]; [|apply Hall; cbn; auto].
    pose proof (Hall x ltac:(cbn; auto)). pose proof (Hall first ltac:(cbn; auto)).
    lia.
  - intros a b Ha Hb. cbn [fold_left]. unfold mergeLane.
    split; destruct (_ || _) eqn:E; lia.
Qed.

Lemma mergeWindow_keeps_witness :
  mergeWindow 9000 [8200; 12000; 8192] = fold_left Z.max [8200; 12000; 8192] 9000.
Proof.
  apply (proj1 (mergeWindow_keeps 9000 [8200; 12000; 8192])).
  intros x Hx. cbn in Hx.
  destruct Hx as [<- | [<- | [<- | [<- | []]]]]; lia.
Defined.

(** ** Data blocks *)

Lemma nextCommand_data_block (s : VgmFile) :
  rd s 0 = Ok 0x67 -> inImage s 7 ->
  exists s',
    nextCommand s = Ok (true, s')
    /\ m_dataPtr s' = m_dataPtr s + wrap32 (7 + blockLength s)
    /\ s' = set_dataPtr (m_dataPtr s + wrap32 (7 + blockLength s))
              (match m_nesChip s with
               | Some calls =>
                   set_nesChip
                     (Some (calls ++ [NesSetDataBlock (m_dataPtr s + 7)
                                        (blockLength s)])) s
               | None => s
               end).
Proof.
  intros Hrd [Hlo Hhi].
  unfold nextCommand. rewrite Hrd. cbn [bind].
  change (0x67 =? 0x31) with false. cbv iota.
  rewrite (rd_inside s 3), (rd_inside s 4), (rd_inside s 5), (rd_inside s 6)
    by lia.
  cbn -[wrap32 Z.shiftl field8 blockLength].
  rewrite (dataLength_field32 (m_dataImage s) (m_dataPtr s) _ _ _ _
             eq_refl eq_refl eq_refl eq_refl).
  fold (blockLength s). unfold nes_call.
  destruct (m_nesChip s); cbn [bind]; eexists; (split; [reflexivity|]);
    split; reflexivity.
Qed.

(** X13.  A data block is skipped without a look at the file size.  The
    command 0x67 moves the cursor by 7 plus its 32-bit length field, as an
    unsigned 32-bit sum, and returns true also when the block claims more
    bytes than the image the cursor points into has left; the next
    [nextCommand] then fetches its command byte behind the end of that
    image. *)
Theorem data_block_past_end (s : VgmFile) :
  rd s 0 = Ok 0x67 -> inImage s 7 ->
  Z.of_nat (length (m_dataImage s))
  <= m_dataPtr s + wrap32 (7 + blockLength s) ->
  exists s',
    nextCommand s = Ok (true, s')
    /\ m_dataPtr s' = m_dataPtr s + wrap32 (7 + blockLength s)
    /\ nextCommand s' = Crash OutOfBounds.
Proof.
  intros Hrd Hin Hpast.
  destruct (nextCommand_data_block s Hrd Hin) as (s' & Hcmd & Hptr & Hs').
  exists s'. split; [exact Hcmd|]. split; [exact Hptr|].
  assert (Himg : m_dataImage s' = m_dataImage s)
    by (rewrite Hs'; destruct (m_nesChip s); reflexivity).
  unfold nextCommand. rewrite (rd_outside s' 0); [reflexivity|].
  rewrite Himg, Hptr. lia.
Qed.

Lemma data_block_past_end_witness :
  exists s',
    nextCommand (stateOf cutBlockImage) = Ok (true, s')
    /\ nextCommand s' = Crash OutOfBounds.
Proof.
  destruct (data_block_past_end (stateOf cutBlockImage))
    as (s' & Hcmd & _ & Hnext).
  - vm_compute. reflexivity.
  - unfold inImage. vm_compute. split; discriminate.
  - vm_compute. discriminate.
  - exists s'. split; [exact Hcmd | exact Hnext].
Defined.

Section DataBlockWrap.

Context {C : Chips}.

(** A command that returns true and changes nothing is executed for ever. *)
Lemma fetchCommands_fixed_point (s : VgmFile) :
  nextCommand s = Ok (true, s) ->
  m_waitSamples s = 0 -> capReached s = false ->
  forall fuel, fetchCommands fuel s = FetchRunning s.
Proof.
  intros Hcmd Hwait Hcap fuel.
  induction fuel as [|fuel IH]; cbn [fetchCommands];
    fold (capReached s); rewrite Hwait, Hcap; cbn [Z.eqb negb].
  - reflexivity.
  - now rewrite Hcmd.
Qed.

Lemma set_dataPtr_same (s : VgmFile) (p : Z) :
  p = m_dataPtr s -> set_dataPtr p s = s.
Proof. intros ->. destruct s. reflexivity. Qed.

(** X14.  A data block whose length field is 0xFFFFFFF9 stalls the VGM
    decoder.  The sum 7 + length wraps to 0, the cursor stays on the 0x67
    and, when no NES chip takes the block, nothing else changes:
    [decodePcm] executes the same command for ever and, whatever the fuel,
    is still running with 0 bytes decoded. *)
Theorem data_block_wrap_never_returns (s : VgmFile) (maxSize : Z)
  (fuel : nat) :
  rd s 0 = Ok 0x67 -> inImage s 7 -> blockLength s = 0xFFFFFFF9 ->
  m_nesChip s = None -> m_nsfHeader s = None ->
  m_waitSamples s = 0 -> capReached s = false -> 4 <= maxSize ->
  nextCommand s = Ok (true, s)
  /\ decodePcm fuel maxSize s = Running 0 [] s.
Proof.
  intros Hrd Hin Hlen Hnes Hnsf Hwait Hcap Hmax.
  assert (Hcmd : nextCommand s = Ok (true, s)).
  { destruct (nextCommand_data_block s Hrd Hin) as (s' & Hcmd & _ & ->).
    rewrite Hcmd, Hnes, Hlen. f_equal. f_equal.
    apply set_dataPtr_same. change (wrap32 (7 + 0xFFFFFFF9)) with 0. lia. }
  split; [exact Hcmd|].
  unfold decodePcm. rewrite Hnsf. unfold decodeVgmPcm.
  destruct fuel as [|fuel]; [reflexivity|].
  rewrite decodeVgmLoop_step. unfold roomForFrame.
  change (INT_MAX <? 0 + 4) with false. cbv iota.
  destruct (0 + 4 <=? maxSize) eqn:Eroom; [|lia].
  now rewrite (fetchCommands_fixed_point s Hcmd Hwait Hcap).
Qed.

End DataBlockWrap.

Lemma data_block_wrap_never_returns_witness :
  @decodePcm silentChips 1000 4096 (stateOf wrapBlockImage)
  = Running 0 [] (stateOf wrapBlockImage).
Proof.
  refine (proj2 (@data_block_wrap_never_returns silentChips
                   (stateOf wrapBlockImage) 4096 1000 _ _ _ _ _ _ _ _)).
  - vm_compute. reflexivity.
  - unfold inImage. vm_compute. split; discriminate.
  - vm_compute. reflexivity.
  - vm_compute. reflexivity.
  - vm_compute. reflexivity.
  - vm_compute. reflexivity.
  - vm_compute. reflexivity.
  - vm_compute. discriminate.
Defined.

(** ** Opening again *)

(** X15.  [open] starts playback afresh.  The player that a successful
    [openVgm] leaves is the same whatever was open or played before: of the
    previous player only the duration cap and the host rate survive.
    Chips, headers, cursor, loop counter, sample counter, pending wait and
    the state of the rate converter are all set anew from the image. *)
Theorem openVgm_starts_afresh {L : Layout} (data : list byte)
  (s0 s0' s : VgmFile) :
  openVgm data s0 = (true, s) ->
  m_duration s0' = m_duration s0 -> m_writeScaler s0' = m_writeScaler s0 ->
  openVgm data s0' = (true, s).
Proof.
  unfold openVgm. intros Hopen Hd Hw.
  destruct (_ <? _); [discriminate|].
  destruct (negb (ident _ =? _)); [discriminate|].
  destruct (negb (eofOffset _ =? _)); [discriminate|].
  injection Hopen as <-. apply (f_equal (pair true)).
  cbn [close deleteChips set_nesChip set_msxChip set_samplesPlayed
       m_nsfHeader m_duration m_writeScaler m_msxChip m_nesChip].
  rewrite Hd, Hw. reflexivity.
Qed.

Lemma openVgm_starts_afresh_witness :
  @openVgm layout128 loopImage (stateOf waitImage)
  = (true, stateOf loopImage).
Proof.
  refine (@openVgm_starts_afresh layout128 loopImage (close newVgmFile)
            (stateOf waitImage) (stateOf loopImage) _ _ _);
    vm_compute; reflexivity.
Defined.

(** ** Decoding in several calls *)

Section Resume.

Context {C : Chips}.

Lemma pump_wait_range (maxSize : Z) (n : nat) :
  forall (s : VgmFile) (out : list byte) (decoded : Z) s' out' decoded',
    0 <= m_waitSamples s ->
    pump n maxSize s out decoded = Ok (s', out', decoded') ->
    0 <= m_waitSamples s' <= m_waitSamples s.
Proof.
  induction n as [|n IH]; intros s out decoded s' out' decoded' Hwait Hrun;
    cbn [pump] in Hrun.
  - injection Hrun as <- <- <-. lia.
  - destruct (m_waitSamples s =? 0) eqn:E0.
    + injection Hrun as <- <- <-. lia.
    + destruct (roomForFrame decoded maxSize) as [[|]|];
        cbn [bind] in Hrun; [| |discriminate].
      * pose proof (pumpStep_wait s out decoded) as Hstep.
        destruct (pumpStep s out decoded) as [[s1 out1] decoded1].
        cbn [fst] in Hstep.
        pose proof (IH s1 out1 decoded1 s' out' decoded' ltac:(lia) Hrun). lia.
      * injection Hrun as <- <- <-. lia.
Qed.

(** Turns beyond the wait are never used. *)
Lemma pump_fuel_enough (maxSize : Z) (n : nat) :
  forall (s : VgmFile) (out : list byte) (decoded : Z),
    0 <= m_waitSamples s <= Z.of_nat n ->
    pump n maxSize s out decoded
    = pump (Z.to_nat (m_waitSamples s)) maxSize s out decoded.
Proof.
  induction n as [|n IH]; intros s out decoded Hwait.
  - replace (m_waitSamples s) with 0 by lia. reflexivity.
  - destruct (m_waitSamples s =? 0) eqn:E0.
    + replace (m_waitSamples s) with 0 by lia. cbn [pump Z.to_nat].
      replace (m_waitSamples s) with 0 by lia. reflexivity.
    + replace (Z.to_nat (m_waitSamples s))
        with (S (Z.to_nat (m_waitSamples s - 1))) by lia.
      cbn [pump]. rewrite E0.
      destruct (roomForFrame decoded maxSize) as [[|]|]; cbn [bind];
        try reflexivity.
      pose proof (pumpStep_wait s out decoded) as Hstep.
      destruct (pumpStep s out decoded) as [[s1 out1] decoded1].
      cbn [fst] in Hstep.
      rewrite (IH s1 out1 decoded1) by lia. now rewrite Hstep.
Qed.

(** A bigger buffer lets the pump go on from where the smaller one made it
    stop. *)
Lemma pump_split (small big : Z) (n : nat) :
  small <= big ->
  forall (s : VgmFile) (out : list byte) (decoded : Z) s1 out1 decoded1,
    0 <= m_waitSamples s <= Z.of_nat n ->
    pump n small s out decoded = Ok (s1, out1, decoded1) ->
    pump n big s out decoded = pump n big s1 out1 decoded1.
Proof.
  intros Hle. induction n as [|n IH];
    intros s out decoded s1 out1 decoded1 Hwait Hrun.
  - cbn [pump] in Hrun. injection Hrun as <- <- <-. reflexivity.
  - cbn [pump] in Hrun. destruct (m_waitSamples s =? 0) eqn:E0.
    + injection Hrun as <- <- <-. reflexivity.
    + unfold roomForFrame in Hrun.
      destruct (INT_MAX <? decoded + 4) eqn:Eov; [discriminate|].
      cbn [bind] in Hrun.
      destruct (decoded + 4 <=? small) eqn:Eroom.
      * pose proof (pumpStep_wait s out decoded) as Hstep.
        destruct (pumpStep s out decoded) as [[s' out'] decoded'] eqn:Estep.
        cbn [fst] in Hstep.
        pose proof (pump_wait_range small n s' out' decoded' s1 out1 decoded1
                      ltac:(lia) Hrun) as Hrange.
        rewrite (pump_fuel_enough big (S n) s1) by lia.
        rewrite <- (pump_fuel_enough big n s1) by lia.
        rewrite <- (IH s' out' decoded' s1 out1 decoded1 ltac:(lia) Hrun).
        cbn [pump]. rewrite E0. unfold roomForFrame. rewrite Eov. cbn [bind].
        destruct (decoded + 4 <=? big) eqn:Ebig; [|lia].
        now rewrite Estep.
      * injection Hrun as <- <- <-. reflexivity.
Qed.

Lemma fetchCommands_wait_nonneg (fuel : nat) :
  forall s s', fetchCommands fuel s = FetchWait s' ->
               0 <= m_waitSamples s -> 0 <= m_waitSamples s'.
Proof.
  induction fuel as [|fuel IH]; intros s s' Hrun Hwait;
    cbn [fetchCommands] in Hrun;
    destruct (m_waitSamples s =? 0) eqn:E0; cbn [negb] in Hrun;
    try (injection Hrun as <-; exact Hwait);
    destruct (negb (m_duration s =? 0) && (m_duration s <=? m_samplesPlayed s));
    try discriminate.
  destruct (nextCommand s) as [[[|] s1]|] eqn:Hcmd; try discriminate.
  apply (IH s1 s' Hrun).
  destruct (nextCommand_effect s s1 true Hcmd) as (Hw & _). lia.
Qed.

(** More fuel does not change a loop that has come to its end. *)
Lemma fetchCommands_more_fuel (fuel k : nat) :
  forall s r, fetchCommands fuel s = r ->
              (forall t, r <> FetchRunning t) ->
              fetchCommands (fuel + k) s = r.
Proof.
  induction fuel as [|fuel IH]; intros s r Hrun Hdone.
  - cbn [fetchCommands] in Hrun. destruct k as [|k]; cbn [Nat.add fetchCommands];
      destruct (negb (m_waitSamples s =? 0)); try exact Hrun;
      destruct (negb (m_duration s =? 0) && (m_duration s <=? m_samplesPlayed s));
      try exact Hrun; subst r; now contradiction (Hdone s).
  - cbn [Nat.add]. rewrite fetchCommands_step in *.
    destruct (negb (m_waitSamples s =? 0)); [exact Hrun|].
    destruct (negb (m_duration s =? 0) && (m_duration s <=? m_samplesPlayed s));
      [exact Hrun|].
    destruct (nextCommand s) as [[[|] s1]|]; try exact Hrun.
    now apply IH.
Qed.

Lemma decodeVgmLoop_more_fuel (maxSize : Z) (fuel k : nat) :
  forall s out decoded d o s',
    decodeVgmLoop fuel maxSize s out decoded = Returned d o s' ->
    decodeVgmLoop (fuel + k) maxSize s out decoded = Returned d o s'.
Proof.
  induction fuel as [|fuel IH]; intros s out decoded d o s' Hrun.
  - discriminate Hrun.
  - cbn [Nat.add]. rewrite decodeVgmLoop_step in *.
    destruct (roomForFrame decoded maxSize) as [[|]|]; try exact Hrun.
    destruct (fetchCommands fuel s) as [t|t|t|f] eqn:Efetch; try discriminate.
    + rewrite (fetchCommands_more_fuel fuel k s _ Efetch) by discriminate.
      exact Hrun.
    + rewrite (fetchCommands_more_fuel fuel k s _ Efetch) by discriminate.
      destruct (pump _ maxSize t out decoded) as [[[t' out'] decoded']|];
        [now apply IH | discriminate].
Qed.

(** At the head of the outer loop a pending wait is pumped first. *)
Lemma decodeVgmLoop_pumps_first (maxSize : Z) (fuel : nat) (s : VgmFile)
  (out : list byte) (decoded : Z) d o s' :
  0 <= m_waitSamples s ->
  decodeVgmLoop fuel maxSize s out decoded = Returned d o s' ->
  exists fuel',
    match pump (Z.to_nat (m_waitSamples s)) maxSize s out decoded with
    | Ok (t, out', decoded') => decodeVgmLoop fuel' maxSize t out' decoded'
    | Crash f => Aborted f
    end = Returned d o s'.
Proof.
  intros Hwait Hrun. destruct fuel as [|fuel]; [discriminate|].
  destruct (m_waitSamples s =? 0) eqn:E0.
  - exists (S fuel). replace (m_waitSamples s) with 0 by lia. exact Hrun.
  - replace (Z.to_nat (m_waitSamples s))
      with (S (Z.to_nat (m_waitSamples s - 1))) by lia.
    rewrite decodeVgmLoop_step in Hrun. cbn [pump]. rewrite E0.
    destruct (roomForFrame decoded maxSize) as [[|]|] eqn:Eroom; cbn [bind];
      [| |discriminate].
    + exists fuel.
      assert (Hfetch : fetchCommands fuel s = FetchWait s)
        by (destruct fuel; cbn [fetchCommands]; rewrite E0; reflexivity).
      rewrite Hfetch in Hrun.
      replace (Z.to_nat (m_waitSamples s))
        with (S (Z.to_nat (m_waitSamples s - 1))) in Hrun by lia.
      cbn [pump] in Hrun. rewrite E0, Eroom in Hrun. cbn [bind] in Hrun.
      exact Hrun.
    + exists (S fuel). rewrite decodeVgmLoop_step, Eroom. exact Hrun.
Qed.

(** A call that stopped because its buffer was full can be continued with a
    bigger buffer as if it had had the bigger buffer from the start. *)
Lemma decodeVgmLoop_resume (small big : Z) (fuel1 : nat) :
  small <= big ->
  forall s out decoded d1 out1 s1,
    0 <= m_waitSamples s ->
    decodeVgmLoop fuel1 small s out decoded = Returned d1 out1 s1 ->
    roomForFrame d1 small = Ok false ->
    forall fuel2 d2 out2 s2,
      decodeVgmLoop fuel2 big s1 out1 d1 = Returned d2 out2 s2 ->
      exists fuel, decodeVgmLoop fuel big s out decoded = Returned d2 out2 s2.
Proof.
  intros Hle. induction fuel1 as [|fuel1 IH];
    intros s out decoded d1 out1 s1 Hwait Hrun Hfull fuel2 d2 out2 s2 Hnext.
  - discriminate Hrun.
  - rewrite decodeVgmLoop_step in Hrun.
    destruct (roomForFrame decoded small) as [[|]|] eqn:Eroom;
      [| |discriminate].
    + assert (Ebig : roomForFrame decoded big = Ok true).
      { unfold roomForFrame in *.
        destruct (INT_MAX <? decoded + 4); [discriminate|].
        injection Eroom as Eroom. f_equal. lia. }
      destruct (fetchCommands fuel1 s) as [t|t|t|f] eqn:Efetch;
        try discriminate.
      * injection Hrun as <- <- <-. congruence.
      * pose proof (fetchCommands_wait_nonneg fuel1 s t Efetch Hwait) as Ht.
        destruct (pump (Z.to_nat (m_waitSamples t)) small t out decoded)
          as [[[t' out'] decoded']|] eqn:Epump; [|discriminate].
        pose proof (pump_wait_range small _ t out decoded t' out' decoded'
                      Ht Epump) as Ht'.
        destruct (IH t' out' decoded' d1 out1 s1 ltac:(lia) Hrun Hfull
                    fuel2 d2 out2 s2 Hnext) as (fuel' & Hbig).
        destruct (decodeVgmLoop_pumps_first big fuel' t' out' decoded'
                    d2 out2 s2 ltac:(lia) Hbig) as (fuel'' & Hpumped).
        exists (S (fuel1 + fuel'')).
        rewrite decodeVgmLoop_step, Ebig.
        rewrite (fetchCommands_more_fuel fuel1 fuel'' s _ Efetch) by discriminate.
        rewrite (pump_split small big (Z.to_nat (m_waitSamples t)) Hle
                   t out decoded t' out' decoded' ltac:(lia) Epump).
        rewrite (pump_fuel_enough big _ t') by lia.
        destruct (pump (Z.to_nat (m_waitSamples t')) big t' out' decoded')
          as [[[u out''] decoded'']|]; [|discriminate].
        rewrite Nat.add_comm. now apply decodeVgmLoop_more_fuel.
    + injection Hrun as <- <- <-. now exists fuel2.
Qed.

Lemma pumpStep_shift (s : VgmFile) (front out : list byte) (base decoded : Z) :
  pumpStep s (front ++ out) (base + decoded)
  = (fst (fst (pumpStep s out decoded)),
     front ++ snd (fst (pumpStep s out decoded)),
     base + snd (pumpStep s out decoded)).
Proof.
  unfold pumpStep.
  match goal with |- context [if ?c then _ else _] => destruct c end;
    cbn [fst snd]; [|reflexivity].
  now rewrite app_assoc, Z.add_assoc.
Qed.

(** Decoding behind [base] bytes that are already in the buffer is decoding
    into a buffer that is [base] bytes shorter. *)
Lemma pump_shift (maxSize base : Z) (front : list byte) (n : nat) :
  0 <= base -> maxSize <= INT_MAX - 4 ->
  forall s out decoded s' out' decoded',
    0 <= decoded <= maxSize - base ->
    pump n (maxSize - base) s out decoded = Ok (s', out', decoded') ->
    pump n maxSize s (front ++ out) (base + decoded)
    = Ok (s', front ++ out', base + decoded')
    /\ 0 <= decoded' <= maxSize - base.
Proof.
  intros Hbase Hmax. induction n as [|n IH];
    intros s out decoded s' out' decoded' Hd Hrun; cbn [pump] in *.
  - injection Hrun as <- <- <-. auto.
  - destruct (m_waitSamples s =? 0); [injection Hrun as <- <- <-; auto|].
    unfold roomForFrame in *.
    destruct (INT_MAX <? decoded + 4) eqn:E1; [discriminate|].
    destruct (INT_MAX <? base + decoded + 4) eqn:E2; [lia|].
    cbn [bind] in *.
    destruct (decoded + 4 <=? maxSize - base) eqn:Eroom.
    + destruct (base + decoded + 4 <=? maxSize) eqn:Eroom'; [|lia].
      rewrite pumpStep_shift.
      pose proof (pumpStep_one_frame s out decoded) as Hframe.
      destruct (pumpStep s out decoded) as [[t out1] decoded1].
      cbn [fst snd] in *.
      apply IH; [|exact Hrun].
      destruct Hframe as [[-> _] | [-> _]]; lia.
    + destruct (base + decoded + 4 <=? maxSize) eqn:Eroom'; [lia|].
      injection Hrun as <- <- <-. auto.
Qed.

Lemma decodeVgmLoop_shift (maxSize base : Z) (front : list byte) (fuel : nat) :
  0 <= base -> maxSize <= INT_MAX - 4 ->
  forall s out decoded d o s',
    0 <= decoded <= maxSize - base ->
    decodeVgmLoop fuel (maxSize - base) s out decoded = Returned d o s' ->
    decodeVgmLoop fuel maxSize s (front ++ out) (base + decoded)
    = Returned (base + d) (front ++ o) s'.
Proof.
  intros Hbase Hmax. induction fuel as [|fuel IH];
    intros s out decoded d o s' Hd Hrun.
  - discriminate Hrun.
  - rewrite decodeVgmLoop_step in *. unfold roomForFrame in *.
    destruct (INT_MAX <? decoded + 4) eqn:E1; [discriminate|].
    destruct (INT_MAX <? base + decoded + 4) eqn:E2; [lia|].
    destruct (decoded + 4 <=? maxSize - base) eqn:Eroom.
    + destruct (base + decoded + 4 <=? maxSize) eqn:Eroom'; [|lia].
      destruct (fetchCommands fuel s) as [t|t|t|f]; try discriminate.
      * injection Hrun as <- <- <-. reflexivity.
      * destruct (pump _ (maxSize - base) t out decoded)
          as [[[t' out'] decoded']|] eqn:Epump; [|discriminate].
        destruct (pump_shift maxSize base front _ Hbase Hmax t out decoded
                    t' out' decoded' Hd Epump) as [-> Hd'].
        now apply IH.
    + destruct (base + decoded + 4 <=? maxSize) eqn:Eroom'; [lia|].
      injection Hrun as <- <- <-. reflexivity.
Qed.

(** X16.  Decoding a VGM in two calls gives what one call gives.  If a call
    of [decodeVgmPcm] with a buffer of [size1] bytes fills it to the last
    byte and a second call, on the player the first one left, decodes
    [d2] bytes into a buffer of [size2] bytes, then a single call with a
    buffer of [size1 + size2] bytes returns [size1 + d2], writes the bytes
    of the first call followed by those of the second, and leaves the same
    player. *)
Theorem decodeVgmPcm_in_two_calls (s s1 s2 : VgmFile) (fuel1 fuel2 : nat)
  (size1 size2 d2 : Z) (out1 out2 : list byte) :
  0 <= m_waitSamples s ->
  0 <= size1 -> 0 <= size2 -> size1 + size2 <= INT_MAX - 4 ->
  decodeVgmPcm fuel1 size1 s = Returned size1 out1 s1 ->
  decodeVgmPcm fuel2 size2 s1 = Returned d2 out2 s2 ->
  exists fuel,
    decodeVgmPcm fuel (size1 + size2) s
    = Returned (size1 + d2) (out1 ++ out2) s2.
Proof.
  intros Hwait H1 H2 Hmax Hfirst Hsecond. unfold decodeVgmPcm in *.
  assert (Hshift : decodeVgmLoop fuel2 (size1 + size2) s1 (out1 ++ [])
                     (size1 + 0)
                   = Returned (size1 + d2) (out1 ++ out2) s2).
  { apply decodeVgmLoop_shift; try lia.
    replace (size1 + size2 - size1) with size2 by lia. exact Hsecond. }
  rewrite app_nil_r, Z.add_0_r in Hshift.
  apply (decodeVgmLoop_resume size1 (size1 + size2) fuel1 ltac:(lia)
           s [] 0 size1 out1 s1 Hwait Hfirst) with (fuel2 := fuel2).
  - unfold roomForFrame.
    destruct (INT_MAX <? size1 + 4) eqn:E; [lia|].
    f_equal. lia.
  - exact Hshift.
Qed.

End Resume.

Lemma decodeVgmPcm_in_two_calls_witness :
  exists fuel,
    @decodeVgmPcm silentChips fuel (16 + 64) (stateOf longWaitImage)
    = Returned (16 + 28) (silence 16 ++ silence 28) afterSecondCall.
Proof.
  apply (@decodeVgmPcm_in_two_calls silentChips (stateOf longWaitImage)
           afterFirstCall afterSecondCall 3 4 16 64 28
           (silence 16) (silence 28)).
  - vm_compute. discriminate.
  - vm_compute. discriminate.
  - vm_compute. discriminate.
  - vm_compute. discriminate.
  - vm_compute. reflexivity.
  - vm_compute. reflexivity.
Defined.
